(** * lxd: wire envelope, operation records, certificate pinning

    A shallow embedding of the client/daemon core of lxd:
    - [lxd.Operation], [SetStatus], [SetResult] (the operation record),
    - [lxd.Response], [ParseResponse], [ParseError] and the client's
      dispatch helpers and trust-on-first-use confirmation,
    - the daemon's [/trust] handlers and the admin-password check.

    Go strings and byte slices are byte sequences; [error] is nil or a value
    observed through its [Error()] text; a result pair of a pointer and an
    error of which exactly one is nil is a sum; a method with a pointer
    receiver returns the updated record; code that can panic returns an
    [outcome]. *)

From Stdlib Require Import ZArith NArith Ascii String List Bool Lia.
From Stdlib.Strings Require Import Byte.
From stdpp Require Import base option strings list gmap.

Local Open Scope Z_scope.

(** ** Go basics *)

Module Go.

Definition bytes := list Byte.byte.

#[global] Instance byte_eq_dec : EqDecision Byte.byte := Byte.byte_eq_dec.

(** A non-nil value of the [error] interface; [Error()] gives its text. *)
Record error_value := errorString { Error_text : string }.

(** Go's [error]: [None] is nil. *)
Definition error := option error_value.

(** [errors.New(s)] *)
Definition errors_New (s : string) : error := Some (errorString s).

(** The result of running code that can panic. *)
Inductive outcome (A : Type) :=
| Returns (a : A)
| Panics (msg : string).
Arguments Returns {A} a.
Arguments Panics {A} msg.

#[global] Instance outcome_ret : MRet outcome := fun _ a => Returns a.
#[global] Instance outcome_bind : MBind outcome := fun _ _ f m =>
  match m with
  | Returns a => f a
  | Panics msg => Panics msg
  end.

(** [bytes.Equal] *)
Definition bytes_Equal (a b : bytes) : bool := bool_decide (a = b).

(** [s[i]] on a slice: a run-time panic when [i] is out of range. *)
Definition index {A} (s : list A) (i : nat) : outcome A :=
  match s !! i with
  | Some a => Returns a
  | None => Panics "runtime error: index out of range"
  end.

(** Reading through a pointer: a run-time panic when it is nil. *)
Definition deref {A} (p : option A) : outcome A :=
  match p with
  | Some a => Returns a
  | None => Panics "runtime error: nil pointer dereference"
  end.

(** Reading a map at a key: the zero value when the key is missing. *)
Definition map_index (m : gmap string Z) (k : string) : Z :=
  default 0 (m !! k).

(** [time.Time], as an instant. *)
Definition Time := Z.

(** A [func() error] value. *)
Definition func_error := unit -> error.

(** A [chan bool], by identity. *)
Definition chan_bool := positive.

End Go.

Export Go.

(** ** package unicode/utf8 *)

Module utf8.

Local Open Scope N_scope.

Definition rune := N.

Definition RuneError : rune := 0xFFFD.

Definition between (lo hi : N) (c : ascii) : bool :=
  (lo <=? N_of_ascii c) && (N_of_ascii c <=? hi).

Definition low6 (c : ascii) : N := N.land (N_of_ascii c) 0x3F.

(** [utf8.DecodeRune]: the first rune of [p] and its width in bytes;
    [(RuneError, 1)] on an invalid encoding, [(RuneError, 0)] on no input. *)
Definition DecodeRune (p : list ascii) : rune * nat :=
  match p with
  | [] => (RuneError, 0%nat)
  | c0 :: r =>
      let b0 := N_of_ascii c0 in
      if b0 <? 0x80 then (b0, 1%nat)
      else if b0 <? 0xC2 then (RuneError, 1%nat)
      else if b0 <? 0xE0 then
        match r with
        | c1 :: _ =>
            if between 0x80 0xBF c1
            then (N.lor (N.shiftl (N.land b0 0x1F) 6) (low6 c1), 2%nat)
            else (RuneError, 1%nat)
        | _ => (RuneError, 1%nat)
        end
      else if b0 <? 0xF0 then
        let lo := if b0 =? 0xE0 then 0xA0 else 0x80 in
        let hi := if b0 =? 0xED then 0x9F else 0xBF in
        match r with
        | c1 :: c2 :: _ =>
            if between lo hi c1 && between 0x80 0xBF c2
            then (N.lor (N.shiftl (N.land b0 0x0F) 12)
                    (N.lor (N.shiftl (low6 c1) 6) (low6 c2)), 3%nat)
            else (RuneError, 1%nat)
        | _ => (RuneError, 1%nat)
        end
      else if b0 <? 0xF5 then
        let lo := if b0 =? 0xF0 then 0x90 else 0x80 in
        let hi := if b0 =? 0xF4 then 0x8F else 0xBF in
        match r with
        | c1 :: c2 :: c3 :: _ =>
            if between lo hi c1 && between 0x80 0xBF c2
               && between 0x80 0xBF c3
            then (N.lor (N.shiftl (N.land b0 0x07) 18)
                    (N.lor (N.shiftl (low6 c1) 12)
                       (N.lor (N.shiftl (low6 c2) 6) (low6 c3))), 4%nat)
            else (RuneError, 1%nat)
        | _ => (RuneError, 1%nat)
        end
      else (RuneError, 1%nat)
  end.

Definition tail6 (r : rune) (shift : N) : ascii :=
  ascii_of_N (N.lor 0x80 (N.land (N.shiftr r shift) 0x3F)).

(** [utf8.EncodeRune] / [AppendRune]: surrogates and values past
    U+10FFFF are written as U+FFFD. *)
Definition EncodeRune (r : rune) : list ascii :=
  if r <=? 0x7F then [ascii_of_N r]
  else if r <=? 0x7FF then
    [ascii_of_N (N.lor 0xC0 (N.shiftr r 6)); tail6 r 0]
  else
    let r := if (0x10FFFF <? r) || ((0xD800 <=? r) && (r <=? 0xDFFF))
             then RuneError else r in
    if r <=? 0xFFFF then
      [ascii_of_N (N.lor 0xE0 (N.shiftr r 12)); tail6 r 6; tail6 r 0]
    else
      [ascii_of_N (N.lor 0xF0 (N.shiftr r 18)); tail6 r 12; tail6 r 6;
       tail6 r 0].

End utf8.

(** ** Reading characters off a text *)

Module chars.

Definition is_digit (c : ascii) : bool := utf8.between 0x30 0x39 c.

(** [s] without its first character, when that is [c]. *)
Definition expect (c : ascii) (s : list ascii) : option (list ascii) :=
  match s with
  | c' :: r => if Ascii.eqb c' c then Some r else None
  | [] => None
  end.

(** [s] without the prefix [p], when it starts with it. *)
Fixpoint strip_prefix (p s : list ascii) : option (list ascii) :=
  match p with
  | [] => Some s
  | c :: p' => expect c s ≫= strip_prefix p'
  end.

End chars.

(** ** package fmt: formatting with no operands *)

Module fmt.

Local Open Scope N_scope.

Definition is_flag (c : ascii) : bool :=
  match c with
  | "#"%char | "0"%char | "+"%char | "-"%char | " "%char => true
  | _ => false
  end.

Fixpoint skip_flags (s : list ascii) : list ascii :=
  match s with
  | c :: r => if is_flag c then skip_flags r else s
  | [] => []
  end.

(** [parsenum] over the text up to its end: whether a number was read, and
    what follows it.  A number past 1e6 gives up and moves to the end. *)
Fixpoint parsenum_from (num : N) (isnum : bool) (s : list ascii)
  : bool * list ascii :=
  match s with
  | c :: r =>
      if chars.is_digit c then
        if 1000000 <? num then (false, [])
        else parsenum_from (num * 10 + (N_of_ascii c - 0x30)) true r
      else (isnum, s)
  | [] => (isnum, [])
  end.

Definition parsenum (s : list ascii) : bool * list ascii :=
  parsenum_from 0 false s.

Fixpoint index_of (c : ascii) (s : list ascii) : option nat :=
  match s with
  | [] => None
  | d :: r => if Ascii.eqb c d then Some 0%nat else S <$> index_of c r
  end.

(** [parseArgNumber] at a text starting with an opening bracket: the width
    of the bracketed part and whether it holds a number. *)
Definition parseArgNumber (format : list ascii) : nat * bool :=
  if (length format <? 3)%nat then (1%nat, false)
  else
    match index_of "]" (tail format) with
    | Some j =>
        let '(isnum, rest) := parsenum (take j (tail format)) in
        (S (S j), isnum && match rest with [] => true | _ => false end)
    | None => (1%nat, false)
    end.

Definition badWidthString : list ascii := list_ascii_of_string "%!(BADWIDTH)".
Definition badPrecString : list ascii := list_ascii_of_string "%!(BADPREC)".
Definition noVerbString : list ascii := list_ascii_of_string "%!(NOVERB)".
Definition badIndexString : list ascii := list_ascii_of_string "(BADINDEX)".
Definition missingString : list ascii := list_ascii_of_string "(MISSING)".
Definition percentBangString : list ascii := list_ascii_of_string "%!".

(** Where [doPrintf] is within one verb: what it has written for it, the
    text left, and its flags [afterIndex] and [goodArgNum]. *)
Record verb_state := mkVerbState {
  written : list ascii;
  left : list ascii;
  afterIndex : bool;
  goodArgNum : bool
}.

(** [argNum, i, afterIndex = p.argNumber(...)] with no operands: an index
    in brackets is never that of an operand. *)
Definition argNumber (st : verb_state) : verb_state :=
  match chars.expect "[" (left st) with
  | Some _ =>
      let '(wid, ok) := parseArgNumber (left st) in
      mkVerbState (written st) (drop wid (left st)) ok false
  | None => mkVerbState (written st) (left st) false (goodArgNum st)
  end.

(** The width: a star finds no operand to take it from. *)
Definition width (st : verb_state) : verb_state :=
  match chars.expect "*" (left st) with
  | Some r =>
      mkVerbState (written st ++ badWidthString) r false (goodArgNum st)
  | None =>
      let '(present, r) := parsenum (left st) in
      mkVerbState (written st) r (afterIndex st)
        (if afterIndex st && present then false else goodArgNum st)
  end.

(** The precision, after a dot. *)
Definition precision (st : verb_state) : verb_state :=
  match chars.expect "." (left st) with
  | Some r =>
      let st :=
        argNumber
          (mkVerbState (written st) r (afterIndex st)
             (if afterIndex st then false else goodArgNum st)) in
      match chars.expect "*" (left st) with
      | Some r' =>
          mkVerbState (written st ++ badPrecString) r' false (goodArgNum st)
      | None =>
          let '(_, r') := parsenum (left st) in
          mkVerbState (written st) r' (afterIndex st) (goodArgNum st)
      end
  | None => st
  end.

(** The verb itself: a percent sign is written as it is, any other verb
    has no operand. *)
Definition verb (st : verb_state) : list ascii * list ascii :=
  match left st with
  | [] => (written st ++ noVerbString, [])
  | c :: _ =>
      let '(v, size) :=
        if N_of_ascii c <? 0x80 then (N_of_ascii c, 1%nat)
        else utf8.DecodeRune (left st) in
      (written st ++
       (if v =? N_of_ascii "%" then ["%"%char]
        else if goodArgNum st
             then percentBangString ++ utf8.EncodeRune v ++ missingString
             else percentBangString ++ utf8.EncodeRune v ++ badIndexString),
       drop size (left st))
  end.

(** One verb of [doPrintf], after its percent sign, with no operands: what
    is written and what text is left. *)
Definition verb_no_operands (s : list ascii) : list ascii * list ascii :=
  let st := argNumber (mkVerbState [] (skip_flags s) false true) in
  let st := width st in
  let st := precision st in
  let st := if afterIndex st then st else argNumber st in
  verb st.

(** [doPrintf(format, nil)]. *)
Fixpoint doPrintf (fuel : nat) (format : list ascii) : list ascii :=
  match fuel with
  | O => []
  | S fuel =>
      match format with
      | [] => []
      | c :: r =>
          if Ascii.eqb c "%" then
            let '(out, rest) := verb_no_operands r in
            out ++ doPrintf fuel rest
          else c :: doPrintf fuel r
      end
  end.

(** [fmt.Sprintf(format)] with no operands. *)
Definition Sprintf (format : string) : string :=
  string_of_list_ascii
    (doPrintf (S (String.length format)) (list_ascii_of_string format)).

(** [fmt.Errorf(format)] with no operands; the error is never nil. *)
Definition Errorf (format : string) : error_value :=
  errorString (Sprintf format).

End fmt.

(** ** package encoding/json: reading a document into a struct *)

Module json.

Local Open Scope N_scope.

(** A JSON document.  A member of an object keeps its key (unquoted), the
    text of its value as it stands in the input, and the value. *)
Local Unset Elimination Schemes.
Inductive value :=
| Null
| Bool (b : bool)
| Number (lit : list ascii)
| String (s : string)
| Array (vs : list value)
| Object (ms : list (string * list ascii * value)).
Local Set Elimination Schemes.

Definition member : Type := string * list ascii * value.

Definition is_space (c : ascii) : bool :=
  match c with
  | " "%char | "009"%char | "010"%char | "013"%char => true
  | _ => false
  end.

Fixpoint skip_space (s : list ascii) : list ascii :=
  match s with
  | c :: r => if is_space c then skip_space r else s
  | [] => []
  end.

Fixpoint span_digits (s : list ascii) : list ascii * list ascii :=
  match s with
  | c :: r =>
      if chars.is_digit c
      then let '(ds, r') := span_digits r in (c :: ds, r')
      else ([], s)
  | [] => ([], [])
  end.

(** The parts of a number literal at the head of [s]: each gives its text
    and what follows. *)
Definition scan_sign (s : list ascii) : list ascii * list ascii :=
  match chars.expect "-" s with
  | Some r => (["-"%char], r)
  | None => ([], s)
  end.

Definition scan_int (s : list ascii) : option (list ascii * list ascii) :=
  match s with
  | c :: r =>
      if Ascii.eqb c "0" then Some ([c], r)
      else if chars.is_digit c
      then let '(ds, r') := span_digits r in Some (c :: ds, r')
      else None
  | [] => None
  end.

Definition scan_frac (s : list ascii) : option (list ascii * list ascii) :=
  match chars.expect "." s with
  | Some r =>
      let '(ds, r') := span_digits r in
      match ds with [] => None | _ => Some ("."%char :: ds, r') end
  | None => Some ([], s)
  end.

Definition scan_exp_sign (s : list ascii) : list ascii * list ascii :=
  match s with
  | c :: r => if Ascii.eqb c "+" || Ascii.eqb c "-" then ([c], r) else ([], s)
  | [] => ([], s)
  end.

Definition scan_exp (s : list ascii) : option (list ascii * list ascii) :=
  match s with
  | e :: r =>
      if Ascii.eqb e "e" || Ascii.eqb e "E" then
        let '(sg, r) := scan_exp_sign r in
        let '(ds, r') := span_digits r in
        match ds with [] => None | _ => Some (e :: sg ++ ds, r') end
      else Some ([], s)
  | [] => Some ([], s)
  end.

(** A number literal at the head of [s]: the literal and what follows. *)
Definition scan_number (s : list ascii) : option (list ascii * list ascii) :=
  let '(sign, s) := scan_sign s in
  '(int, s) ← scan_int s;
  '(frac, s) ← scan_frac s;
  '(exp, s) ← scan_exp s;
  Some (sign ++ int ++ frac ++ exp, s).

Definition hex_digit (c : ascii) : option N :=
  let n := N_of_ascii c in
  if utf8.between 0x30 0x39 c then Some (n - 0x30)
  else if utf8.between 0x61 0x66 c then Some (n - 0x61 + 10)
  else if utf8.between 0x41 0x46 c then Some (n - 0x41 + 10)
  else None.

(** The four hex digits at the head of [s], as a number. *)
Definition hex4 (s : list ascii) : option N :=
  match s with
  | a :: b :: c :: d :: _ =>
      x3 ← hex_digit a; x2 ← hex_digit b;
      x1 ← hex_digit c; x0 ← hex_digit d;
      Some (x3 * 4096 + x2 * 256 + x1 * 16 + x0)
  | _ => None
  end.

(** [getu4]: the number of the [\u] escape at the head of [s]. *)
Definition getu4 (s : list ascii) : option N :=
  chars.strip_prefix ["\"%char; "u"%char] s ≫= hex4.

Definition is_surrogate (r : N) : bool := (0xD800 <=? r) && (r <? 0xE000).

(** [utf16.DecodeRune] *)
Definition utf16_DecodeRune (r1 r2 : N) : N :=
  if (0xD800 <=? r1) && (r1 <? 0xDC00) && (0xDC00 <=? r2) && (r2 <? 0xE000)
  then N.lor (N.shiftl (r1 - 0xD800) 10) (r2 - 0xDC00) + 0x10000
  else utf8.RuneError.

Definition simple_escape (c : ascii) : option ascii :=
  match c with
  | "034"%char => Some "034"%char
  | "\"%char => Some "\"%char
  | "/"%char => Some "/"%char
  | "b"%char => Some "008"%char
  | "f"%char => Some "012"%char
  | "n"%char => Some "010"%char
  | "r"%char => Some "013"%char
  | "t"%char => Some "009"%char
  | _ => None
  end.

(** The text of a string after its opening quote: its unquoted contents
    (escapes resolved, invalid UTF-8 and lone surrogates replaced by
    U+FFFD) and what follows the closing quote.  [skip] counts the
    characters ahead that belong to what was just read. *)
Fixpoint scan_string (skip : nat) (s : list ascii)
  : option (list ascii * list ascii) :=
  match s with
  | [] => None
  | c :: r =>
      match skip with
      | S k => scan_string k r
      | O =>
          if Ascii.eqb c "034" then Some ([], r)
          else if Ascii.eqb c "\" then
            match r with
            | [] => None
            | e :: r1 =>
                if Ascii.eqb e "u" then
                  rr ← hex4 r1;
                  if is_surrogate rr then
                    let dec :=
                      match getu4 (drop 4 r1) with
                      | Some rr1 => utf16_DecodeRune rr rr1
                      | None => utf8.RuneError
                      end in
                    if dec =? utf8.RuneError
                    then '(out, rest) ← scan_string 5 r;
                         Some (utf8.EncodeRune utf8.RuneError ++ out, rest)
                    else '(out, rest) ← scan_string 11 r;
                         Some (utf8.EncodeRune dec ++ out, rest)
                  else
                    '(out, rest) ← scan_string 5 r;
                    Some (utf8.EncodeRune rr ++ out, rest)
                else
                  x ← simple_escape e;
                  '(out, rest) ← scan_string 1 r;
                  Some (x :: out, rest)
            end
          else if N_of_ascii c <? 0x20 then None
          else if N_of_ascii c <? 0x80 then
            '(out, rest) ← scan_string 0 r; Some (c :: out, rest)
          else
            let '(rr, size) := utf8.DecodeRune s in
            '(out, rest) ← scan_string (size - 1) r;
            Some (utf8.EncodeRune rr ++ out, rest)
      end
  end.

Definition maxNestingDepth : N := 10000.

(** A value at the head of [s] (no leading space), nested [depth] deep. *)
Fixpoint parse_value (fuel : nat) (depth : N) (s : list ascii)
  : option (value * list ascii) :=
  match fuel with
  | O => None
  | S fuel =>
      match s with
      | [] => None
      | c :: r =>
          if Ascii.eqb c "{" then
            if maxNestingDepth <? depth + 1 then None
            else
              match chars.expect "}" (skip_space r) with
              | Some r' => Some (Object [], r')
              | None =>
                  '(ms, rest) ← parse_members fuel (depth + 1) (skip_space r);
                  Some (Object ms, rest)
              end
          else if Ascii.eqb c "[" then
            if maxNestingDepth <? depth + 1 then None
            else
              match chars.expect "]" (skip_space r) with
              | Some r' => Some (Array [], r')
              | None =>
                  '(vs, rest) ←
                    parse_elements fuel (depth + 1) (skip_space r);
                  Some (Array vs, rest)
              end
          else if Ascii.eqb c "034" then
            '(str, rest) ← scan_string 0 r;
            Some (String (string_of_list_ascii str), rest)
          else
            match chars.strip_prefix (list_ascii_of_string "true") s with
            | Some r' => Some (Bool true, r')
            | None =>
                match chars.strip_prefix (list_ascii_of_string "false") s with
                | Some r' => Some (Bool false, r')
                | None =>
                    match
                      chars.strip_prefix (list_ascii_of_string "null") s
                    with
                    | Some r' => Some (Null, r')
                    | None =>
                        '(lit, rest) ← scan_number s;
                        Some (Number lit, rest)
                    end
                end
            end
      end
  end

with parse_members (fuel : nat) (depth : N) (s : list ascii)
  : option (list member * list ascii) :=
  match fuel with
  | O => None
  | S fuel =>
      r ← chars.expect "034" s;
      '(key, r1) ← scan_string 0 r;
      r2 ← chars.expect ":" (skip_space r1);
      let r3 := skip_space r2 in
      '(v, r4) ← parse_value fuel depth r3;
      let m : member :=
        (string_of_list_ascii key, take (length r3 - length r4) r3, v) in
      match chars.expect "," (skip_space r4) with
      | Some r5 =>
          '(ms, rest) ← parse_members fuel depth (skip_space r5);
          Some (m :: ms, rest)
      | None =>
          r5 ← chars.expect "}" (skip_space r4);
          Some ([m], r5)
      end
  end

with parse_elements (fuel : nat) (depth : N) (s : list ascii)
  : option (list value * list ascii) :=
  match fuel with
  | O => None
  | S fuel =>
      '(v, r1) ← parse_value fuel depth s;
      match chars.expect "," (skip_space r1) with
      | Some r2 =>
          '(vs, rest) ← parse_elements fuel depth (skip_space r2);
          Some (v :: vs, rest)
      | None =>
          r2 ← chars.expect "]" (skip_space r1);
          Some ([v], r2)
      end
  end.

(** The whole input as one document, or [None] on a syntax error (what
    [checkValid] rejects). *)
Definition parse (data : bytes) : option value :=
  let s := skip_space (map ascii_of_byte data) in
  '(v, rest) ← parse_value (2 * length s) 0 s;
  match skip_space rest with
  | [] => Some v
  | _ => None
  end.

(** *** Storing into struct fields *)

(** Field names are matched as [bytes.EqualFold] does against an ASCII
    name: letters without regard to case, the long s (U+017F) as [s] and
    the Kelvin sign (U+212A) as [k]. *)
Fixpoint foldName (s : list ascii) : list ascii :=
  match s with
  | [] => []
  | "197"%char :: "191"%char :: r => "S"%char :: foldName r
  | "226"%char :: "132"%char :: "170"%char :: r => "K"%char :: foldName r
  | c :: r =>
      (if utf8.between 0x61 0x7A c then ascii_of_N (N_of_ascii c - 0x20)
       else c) :: foldName r
  end.

Definition name_matches (name key : string) : bool :=
  bool_decide (foldName (list_ascii_of_string name)
               = foldName (list_ascii_of_string key)).

(** The [Value] of an [UnmarshalTypeError]: what the JSON value is. *)
Definition kind_name (v : value) : string :=
  match v with
  | Null => "null"
  | Bool _ => "bool"
  | Number _ => "number"
  | String _ => "string"
  | Array _ => "array"
  | Object _ => "object"
  end.

Definition UnmarshalTypeError_at (what field ty : string) : error_value :=
  errorString ("json: cannot unmarshal " +:+ what
               +:+ " into Go struct field " +:+ field
               +:+ " of type " +:+ ty).

Definition UnmarshalTypeError (v : value) (field ty : string) : error_value :=
  UnmarshalTypeError_at (kind_name v) field ty.

Definition SyntaxError : error_value :=
  errorString "json: syntax error".

(** A string field takes a JSON string; null leaves it as it is. *)
Definition store_string (field ty : string) (v : value) (old : string)
  : string * error :=
  match v with
  | Null => (old, None)
  | String s => (s, None)
  | _ => (old, Some (UnmarshalTypeError v field ty))
  end.

Fixpoint digits_value (acc : N) (s : list ascii) : option N :=
  match s with
  | [] => Some acc
  | c :: r =>
      if chars.is_digit c then digits_value (acc * 10 + (N_of_ascii c - 0x30)) r
      else None
  end.

(** [strconv.ParseInt(lit, 10, 64)] at a JSON number literal. *)
Definition ParseInt64 (lit : list ascii) : option Z :=
  let '(neg, ds) :=
    match lit with
    | "-"%char :: r => (true, r)
    | _ => (false, lit)
    end in
  match ds with
  | [] => None
  | _ =>
      n ← digits_value 0 ds;
      let z := if neg then Z.opp (Z.of_N n) else Z.of_N n in
      if ((- 2 ^ 63 <=? z) && (z <=? 2 ^ 63 - 1))%Z then Some z else None
  end.

(** An [int] field takes a number that [ParseInt] reads; null leaves it.
    A number that [ParseInt] does not read is named with its text. *)
Definition store_int (field : string) (v : value) (old : Z) : Z * error :=
  match v with
  | Null => (old, None)
  | Number lit =>
      match ParseInt64 lit with
      | Some n => (n, None)
      | None =>
          (old, Some (UnmarshalTypeError_at
                        ("number " +:+ string_of_list_ascii lit) field "int"))
      end
  | _ => (old, Some (UnmarshalTypeError v field "int"))
  end.

(** A [json.RawMessage] field takes the text of any value. *)
Definition store_raw (raw : list ascii) : bytes := map byte_of_ascii raw.

Section Struct.

Context {S : Type}.

(** What the struct's fields and tags say to do with one member. *)
Variable setField : member -> S -> S * error.

(** Decoding goes on after a type error; the first one is reported. *)
Definition decode_member (acc : S * error) (m : member) : S * error :=
  let '(s, e) := acc in
  let '(s', e') := setField m s in
  (s', match e with Some _ => e | None => e' end).

Definition decode_object (ms : list member) (s : S) : S * error :=
  fold_left decode_member ms (s, None).

(** [json.Unmarshal(data, &s)] at a struct [s] of type [ty]. *)
Definition Unmarshal (ty : string) (data : bytes) (s : S) : S * error :=
  match parse data with
  | None => (s, Some SyntaxError)
  | Some Null => (s, None)
  | Some (Object ms) => decode_object ms s
  | Some v =>
      (s, Some (errorString ("json: cannot unmarshal " +:+ kind_name v
                             +:+ " into Go value of type " +:+ ty)))
  end.

End Struct.

(** *** Strings, lists of strings and maps as targets *)

(** [json.Unmarshal(data, &s)] at a string [s]: a JSON string is taken,
    null leaves [s] as it is. *)
Definition Unmarshal_string (data : bytes) (s : string) : string * error :=
  match parse data with
  | None => (s, Some SyntaxError)
  | Some Null => (s, None)
  | Some (String x) => (x, None)
  | Some v =>
      (s, Some (errorString ("json: cannot unmarshal " +:+ kind_name v
                             +:+ " into Go value of type string")))
  end.

(** The elements of an array stored into a slice of strings that has none
    yet: a string is taken, null gives the empty string, anything else gives
    the empty string and a type error; the first error is kept. *)
Fixpoint store_strings (vs : list value) : list string * error :=
  match vs with
  | [] => ([], None)
  | v :: vs' =>
      let '(x, e) :=
        match v with
        | Null => ("", None)
        | String s => (s, None)
        | _ => ("", Some (errorString
                            ("json: cannot unmarshal " +:+ kind_name v
                             +:+ " into Go value of type string")))
        end in
      let '(xs, e') := store_strings vs' in
      (x :: xs, match e with Some _ => e | None => e' end)
  end.

(** [json.Unmarshal(data, &l)] at an empty slice of strings [l]. *)
Definition Unmarshal_strings (data : bytes) (l : list string)
  : list string * error :=
  match parse data with
  | None => (l, Some SyntaxError)
  | Some Null => ([], None)
  | Some (Array vs) => store_strings vs
  | Some v =>
      (l, Some (errorString ("json: cannot unmarshal " +:+ kind_name v
                             +:+ " into Go value of type []string")))
  end.

(** The members of an object stored into a [map[string]interface{}]: a
    later member replaces an earlier one with the same key. *)
Definition store_members (ms : list member) (m : gmap string value)
  : gmap string value :=
  fold_left (fun acc (kv : member) => <[kv.1.1 := kv.2]> acc) ms m.

(** [json.Unmarshal(data, &m)] at a [map[string]interface{}]; null makes
    the map nil, which reads as the empty map. *)
Definition Unmarshal_map (data : bytes) (m : gmap string value)
  : gmap string value * error :=
  match parse data with
  | None => (m, Some SyntaxError)
  | Some Null => (∅, None)
  | Some (Object ms) => (store_members ms m, None)
  | Some v =>
      (m, Some (errorString ("json: cannot unmarshal " +:+ kind_name v
                             +:+ " into Go value of type lxd.Jmap")))
  end.

(** A [bool] field takes true or false; null leaves it as it is. *)
Definition store_bool (field : string) (v : value) (old : bool)
  : bool * error :=
  match v with
  | Null => (old, None)
  | Bool b => (b, None)
  | _ => (old, Some (UnmarshalTypeError v field "bool"))
  end.

(** *** Writing a string *)

Definition hex_char (n : N) : ascii :=
  nth (N.to_nat n) (list_ascii_of_string "0123456789abcdef") "0"%char.

(** [htmlSafeSet]: the ASCII characters written as they are. *)
Definition html_safe (c : ascii) : bool :=
  utf8.between 0x20 0x7F c
  && negb (Ascii.eqb c "034") && negb (Ascii.eqb c "\")
  && negb (Ascii.eqb c "<") && negb (Ascii.eqb c ">")
  && negb (Ascii.eqb c "&").

(** What follows the backslash for an ASCII character that is escaped. *)
Definition escape_ascii (c : ascii) : list ascii :=
  if Ascii.eqb c "\" || Ascii.eqb c "034" then [c]
  else if Ascii.eqb c "008" then ["b"%char]
  else if Ascii.eqb c "012" then ["f"%char]
  else if Ascii.eqb c "010" then ["n"%char]
  else if Ascii.eqb c "013" then ["r"%char]
  else if Ascii.eqb c "009" then ["t"%char]
  else ["u"%char; "0"%char; "0"%char;
        hex_char (N.shiftr (N_of_ascii c) 4);
        hex_char (N.land (N_of_ascii c) 0xF)].

(** The contents of a string between its quotes, as [encodeState.string]
    writes them with HTML escaping: invalid UTF-8 becomes the escape of U+FFFD, the
    line and paragraph separators are escaped.  [skip] counts the bytes
    ahead that belong to the rune just written. *)
Fixpoint encode_chars (skip : nat) (s : list ascii) : list ascii :=
  match s with
  | [] => []
  | c :: r =>
      match skip with
      | S k => encode_chars k r
      | O =>
          if N_of_ascii c <? 0x80 then
            (if html_safe c then [c] else "\"%char :: escape_ascii c)
            ++ encode_chars 0 r
          else
            let '(rr, size) := utf8.DecodeRune s in
            if (rr =? utf8.RuneError) && Nat.eqb size 1 then
              list_ascii_of_string "\ufffd" ++ encode_chars 0 r
            else if (rr =? 0x2028) || (rr =? 0x2029) then
              list_ascii_of_string "\u202" ++ [hex_char (N.land rr 0xF)]
              ++ encode_chars (size - 1) r
            else take size s ++ encode_chars (size - 1) r
      end
  end.

(** [json.Marshal(s)] at a string: it never fails. *)
Definition Marshal_string (s : string) : bytes * error :=
  (map byte_of_ascii
     ("034"%char :: encode_chars 0 (list_ascii_of_string s) ++ ["034"%char]),
   None).

End json.

(** ** package encoding/base64 and encoding/pem: writing *)

Module pem.

Local Open Scope N_scope.

Definition alphabet : list ascii :=
  list_ascii_of_string
    "ABCDEFGHIJKLMNOPQRSTUVWXYZabcdefghijklmnopqrstuvwxyz0123456789+/".

Definition sextet (n : N) : ascii :=
  nth (N.to_nat (N.land n 0x3F)) alphabet "="%char.

(** [base64.StdEncoding.EncodeToString] *)
Fixpoint base64_encode (src : bytes) : list ascii :=
  match src with
  | [] => []
  | [a] =>
      let v := N.shiftl (Byte.to_N a) 16 in
      [sextet (N.shiftr v 18); sextet (N.shiftr v 12); "="%char; "="%char]
  | [a; b] =>
      let v := N.lor (N.shiftl (Byte.to_N a) 16) (N.shiftl (Byte.to_N b) 8) in
      [sextet (N.shiftr v 18); sextet (N.shiftr v 12); sextet (N.shiftr v 6);
       "="%char]
  | a :: b :: c :: r =>
      let v := N.lor (N.shiftl (Byte.to_N a) 16)
                 (N.lor (N.shiftl (Byte.to_N b) 8) (Byte.to_N c)) in
      sextet (N.shiftr v 18) :: sextet (N.shiftr v 12)
        :: sextet (N.shiftr v 6) :: sextet v :: base64_encode r
  end.

(** Lines of at most 64 characters, each ended by a newline. *)
Fixpoint break_lines (fuel : nat) (s : list ascii) : list ascii :=
  match fuel, s with
  | _, [] => []
  | O, _ => []
  | S fuel, _ => take 64 s ++ "010"%char :: break_lines fuel (drop 64 s)
  end.

(** [pem.Encode(out, &pem.Block{Type: ty, Bytes: der})]: what is written
    to [out] for a block without headers. *)
Definition Encode (ty : string) (der : bytes) : bytes :=
  let b64 := base64_encode der in
  list_byte_of_string ("-----BEGIN " +:+ ty +:+ "-----")
  ++ map byte_of_ascii ("010"%char :: break_lines (length b64) b64)
  ++ list_byte_of_string ("-----END " +:+ ty +:+ "-----")
  ++ [byte_of_ascii "010"%char].

End pem.

(** ** package os: the environment, the terminal and the file system

    A small file system: regular files and directories by their paths as
    written, and a set of paths on which the process is refused. *)

Module os.

Record World := mkWorld {
  env : gmap string string;
  (** the lines still to be read from standard input *)
  stdin : list bytes;
  (** what has been written to standard output *)
  stdout : string;
  (** regular files, by path *)
  files : gmap string bytes;
  (** directories, by path *)
  dirs : gset string;
  (** the paths this process may not create, open or write *)
  denied : gset string
}.

Definition set_stdin (l : list bytes) (w : World) : World :=
  mkWorld (env w) l (stdout w) (files w) (dirs w) (denied w).
Definition set_stdout (out : string) (w : World) : World :=
  mkWorld (env w) (stdin w) out (files w) (dirs w) (denied w).
Definition set_files (fs : gmap string bytes) (w : World) : World :=
  mkWorld (env w) (stdin w) (stdout w) fs (dirs w) (denied w).
Definition set_dirs (ds : gset string) (w : World) : World :=
  mkWorld (env w) (stdin w) (stdout w) (files w) ds (denied w).

(** [os.Getenv] *)
Definition Getenv (key : string) (w : World) : string :=
  default "" (env w !! key).

(** [fmt.Printf] and the like, once formatted. *)
Definition Print (text : string) (w : World) : World :=
  set_stdout (stdout w +:+ text) w.

(** The prefixes of a path that end before a separator: its ancestors
    ([/a/b/c] has [/a] and [/a/b]).  Paths are compared as they are
    written. *)
Fixpoint ancestors_from (seen : string) (rest : string) : list string :=
  match rest with
  | EmptyString => []
  | String c rest' =>
      (if Ascii.eqb c "/" && negb (String.eqb seen "") then [seen] else [])
      ++ ancestors_from (seen +:+ String c "") rest'
  end.

Definition ancestors (path : string) : list string :=
  ancestors_from "" path.

(** The directory a path is in: the last of its ancestors. *)
Definition parent (path : string) : option string := last (ancestors path).

(** [os.MkdirAll(path, perm)]: the directory and its missing ancestors. *)
Definition MkdirAll (path : string) (w : World) : error * World :=
  let all := ancestors path ++ [path] in
  if bool_decide (Exists (fun p => p ∈ denied w ∧ p ∉ dirs w) all)
  then (errors_New ("mkdir " +:+ path +:+ ": permission denied"), w)
  else if bool_decide (Exists (fun p => p ∈ dom (files w)) all)
  then (errors_New ("mkdir " +:+ path +:+ ": not a directory"), w)
  else (None, set_dirs (list_to_set all ∪ dirs w) w).

(** An open file: a regular file by its path, or a directory. *)
Inductive File :=
| Regular (path : string)
| Directory (path : string).

(** [os.Open(name)] *)
Definition Open (name : string) (w : World) : error_value + File :=
  if decide (name ∈ denied w)
  then inl (errorString ("open " +:+ name +:+ ": permission denied"))
  else if decide (name ∈ dom (files w)) then inr (Regular name)
  else if decide (name ∈ dirs w) then inr (Directory name)
  else inl (errorString ("open " +:+ name +:+ ": no such file or directory")).

(** [os.Create(name)], and [os.OpenFile] with
    [O_WRONLY|O_CREATE|O_TRUNC]: the file is there and empty afterwards;
    the directory it is in must exist. *)
Definition Create (name : string) (w : World)
  : (error_value + File) * World :=
  if decide (name ∈ denied w)
  then (inl (errorString ("open " +:+ name +:+ ": permission denied")), w)
  else if decide (name ∈ dirs w)
  then (inl (errorString ("open " +:+ name +:+ ": is a directory")), w)
  else if match parent name with
          | Some d => bool_decide (d ∈ dirs w)
          | None => true
          end
  then (inr (Regular name), set_files (<[name := []]> (files w)) w)
  else (inl (errorString ("open " +:+ name +:+ ": no such file or directory")),
        w).

(** [f.Write(data)] on a file opened for writing. *)
Definition Write (f : File) (data : bytes) (w : World) : error * World :=
  match f with
  | Regular path =>
      (None,
       set_files (<[path := default [] (files w !! path) ++ data]> (files w)) w)
  | Directory path =>
      (errors_New ("write " +:+ path +:+ ": bad file descriptor"), w)
  end.

(** [f.Read(buf)] on a file just opened, [len(buf) = n]: the bytes read
    (a short file fills only the start of [buf]), and [io.EOF] when there
    is nothing to read. *)
Definition Read (f : File) (n : nat) (w : World) : bytes * error :=
  match f with
  | Regular path =>
      match default [] (files w !! path) with
      | [] => ([], errors_New "EOF")
      | content => (take n content, None)
      end
  | Directory path =>
      ([], errors_New ("read " +:+ path +:+ ": is a directory"))
  end.

(** [ioutil.ReadFile(name)] *)
Definition ReadFile (name : string) (w : World) : error_value + bytes :=
  match Open name w with
  | inl e => inl e
  | inr (Regular path) => inr (default [] (files w !! path))
  | inr (Directory path) =>
      inl (errorString ("read " +:+ path +:+ ": is a directory"))
  end.

End os.

(** ** package net/http and crypto/tls, as far as the code reads them *)

Module http.

(** [x509.Certificate]; the code reads its DER bytes. *)
Record Certificate := mkCertificate { Raw : bytes }.

(** [tls.ConnectionState] *)
Record ConnectionState := mkConnectionState {
  ServerName : string;
  PeerCertificates : list Certificate
}.

(** A body to read: its bytes, and the error that ends the reading when
    it is not the end of the data. *)
Record ReadCloser := mkReadCloser {
  content : bytes;
  read_error : error
}.

(** [ioutil.ReadAll] *)
Definition ReadAll (r : ReadCloser) : bytes * error :=
  (content r, read_error r).

Abbreviation Header := (gmap string (list string)).

Record Request := mkRequest {
  Method : string;
  URL : string;
  ReqHeader : gmap string (list string);
  ReqBody : ReadCloser;
  (** the TLS state of the connection a server got the request on *)
  ReqTLS : option ConnectionState
}.

Record Response := mkResponse {
  StatusCode : Z;
  RespHeader : gmap string (list string);
  Body : ReadCloser;
  TLS : option ConnectionState
}.

(** [http.Client], by what a round trip gives for a request. *)
Definition Client := Request -> error_value + Response.

Section Client.

(** What [url.Parse] says about the text of a URL. *)
Variable url_Parse : string -> error.

(** [http.NewRequest(method, url, body)] *)
Definition NewRequest (method url : string) (body : bytes)
  : error_value + Request :=
  match url_Parse url with
  | Some e => inl e
  | None => inr (mkRequest method url ∅ (mkReadCloser body None) None)
  end.

(** [req.Header.Set(key, value)] *)
Definition Header_Set (key value : string) (req : Request) : Request :=
  mkRequest (Method req) (URL req) (<[key := [value]]> (ReqHeader req))
    (ReqBody req) (ReqTLS req).

(** [c.Do(req)] *)
Definition Do (c : Client) (req : Request) : error_value + Response :=
  c req.

(** [c.Get(url)] *)
Definition Get (c : Client) (url : string) : error_value + Response :=
  match NewRequest "GET" url [] with
  | inr req => Do c req
  | inl e => inl e
  end.

(** [c.Post(url, contentType, body)] *)
Definition Post (c : Client) (url contentType : string) (body : bytes)
  : error_value + Response :=
  match NewRequest "POST" url body with
  | inr req => Do c (Header_Set "Content-Type" contentType req)
  | inl e => inl e
  end.

End Client.

End http.

(** ** package lxd: operation.go *)

Module lxd.

Abbreviation OperationStatus := string (only parsing).

Definition Pending : OperationStatus := "pending".
Definition Running : OperationStatus := "running".
Definition Done : OperationStatus := "done".
Definition Cancelling : OperationStatus := "cancelling".
Definition Cancelled : OperationStatus := "cancelled".

Definition StatusCodes : gmap string Z :=
  <[Pending := 0]> (<[Running := 1]> (<[Done := 2]>
    (<[Cancelling := 3]> (<[Cancelled := 4]> ∅)))).

Abbreviation Result := string (only parsing).

Definition Success : Result := "success".
Definition Failure : Result := "failure".

Definition ResultCodes : gmap string Z :=
  <[Failure := 0]> (<[Success := 1]> ∅).

Record Operation := mkOperation {
  op_CreatedAt : Time;
  op_UpdatedAt : Time;
  op_Status : OperationStatus;
  op_StatusCode : Z;
  op_Result : Result;
  op_ResultCode : Z;
  op_ResourceURL : string;
  op_Metadata : bytes;
  op_MayCancel : bool;
  op_Run : option func_error;
  op_Cancel : option func_error;
  op_Chan : option chan_bool
}.

(** Assignments to single fields of an [Operation]. *)
Definition set_UpdatedAt (t : Time) (o : Operation) : Operation :=
  mkOperation (op_CreatedAt o) t (op_Status o) (op_StatusCode o)
    (op_Result o) (op_ResultCode o) (op_ResourceURL o) (op_Metadata o)
    (op_MayCancel o) (op_Run o) (op_Cancel o) (op_Chan o).
Definition set_Status (s : OperationStatus) (o : Operation) : Operation :=
  mkOperation (op_CreatedAt o) (op_UpdatedAt o) s (op_StatusCode o)
    (op_Result o) (op_ResultCode o) (op_ResourceURL o) (op_Metadata o)
    (op_MayCancel o) (op_Run o) (op_Cancel o) (op_Chan o).
Definition set_StatusCode (c : Z) (o : Operation) : Operation :=
  mkOperation (op_CreatedAt o) (op_UpdatedAt o) (op_Status o) c
    (op_Result o) (op_ResultCode o) (op_ResourceURL o) (op_Metadata o)
    (op_MayCancel o) (op_Run o) (op_Cancel o) (op_Chan o).
Definition set_Result (r : Result) (o : Operation) : Operation :=
  mkOperation (op_CreatedAt o) (op_UpdatedAt o) (op_Status o)
    (op_StatusCode o) r (op_ResultCode o) (op_ResourceURL o)
    (op_Metadata o) (op_MayCancel o) (op_Run o) (op_Cancel o) (op_Chan o).
Definition set_ResultCode (c : Z) (o : Operation) : Operation :=
  mkOperation (op_CreatedAt o) (op_UpdatedAt o) (op_Status o)
    (op_StatusCode o) (op_Result o) c (op_ResourceURL o)
    (op_Metadata o) (op_MayCancel o) (op_Run o) (op_Cancel o) (op_Chan o).
Definition set_Metadata (md : bytes) (o : Operation) : Operation :=
  mkOperation (op_CreatedAt o) (op_UpdatedAt o) (op_Status o)
    (op_StatusCode o) (op_Result o) (op_ResultCode o) (op_ResourceURL o)
    md (op_MayCancel o) (op_Run o) (op_Cancel o) (op_Chan o).
Definition set_MayCancel (b : bool) (o : Operation) : Operation :=
  mkOperation (op_CreatedAt o) (op_UpdatedAt o) (op_Status o)
    (op_StatusCode o) (op_Result o) (op_ResultCode o) (op_ResourceURL o)
    (op_Metadata o) b (op_Run o) (op_Cancel o) (op_Chan o).

(** [func (o *Operation) SetStatus(status OperationStatus)];
    [now] is what [time.Now()] returns during the call. *)
Definition SetStatus (now : Time) (status : OperationStatus) (o : Operation)
  : Operation :=
  let o := set_Status status o in
  let o := set_StatusCode (map_index StatusCodes status) o in
  let o := set_UpdatedAt now o in
  if (String.eqb status Done || String.eqb status Cancelling
      || String.eqb status Cancelled)%bool
  then set_MayCancel false o
  else o.

Section SetResult.

(** [json.Marshal] at a string: the encoding, or nil and an error. *)
Variable json_Marshal_string : string -> bytes * error.

(** [func (o *Operation) SetResult(err error)]; the [Debugf] line only
    writes to the debug log. *)
Definition SetResult (now : Time) (err : error) (o : Operation)
  : Operation :=
  let o :=
    match err with
    | None =>
        let o := set_Result Success o in
        set_ResultCode (map_index ResultCodes Success) o
    | Some e =>
        let o := set_Result Failure o in
        let o := set_ResultCode (map_index ResultCodes Failure) o in
        let '(md, err) := json_Marshal_string (Error_text e) in
        set_Metadata md o
    end in
  set_UpdatedAt now o.

End SetResult.

(** ** package lxd: client.go

    Calls to [Debugf] write to the debug log only and are left out. *)

Abbreviation ResponseType := string (only parsing).

Definition Sync : ResponseType := "sync".
Definition Async : ResponseType := "async".
Definition Error : ResponseType := "error".

Record Response := mkResponse {
  resp_Type : ResponseType;
  (** Valid only for Sync responses *)
  resp_Result : Result;
  (** Valid only for Async responses *)
  resp_Operation : string;
  (** Valid only for Error responses *)
  resp_Code : Z;
  resp_Error : string;
  (** Valid for Sync and Error responses *)
  resp_Metadata : bytes
}.

(** [Response{}] *)
Definition Response_zero : Response := mkResponse "" "" "" 0 "" [].

(** What [encoding/json] does with one member of an object when the
    target is a [Response], from the tags of its fields. *)
Definition Response_setField (m : json.member) (r : Response)
  : Response * error :=
  let '(key, raw, v) := m in
  if json.name_matches "type" key then
    let '(x, e) := json.store_string "Response.type" "lxd.ResponseType" v
                     (resp_Type r) in
    (mkResponse x (resp_Result r) (resp_Operation r) (resp_Code r)
       (resp_Error r) (resp_Metadata r), e)
  else if json.name_matches "result" key then
    let '(x, e) := json.store_string "Response.result" "lxd.Result" v
                     (resp_Result r) in
    (mkResponse (resp_Type r) x (resp_Operation r) (resp_Code r)
       (resp_Error r) (resp_Metadata r), e)
  else if json.name_matches "operation" key then
    let '(x, e) := json.store_string "Response.operation" "string" v
                     (resp_Operation r) in
    (mkResponse (resp_Type r) (resp_Result r) x (resp_Code r)
       (resp_Error r) (resp_Metadata r), e)
  else if json.name_matches "error_code" key then
    let '(x, e) := json.store_int "Response.error_code" v (resp_Code r) in
    (mkResponse (resp_Type r) (resp_Result r) (resp_Operation r) x
       (resp_Error r) (resp_Metadata r), e)
  else if json.name_matches "error" key then
    let '(x, e) := json.store_string "Response.error" "string" v
                     (resp_Error r) in
    (mkResponse (resp_Type r) (resp_Result r) (resp_Operation r)
       (resp_Code r) x (resp_Metadata r), e)
  else if json.name_matches "metadata" key then
    (mkResponse (resp_Type r) (resp_Result r) (resp_Operation r)
       (resp_Code r) (resp_Error r) (json.store_raw raw), None)
  else (r, None).

(** [json.Unmarshal(s, &ret)] at a [Response]. *)
Definition json_Unmarshal_Response : bytes -> Response -> Response * error :=
  json.Unmarshal Response_setField "lxd.Response".

(** [func ParseError(r *Response) error] *)
Definition ParseError (r : Response) : error :=
  if String.eqb (resp_Type r) Error then Some (fmt.Errorf (resp_Error r))
  else None.

(** [type Client struct]; the fields the functions below read or write. *)
Record Client := mkClient {
  c_name : string;
  c_http : http.Client;
  c_baseURL : string;
  c_certf : string;
  c_keyf : string;
  (** the cert stored on disk *)
  c_scert : option http.Certificate;
  (** the cert from the tls connection *)
  c_scertWire : option http.Certificate;
  (** fingerprint of server cert from connection *)
  c_scertDigest : bytes;
  (** whether we've stored the fingerprint *)
  c_scertDigestSet : bool
}.

Definition set_scertWire_Digest (wire : http.Certificate) (digest : bytes)
    (c : Client) : Client :=
  mkClient (c_name c) (c_http c) (c_baseURL c) (c_certf c) (c_keyf c)
    (c_scert c) (Some wire) digest true.

(** Two hex digits for a byte. *)
Definition hex_byte (b : Byte.byte) : string :=
  let digit (n : N) : ascii :=
    nth (N.to_nat n) (list_ascii_of_string "0123456789abcdef") "0"%char in
  string_of_list_ascii
    [digit (N.shiftr (Byte.to_N b) 4); digit (N.land (Byte.to_N b) 15)].

(** [fmt.Sprintf("% x", digest)] *)
Definition hex_spaced (digest : bytes) : string :=
  String.concat " " (map hex_byte digest).

(** Modelled from the spec: [ReadStdin], which reads the operator's answer,
    is not among the sources.  It gives the next line typed at the
    terminal, without its line end, or the error of the read when there
    is none. *)
Definition ReadStdin (w : os.World) : bytes * error * os.World :=
  match os.stdin w with
  | line :: rest => (line, None, os.set_stdin rest w)
  | [] => ([], errors_New "EOF", w)
  end.

Section Client.

(** ** What the client takes from outside these sources *)

(** the constant [APIVersion] *)
Variable APIVersion : string.
(** [path.Join] *)
Variable path_Join : list string -> string.
(** what [url.Parse] says about a URL *)
Variable url_Parse : string -> error.
(** [url.Values{"path": []string{p}}.Encode()] *)
Variable url_Values_Encode_path : string -> string.
(** the type [Jmap] and [json.NewEncoder(&buf).Encode(args)] on it *)
Variable Jmap : Type.
Variable json_Encode : Jmap -> bytes * error.
(** [json.Unmarshal] at a [Response] *)
Variable json_Unmarshal : bytes -> Response -> Response * error.
(** [sha256.Sum256] *)
Variable sha256_Sum256 : bytes -> bytes.
(** [ParseLXDFileHeaders]: uid, gid, mode *)
Variable ParseLXDFileHeaders : http.Header -> Z * Z * Z * error.

(** [func ParseResponse(r *http.Response)], returning [*Response, error] *)
Definition ParseResponse (r : http.Response) : error_value + Response :=
  let ret := Response_zero in
  let '(s, err) := http.ReadAll (http.Body r) in
  match err with
  | Some e => inl e
  | None =>
      let '(ret, err) := json_Unmarshal s ret in
      match err with
      | Some e => inl e
      | None => inr ret
      end
  end.

(** [func (c *Client) url(elem ...string) string] *)
Definition url (c : Client) (elem : list string) : string :=
  c_baseURL c +:+ "/" +:+ path_Join elem.

(** [func (c *Client) get(base string)], returning [*Response, error] *)
Definition get (c : Client) (base : string)
  : outcome (Client * (error_value + Response)) :=
  let uri := url c [APIVersion; base] in
  match http.Get url_Parse (c_http c) uri with
  | inl err => Returns (c, inl err)
  | inr resp =>
      changed ←
        match c_scert c, http.TLS resp with
        | Some scert, Some tls =>
            peer ← index (http.PeerCertificates tls) 0;
            Returns (negb (bytes_Equal (http.Raw peer) (http.Raw scert)))
        | _, _ => Returns false
        end;
      if changed : bool
      then Returns (c, inl (fmt.Errorf "Server certificate has changed"))
      else
        c ←
          match c_scertDigestSet c, http.TLS resp with
          | false, Some tls =>
              peer ← index (http.PeerCertificates tls) 0;
              Returns (set_scertWire_Digest peer
                         (sha256_Sum256 (http.Raw peer)) c)
          | _, _ => Returns c
          end;
        Returns (c, ParseResponse resp)
  end.

(** [func (c *Client) put(base string, args Jmap)], returning
    [*Response, error] *)
Definition put (c : Client) (base : string) (args : Jmap)
  : error_value + Response :=
  let uri := url c [APIVersion; base] in
  let '(buf, err) := json_Encode args in
  match err with
  | Some e => inl e
  | None =>
      match http.NewRequest url_Parse "PUT" uri buf with
      | inl e => inl e
      | inr req =>
          let req := http.Header_Set "Content-Type" "application/json" req in
          match http.Do (c_http c) req with
          | inl e => inl e
          | inr resp => ParseResponse resp
          end
      end
  end.

(** [func (c *Client) post(base string, args Jmap)], returning
    [*Response, error] *)
Definition post (c : Client) (base : string) (args : Jmap)
  : error_value + Response :=
  let uri := url c [APIVersion; base] in
  let '(buf, err) := json_Encode args in
  match err with
  | Some e => inl e
  | None =>
      match http.Post url_Parse (c_http c) uri "application/json" buf with
      | inl e => inl e
      | inr resp => ParseResponse resp
      end
  end.

(** [func (c *Client) delete_(base string, args Jmap)], returning
    [*Response, error] *)
Definition delete_ (c : Client) (base : string) (args : Jmap)
  : error_value + Response :=
  let uri := url c [APIVersion; base] in
  let '(buf, err) := json_Encode args in
  match err with
  | Some e => inl e
  | None =>
      match http.NewRequest url_Parse "DELETE" uri buf with
      | inl e => inl e
      | inr req =>
          let req := http.Header_Set "Content-Type" "application/json" req in
          match http.Do (c_http c) req with
          | inl e => inl e
          | inr resp => ParseResponse resp
          end
      end
  end.

(** [func (c *Client) PullFile(container string, p string)
      (int, int, os.FileMode, io.ReadCloser, error)] *)
Definition PullFile (c : Client) (container p : string)
  : Z * Z * Z * option http.ReadCloser * error :=
  let uri := url c [APIVersion; "containers"; container; "files"] in
  let query := url_Values_Encode_path p in
  match http.Get url_Parse (c_http c) (uri +:+ "?" +:+ query) with
  | inl err => (0, 0, 0, None, Some err)
  | inr r =>
      if negb (http.StatusCode r =? 200) then
        match ParseResponse r with
        | inl err => (0, 0, 0, None, Some err)
        | inr resp => (0, 0, 0, None, ParseError resp)
        end
      else
        let '(uid, gid, mode, err) :=
          ParseLXDFileHeaders (http.RespHeader r) in
        match err with
        | Some e => (0, 0, 0, None, Some e)
        | None => (uid, gid, mode, Some (http.Body r), None)
        end
  end.

End Client.

(** [func (c *Client) UserAuthServerCert() error] *)
Definition UserAuthServerCert (c : Client) (w : os.World)
  : outcome error * os.World :=
  if negb (c_scertDigestSet c)
  then (Returns (Some (fmt.Errorf "No certificate on this connection")), w)
  else
    let w := os.Print ("Certificate fingerprint: "
                       +:+ hex_spaced (c_scertDigest c)
                       +:+ String "010" "") w in
    let w := os.Print "ok (y/n)?" w in
    let '(line, err, w) := ReadStdin w in
    match err with
    | Some e => (Returns (Some e), w)
    | None =>
        match index line 0 with
        | Panics msg => (Panics msg, w)
        | Returns l0 =>
            if negb (bool_decide (l0 = "y"%byte))
               && negb (bool_decide (l0 = "Y"%byte))
            then
              (Returns (Some (fmt.Errorf "Server certificate NACKed by user")),
               w)
            else
              (* User acked the cert, now add it to our store *)
              let homedir := os.Getenv "HOME" w in
              if String.eqb homedir ""
              then (Returns (Some (fmt.Errorf "Could not find homedir")), w)
              else
                let dnam := homedir +:+ "/.config/lxc/servercerts" in
                let '(err, w) := os.MkdirAll dnam w in
                match err with
                | Some _ =>
                    (Returns
                       (Some (fmt.Errorf "Could not create server cert dir")),
                     w)
                | None =>
                    let certf := dnam +:+ "/" +:+ c_name c +:+ ".crt" in
                    let '(certOut, w) := os.Create certf w in
                    match certOut with
                    | inl e => (Returns (Some e), w)
                    | inr certOut =>
                        match deref (c_scertWire c) with
                        | Panics msg => (Panics msg, w)
                        | Returns wire =>
                            let '(_, w) :=
                              os.Write certOut
                                (pem.Encode "CERTIFICATE" (http.Raw wire)) w in
                            (Returns None, w)
                        end
                    end
                end
        end
    end.

(** ** package lxd: operation.go, reading an operation back *)

(** [func (o *Operation) GetError() error] *)
Definition GetError (o : Operation) : error :=
  if String.eqb (op_Result o) Failure then
    let s := "" in
    let '(s, err) := json.Unmarshal_string (op_Metadata o) s in
    match err with
    | Some e => Some e
    | None => Some (fmt.Errorf s)
    end
  else None.

(** [Operation{}] *)
Definition Operation_zero : Operation :=
  mkOperation 0 0 "" 0 "" 0 "" [] false None None None.

(** [s[1:]] on a string: a run-time panic when [s] is empty. *)
Definition slice_from_1 (s : string) : outcome string :=
  match s with
  | EmptyString =>
      Panics "runtime error: slice bounds out of range [1:0]"
  | String _ r => Returns r
  end.

(** ** package lxd: client.go, the calls on a daemon *)

(** A value held in an [interface{}] by the bodies the client builds. *)
#[warnings="-register-all"]
Inductive iface :=
| IString (s : string)
| IInt (n : Z)
| IBool (b : bool)
| IMap (m : gmap string iface)
| ISlice (l : list iface).

(** Modelled from the spec: [type Jmap], the structured request body and
    the generic map a payload is decoded into, is declared outside these
    sources; the code builds it as a map with string keys and values of
    several types. *)
Definition Jmap := gmap string iface.

(** Modelled from the spec: [type ContainerAction] is declared outside
    these sources; the state change a request asks for travels as text. *)
Abbreviation ContainerAction := string (only parsing).

Definition set_scert (cert : http.Certificate) (c : Client) : Client :=
  mkClient (c_name c) (c_http c) (c_baseURL c) (c_certf c) (c_keyf c)
    (Some cert) (c_scertWire c) (c_scertDigest c) (c_scertDigestSet c).

(** [strings.SplitN(raw, ":", 2)]: [raw] cut at its first colon. *)
Fixpoint cut_colon (s : string) : option (string * string) :=
  match s with
  | EmptyString => None
  | String c r =>
      if Ascii.eqb c ":" then Some (EmptyString, r)
      else '(a, b) ← cut_colon r; Some (String c a, b)
  end.

Definition strings_SplitN_colon_2 (raw : string) : list string :=
  match cut_colon raw with
  | Some (a, b) => [a; b]
  | None => [raw]
  end.

Section Calls.

(** ** What the calls take from outside these sources *)

(** the constants [APIVersion] and [APICompat] *)
Variable APIVersion : string.
Variable APICompat : Z.
(** [path.Join] *)
Variable path_Join : list string -> string.
(** what [url.Parse] says about a URL *)
Variable url_Parse : string -> error.
(** [url.Values.Encode] *)
Variable url_Values_Encode : gmap string (list string) -> string.
(** [json.NewEncoder(&buf).Encode(args)] at a [Jmap]; [None] is nil *)
Variable json_Encode : option Jmap -> bytes * error.
(** [sha256.Sum256] *)
Variable sha256_Sum256 : bytes -> bytes.
(** [time.Time.UnmarshalJSON], on the text of a member *)
Variable time_UnmarshalJSON : list ascii -> Time -> Time * error.
(** [type Container struct], its zero value and [json.Unmarshal] at it *)
Variable Container : Type.
Variable Container_zero : Container.
Variable json_Unmarshal_Container : bytes -> Container -> Container * error.
(** [Jmap.GetInt] and [Jmap.GetString] on a decoded payload *)
Variable Jmap_GetInt : gmap string json.value -> string -> Z * error.
Variable Jmap_GetString : gmap string json.value -> string -> string * error.
(** [fmt.Errorf(format, a, b)] at two integers *)
Variable fmt_Errorf_2 : string -> Z -> Z -> error_value.
(** [fmt.Sprintf("%04o", mode)] and [strconv.FormatUint(n, 10)] *)
Variable fmt_Sprintf_04o : Z -> string.
Variable strconv_FormatUint : Z -> string.

(** The dispatch helpers with [Response] decoded as [encoding/json] does. *)
Local Abbreviation ParseResponse' := (ParseResponse json_Unmarshal_Response).
Local Abbreviation get' :=
  (get APIVersion path_Join url_Parse json_Unmarshal_Response sha256_Sum256).
Local Abbreviation put' :=
  (put APIVersion path_Join url_Parse (option Jmap) json_Encode
     json_Unmarshal_Response).
Local Abbreviation post' :=
  (post APIVersion path_Join url_Parse (option Jmap) json_Encode
     json_Unmarshal_Response).
Local Abbreviation delete' :=
  (delete_ APIVersion path_Join url_Parse (option Jmap) json_Encode
     json_Unmarshal_Response).

(** [func OperationsURL(id string) string] *)
Definition OperationsURL (id : string) : string :=
  "/" +:+ APIVersion +:+ "/operations/" +:+ id.

(** What [encoding/json] does with one member of an object when the
    target is an [Operation], from the tags of its fields; [Run], [Cancel]
    and [Chan] are tagged ["-"]. *)
Definition Operation_setField (m : json.member) (o : Operation)
  : Operation * error :=
  let '(key, raw, v) := m in
  if json.name_matches "created_at" key then
    let '(x, e) := time_UnmarshalJSON raw (op_CreatedAt o) in
    (mkOperation x (op_UpdatedAt o) (op_Status o) (op_StatusCode o)
       (op_Result o) (op_ResultCode o) (op_ResourceURL o) (op_Metadata o)
       (op_MayCancel o) (op_Run o) (op_Cancel o) (op_Chan o), e)
  else if json.name_matches "updated_at" key then
    let '(x, e) := time_UnmarshalJSON raw (op_UpdatedAt o) in
    (set_UpdatedAt x o, e)
  else if json.name_matches "status" key then
    let '(x, e) := json.store_string "Operation.status"
                     "lxd.OperationStatus" v (op_Status o) in
    (set_Status x o, e)
  else if json.name_matches "status_code" key then
    let '(x, e) := json.store_int "Operation.status_code" v
                     (op_StatusCode o) in
    (set_StatusCode x o, e)
  else if json.name_matches "result" key then
    let '(x, e) := json.store_string "Operation.result" "lxd.Result" v
                     (op_Result o) in
    (set_Result x o, e)
  else if json.name_matches "result_code" key then
    let '(x, e) := json.store_int "Operation.result_code" v
                     (op_ResultCode o) in
    (set_ResultCode x o, e)
  else if json.name_matches "resource_url" key then
    let '(x, e) := json.store_string "Operation.resource_url" "string" v
                     (op_ResourceURL o) in
    (mkOperation (op_CreatedAt o) (op_UpdatedAt o) (op_Status o)
       (op_StatusCode o) (op_Result o) (op_ResultCode o) x (op_Metadata o)
       (op_MayCancel o) (op_Run o) (op_Cancel o) (op_Chan o), e)
  else if json.name_matches "metadata" key then
    (set_Metadata (json.store_raw raw) o, None)
  else if json.name_matches "may_cancel" key then
    let '(x, e) := json.store_bool "Operation.may_cancel" v
                     (op_MayCancel o) in
    (set_MayCancel x o, e)
  else (o, None).

(** [func (r *Response) MetadataAsMap()], returning [*Jmap, error]; a
    decoded payload holds the JSON values as they were read. *)
Definition MetadataAsMap (r : Response)
  : error_value + gmap string json.value :=
  let ret : gmap string json.value := ∅ in
  let '(ret, err) := json.Unmarshal_map (resp_Metadata r) ret in
  match err with
  | Some e => inl e
  | None => inr ret
  end.

(** [func (r *Response) MetadataAsOperation()], returning
    [*Operation, error] *)
Definition MetadataAsOperation (r : Response) : error_value + Operation :=
  let op := Operation_zero in
  let '(op, err) :=
    json.Unmarshal Operation_setField "lxd.Operation" (resp_Metadata r) op in
  match err with
  | Some e => inl e
  | None => inr op
  end.

(** [func (c *Client) getRawLegacy(elem ...string)], returning
    [*http.Response, error] *)
Definition getRawLegacy (c : Client) (elem : list string)
  : error_value + http.Response :=
  let url := url path_Join c elem in
  match http.Get url_Parse (c_http c) url with
  | inl err => inl err
  | inr resp => inr resp
  end.

(** [func (c *Client) getstr(base string, args map[string]string)
      (string, error)] *)
Definition getstr (c : Client) (base : string) (args : gmap string string)
  : string * error :=
  let vs : gmap string (list string) := (fun v => [v]) <$> args in
  match getRawLegacy c [base +:+ "?" +:+ url_Values_Encode vs] with
  | inl err => ("", Some err)
  | inr resp =>
      let '(body, err) := http.ReadAll (http.Body resp) in
      match err with
      | Some e => ("", Some e)
      | None => (string_of_list_byte body, None)
      end
  end.

(** [func (c *Client) Finger() error] *)
Definition Finger (c : Client) : outcome (Client * error) :=
  '(c, resp) ← get' c "finger";
  match resp with
  | inl err => Returns (c, Some err)
  | inr resp =>
      match MetadataAsMap resp with
      | inl err => Returns (c, Some err)
      | inr jmap =>
          let '(serverAPICompat, err) := Jmap_GetInt jmap "api_compat" in
          match err with
          | Some e => Returns (c, Some e)
          | None =>
              if negb (serverAPICompat =? APICompat)
              then Returns
                     (c, Some (fmt_Errorf_2
                                 "api version mismatch: mine: %q, daemon: %q"
                                 APICompat serverAPICompat))
              else Returns (c, None)
          end
      end
  end.

(** [func (c *Client) AmTrusted() bool] *)
Definition AmTrusted (c : Client) : outcome (Client * bool) :=
  '(c, resp) ← get' c "finger";
  match resp with
  | inl err => Returns (c, false)
  | inr resp =>
      match MetadataAsMap resp with
      | inl err => Returns (c, false)
      | inr jmap =>
          let '(auth, err) := Jmap_GetString jmap "auth" in
          match err with
          | Some e => Returns (c, false)
          | None => Returns (c, String.eqb auth "trusted")
          end
      end
  end.

(** [func (c *Client) ListContainers() ([]string, error)] *)
Definition ListContainers (c : Client)
  : outcome (Client * (error_value + list string)) :=
  '(c, resp) ← get' c "list";
  match resp with
  | inl err => Returns (c, inl err)
  | inr resp =>
      match ParseError resp with
      | Some err => Returns (c, inl err)
      | None =>
          if negb (String.eqb (resp_Type resp) Sync)
          then Returns (c, inl (fmt.Errorf "bad response type from list!"))
          else
            let result : list string := [] in
            let '(result, err) :=
              json.Unmarshal_strings (resp_Metadata resp) result in
            match err with
            | Some e => Returns (c, inl e)
            | None => Returns (c, inr result)
            end
      end
  end.

(** [func (c *Client) AddCertToServer(pwd string) error] *)
Definition AddCertToServer (c : Client) (pwd : string) : error :=
  let body : Jmap :=
    <["type" := IString "client"]> (<["password" := IString pwd]> ∅) in
  match post' c "trust" (Some body) with
  | inl err => Some err
  | inr raw => ParseError raw
  end.

(** [func (c *Client) Create(name string)], returning [*Response, error] *)
Definition Create (c : Client) (name : string) : error_value + Response :=
  let source : Jmap :=
    <["type" := IString "remote"]>
      (<["url" := IString "https+lxc-images://images.linuxcontainers.org"]>
         (<["name" := IString "lxc-images/ubuntu/trusty/amd64"]> ∅)) in
  let body : Jmap := <["source" := IMap source]> ∅ in
  let body :=
    if negb (String.eqb name "") then <["name" := IString name]> body
    else body in
  match post' c "containers" (Some body) with
  | inl err => inl err
  | inr resp =>
      match ParseError resp with
      | Some err => inl err
      | None =>
          if negb (String.eqb (resp_Type resp) Async)
          then inl (fmt.Errorf "Non-async response from create!")
          else inr resp
      end
  end.

(** [func (c *Client) Shell(name string, cmd string, secret string)
      (string, error)] *)
Definition Shell (c : Client) (name cmd secret : string) : string * error :=
  let '(data, err) :=
    getstr c "/shell"
      (<["name" := name]> (<["command" := cmd]> (<["secret" := secret]> ∅)))
  in
  match err with
  | Some e => ("fail", Some e)
  | None => (data, err)
  end.

(** [func (c *Client) Action(name string, action ContainerAction,
      timeout int, force bool)], returning [*Response, error] *)
Definition Action (c : Client) (name : string) (action : ContainerAction)
    (timeout : Z) (force : bool) : error_value + Response :=
  let body : Jmap :=
    <["action" := IString action]>
      (<["timeout" := IInt timeout]> (<["force" := IBool force]> ∅)) in
  match put' c ("containers/" +:+ name +:+ "/state") (Some body) with
  | inl err => inl err
  | inr resp =>
      match ParseError resp with
      | Some err => inl err
      | None => inr resp
      end
  end.

(** [func (c *Client) Delete(name string)], returning [*Response, error] *)
Definition Delete (c : Client) (name : string) : error_value + Response :=
  match delete' c ("containers/" +:+ name) None with
  | inl err => inl err
  | inr resp =>
      match ParseError resp with
      | Some err => inl err
      | None =>
          if negb (String.eqb (resp_Type resp) Async)
          then inl (fmt.Errorf "got non-async response from delete!")
          else inr resp
      end
  end.

(** [func (c *Client) ContainerStatus(name string)], returning
    [*Container, error] *)
Definition ContainerStatus (c : Client) (name : string)
  : outcome (Client * (error_value + Container)) :=
  let ct := Container_zero in
  '(c, resp) ← get' c ("containers/" +:+ name);
  match resp with
  | inl err => Returns (c, inl err)
  | inr resp =>
      match ParseError resp with
      | Some err => Returns (c, inl err)
      | None =>
          if negb (String.eqb (resp_Type resp) Sync)
          then Returns
                 (c, inl (fmt.Errorf
                            "got non-sync response from containers get!"))
          else
            let '(ct, err) :=
              json_Unmarshal_Container (resp_Metadata resp) ct in
            match err with
            | Some e => Returns (c, inl e)
            | None => Returns (c, inr ct)
            end
      end
  end.

(** [func (c *Client) PushFile(container string, p string, gid int,
      uid int, mode os.FileMode, buf io.ReadSeeker) error]; [uint64(uid)]
    wraps a negative number around. *)
Definition PushFile (c : Client) (container p : string) (gid uid mode : Z)
    (buf : bytes) : error :=
  let query : gmap string (list string) := <["path" := [p]]> ∅ in
  let uri := url path_Join c [APIVersion; "containers"; container; "files"]
             +:+ "?" +:+ url_Values_Encode query in
  match http.NewRequest url_Parse "PUT" uri buf with
  | inl err => Some err
  | inr req =>
      let req := http.Header_Set "X-LXD-mode" (fmt_Sprintf_04o mode) req in
      let req :=
        http.Header_Set "X-LXD-uid"
          (strconv_FormatUint (uid mod 2 ^ 64)) req in
      let req :=
        http.Header_Set "X-LXD-gid"
          (strconv_FormatUint (gid mod 2 ^ 64)) req in
      match http.Do (c_http c) req with
      | inl err => Some err
      | inr raw =>
          match ParseResponse' raw with
          | inl err => Some err
          | inr resp => ParseError resp
          end
      end
  end.

(** [func (c *Client) SetRemotePwd(password string)], returning
    [*Response, error] *)
Definition SetRemotePwd (c : Client) (password : string)
  : error_value + Response :=
  let body : Jmap :=
    <["config" :=
        ISlice [IMap (<["key" := IString "trust-password"]>
                        (<["value" := IString password]> ∅))]]> ∅ in
  match put' c "" (Some body) with
  | inl err => inl err
  | inr resp =>
      match ParseError resp with
      | Some err => inl err
      | None => inr resp
      end
  end.

(** [func (c *Client) WaitFor(waitURL string)], returning
    [*Operation, error] *)
Definition WaitFor (c : Client) (waitURL : string)
  : outcome (error_value + Operation) :=
  tail ← slice_from_1 waitURL;
  let uri := url path_Join c [tail; "wait"] in
  match http.Post url_Parse (c_http c) uri "application/json"
          (list_byte_of_string "{}") with
  | inl err => Returns (inl err)
  | inr raw =>
      match ParseResponse' raw with
      | inl err => Returns (inl err)
      | inr resp =>
          match ParseError resp with
          | Some err => Returns (inl err)
          | None => Returns (MetadataAsOperation resp)
          end
      end
  end.

(** [func (c *Client) WaitForSuccess(waitURL string) error] *)
Definition WaitForSuccess (c : Client) (waitURL : string) : outcome error :=
  r ← WaitFor c waitURL;
  match r with
  | inl err => Returns (Some err)
  | inr op =>
      if String.eqb (op_Result op) Success then Returns None
      else Returns (GetError op)
  end.

(** [func (c *Client) Snapshot(container string, snapshotName string,
      stateful bool)], returning [*Response, error] *)
Definition Snapshot (c : Client) (container snapshotName : string)
    (stateful : bool) : error_value + Response :=
  let body : Jmap :=
    <["name" := IString snapshotName]>
      (<["stateful" := IBool stateful]> ∅) in
  match post' c ("containers/" +:+ container +:+ "/snapshots") (Some body)
  with
  | inl err => inl err
  | inr resp =>
      match ParseError resp with
      | Some err => inl err
      | None =>
          if negb (String.eqb (resp_Type resp) Async)
          then inl (fmt.Errorf "Non-async response from snapshot!")
          else inr resp
      end
  end.

End Calls.

Section Connect.

(** ** What setting up a client takes from outside these sources *)

Variable APIVersion : string.
Variable APICompat : Z.
Variable path_Join : list string -> string.
Variable url_Parse : string -> error.
Variable sha256_Sum256 : bytes -> bytes.
Variable Jmap_GetInt : gmap string json.value -> string -> Z * error.
Variable fmt_Errorf_2 : string -> Z -> Z -> error_value.
(** [pem.Decode]: the type and bytes of the first block, nil when the
    data holds none *)
Variable pem_Decode : bytes -> option (string * bytes).
(** [x509.ParseCertificate] *)
Variable x509_ParseCertificate : bytes -> error_value + http.Certificate.
(** [configPath] and [FindOrGenCert] *)
Variable configPath : string -> string.
Variable FindOrGenCert : string -> string -> os.World -> error * os.World.
(** [tls.Certificate] and [tls.LoadX509KeyPair] *)
Variable tls_Certificate : Type.
Variable tls_LoadX509KeyPair :
  string -> string -> os.World -> error_value + tls_Certificate.
(** [type Config struct] and [type RemoteConfig struct], by the fields
    read here *)
Variable Config RemoteConfig : Type.
Variable DefaultRemote : Config -> string.
Variable Remotes : Config -> gmap string RemoteConfig.
Variable Addr : RemoteConfig -> string.
(** round trips through an [http.Transport] that presents the client's
    certificate over TLS 1.2, and through [unixTransport] *)
Variable tls_Transport : tls_Certificate -> http.Client.
Variable unixTransport : http.Client.
(** [strconv.Quote], which the verb [%q] applies to a string *)
Variable strconv_Quote : string -> string.

(** [func readMyCert() (string, string, error)] *)
Definition readMyCert (w : os.World) : string * string * error * os.World :=
  let certf := configPath "client.crt" in
  let keyf := configPath "client.key" in
  let '(err, w) := FindOrGenCert certf keyf w in
  (certf, keyf, err, w).

(** [func (c *Client) loadServerCert()]: load the server cert from disk *)
Definition loadServerCert (c : Client) (w : os.World)
  : outcome Client * os.World :=
  let homedir := os.Getenv "HOME" w in
  if String.eqb homedir "" then (Returns c, w)
  else
    let dnam := homedir +:+ "/.config/lxc/servercerts" in
    let '(err, w) := os.MkdirAll dnam w in
    match err with
    | Some _ => (Returns c, w)
    | None =>
        let fnam := dnam +:+ "/" +:+ c_name c +:+ ".crt" in
        match os.ReadFile fnam w with
        | inl _ => (Returns c, w)
        | inr cf =>
            let cert_block := pem_Decode cf in
            match deref cert_block with
            | Panics msg => (Panics msg, w)
            | Returns (_, cert_block_Bytes) =>
                match x509_ParseCertificate cert_block_Bytes with
                | inl _ =>
                    (Returns c,
                     os.Print ("Error reading the server certificate for "
                               +:+ c_name c +:+ String "010" "") w)
                | inr cert => (Returns (set_scert cert c), w)
                end
            end
        end
    end.

(** [func NewClient(config *Config, raw string)], returning
    [*Client, string, error]; the fields [config], [cert] and [Remote] of
    the client, which no function of these sources reads, are not kept. *)
Definition NewClient (config : Config) (raw : string) (w : os.World)
  : outcome (error_value + Client * string) * os.World :=
  let '(certf, keyf, err, w) := readMyCert w in
  match err with
  | Some e => (Returns (inl e), w)
  | None =>
      match tls_LoadX509KeyPair certf keyf w with
      | inl e => (Returns (inl e), w)
      | inr cert =>
          let c :=
            mkClient "" (tls_Transport cert) "" certf keyf None None
              (replicate 32 "000"%byte) false in
          let result := strings_SplitN_colon_2 raw in
          let '(remote, container) :=
            match result with
            | [whole] => (DefaultRemote config, whole)
            | first :: second :: _ => (first, second)
            | [] => ("", "")
            end in
          let c :=
            mkClient remote (c_http c) (c_baseURL c) (c_certf c) (c_keyf c)
              (c_scert c) (c_scertWire c) (c_scertDigest c)
              (c_scertDigestSet c) in
          let local (c : Client) : Client :=
            mkClient (c_name c) unixTransport "http://unix.socket"
              (c_certf c) (c_keyf c) (c_scert c) (c_scertWire c)
              (c_scertDigest c) (c_scertDigestSet c) in
          let connected : (error_value + outcome Client) * os.World :=
            if String.eqb remote "" then (inr (Returns (local c)), w)
            else if (6 <? String.length remote)%nat
                    && String.eqb (substring 0 5 remote) "unix:"
            then (inr (Returns (local c)), w)
            else
              match Remotes config !! remote with
              | Some r =>
                  let c :=
                    mkClient (c_name c) (c_http c) ("https://" +:+ Addr r)
                      (c_certf c) (c_keyf c) (c_scert c) (c_scertWire c)
                      (c_scertDigest c) (c_scertDigestSet c) in
                  let '(c, w) := loadServerCert c w in
                  (inr c, w)
              | None =>
                  (inl (errorString ("unknown remote name: "
                                     +:+ strconv_Quote remote)), w)
              end in
          match connected with
          | (inl e, w) => (Returns (inl e), w)
          | (inr (Panics msg), w) => (Panics msg, w)
          | (inr (Returns c), w) =>
              match
                Finger APIVersion APICompat path_Join url_Parse
                  sha256_Sum256 Jmap_GetInt fmt_Errorf_2 c
              with
              | Panics msg => (Panics msg, w)
              | Returns (c, Some err) => (Returns (inl err), w)
              | Returns (c, None) => (Returns (inr (c, container)), w)
              end
          end
      end
  end.

End Connect.

End lxd.


(** ** package main (the daemon): the trust handlers *)

Module daemon.

(** Modelled from the spec: [type Daemon struct] is declared outside these
    sources.  On the daemon side the trust store is a set of client
    certificates keyed by a host identifier: the field [clientCerts] that the
    handlers read and write. *)
Record Daemon := mkDaemon {
  clientCerts : gmap string http.Certificate
}.

Record trustPostBody := mktrustPostBody {
  tpb_Type : string;
  tpb_Certificate : string;
  tpb_Password : string
}.

(** [trustPostBody{}] *)
Definition trustPostBody_zero : trustPostBody := mktrustPostBody "" "" "".

(** What [encoding/json] does with one member of an object when the
    target is a [trustPostBody]. *)
Definition trustPostBody_setField (m : json.member) (b : trustPostBody)
  : trustPostBody * error :=
  let '(key, raw, v) := m in
  if json.name_matches "type" key then
    let '(x, e) := json.store_string "trustPostBody.type" "string" v
                     (tpb_Type b) in
    (mktrustPostBody x (tpb_Certificate b) (tpb_Password b), e)
  else if json.name_matches "certificate" key then
    let '(x, e) := json.store_string "trustPostBody.certificate" "string" v
                     (tpb_Certificate b) in
    (mktrustPostBody (tpb_Type b) x (tpb_Password b), e)
  else if json.name_matches "password" key then
    let '(x, e) := json.store_string "trustPostBody.password" "string" v
                     (tpb_Password b) in
    (mktrustPostBody (tpb_Type b) (tpb_Certificate b) x, e)
  else (b, None).

(** Modelled from the spec: the answers of a handler ([BadRequest],
    [InternalError], [EmptySyncResponse], [NotFound]) are declared outside
    these sources.  An answer is the empty Sync response on success, or an
    Error envelope made from an error. *)
Inductive Response :=
| BadRequest (err : error_value)
| InternalError (err : error_value)
| EmptySyncResponse
| NotFound.

Section Trust.

(** ** What the handlers take from outside these sources *)

(** [lxd.VarPath] *)
Variable VarPath : string -> string.
(** the constants [PW_SALT_BYTES] and [PW_HASH_BYTES] *)
Variable PW_SALT_BYTES PW_HASH_BYTES : nat.
(** [scrypt.Key(password, salt, N, r, p, keyLen)] *)
Variable scrypt_Key : bytes -> bytes -> Z -> Z -> Z -> nat -> bytes * error.
(** [lxd.ReadToJson(r.Body, &req)] *)
Variable ReadToJson :
  http.ReadCloser -> trustPostBody -> trustPostBody * error.
(** [base64.StdEncoding.DecodeString] *)
Variable base64_DecodeString : string -> bytes * error.
(** [x509.ParseCertificate] *)
Variable x509_ParseCertificate : bytes -> error_value + http.Certificate.

(** [func (d *Daemon) hasPwd() bool] *)
Definition hasPwd (d : Daemon) (w : os.World) : bool :=
  let passfname := VarPath "adminpwd" in
  match os.Open passfname w with
  | inl _ => false
  | inr _ => true
  end.

(** [func (d *Daemon) verifyAdminPwd(password string) bool] *)
Definition verifyAdminPwd (d : Daemon) (password : string) (w : os.World)
  : bool :=
  let passfname := VarPath "adminpwd" in
  match os.Open passfname w with
  | inl _ => false
  | inr passOut =>
      let n := (PW_SALT_BYTES + PW_HASH_BYTES)%nat in
      let '(data, err) := os.Read passOut n w in
      let buff := data ++ replicate (n - length data) "000"%byte in
      match err with
      | Some _ => false
      | None =>
          let salt := take PW_SALT_BYTES buff in
          let '(hash, err) :=
            scrypt_Key (list_byte_of_string password) salt (Z.shiftl 1 14)
              8 1 PW_HASH_BYTES in
          match err with
          | Some _ => false
          | None =>
              if negb (bytes_Equal hash (drop PW_SALT_BYTES buff))
              then false
              else true
          end
      end
  end.

(** [func saveCert(host string, cert *x509.Certificate) error]; the
    result of [MkdirAll] is overwritten by that of [OpenFile]. *)
Definition saveCert (host : string) (cert : http.Certificate)
    (w : os.World) : error * os.World :=
  let dirname := VarPath "clientcerts" in
  let '(err, w) := os.MkdirAll dirname w in
  let filename := dirname +:+ "/" +:+ host +:+ ".crt" in
  let '(certOut, w) := os.Create filename w in
  match certOut with
  | inl e => (Some e, w)
  | inr certOut =>
      let '(err, w) :=
        os.Write certOut (pem.Encode "CERTIFICATE" (http.Raw cert)) w in
      match err with
      | Some e => (Some e, w)
      | None => (None, w)
      end
  end.

(** The certificate [trustPost] is about to store, or the answer it
    returns early. *)
Definition trustPost_cert (req : trustPostBody) (r : http.Request)
  : outcome (Response + http.Certificate) :=
  if negb (String.eqb (tpb_Certificate req) "") then
    let '(data, err) := base64_DecodeString (tpb_Certificate req) in
    match err with
    | Some e => Returns (inl (BadRequest e))
    | None =>
        match x509_ParseCertificate data with
        | inl e => Returns (inl (BadRequest e))
        | inr cert => Returns (inr cert)
        end
    end
  else
    tls ← deref (http.ReqTLS r);
    cert ← index (http.PeerCertificates tls)
             (length (http.PeerCertificates tls) - 1);
    Returns (inr cert).

(** [func trustPost(d *Daemon, r *http.Request) Response] *)
Definition trustPost (d : Daemon) (r : http.Request) (w : os.World)
  : outcome Response * Daemon * os.World :=
  let req := trustPostBody_zero in
  let '(req, err) := ReadToJson (http.ReqBody r) req in
  match err with
  | Some e => (Returns (BadRequest e), d, w)
  | None =>
      match trustPost_cert req r with
      | Panics msg => (Panics msg, d, w)
      | Returns (inl resp) => (Returns resp, d, w)
      | Returns (inr cert) =>
          match deref (http.ReqTLS r) with
          | Panics msg => (Panics msg, d, w)
          | Returns tls =>
              let '(err, w) := saveCert (http.ServerName tls) cert w in
              match err with
              | Some e => (Returns (InternalError e), d, w)
              | None =>
                  let d :=
                    mkDaemon (<[http.ServerName tls := cert]>
                                (clientCerts d)) in
                  (Returns EmptySyncResponse, d, w)
              end
          end
      end
  end.

End Trust.

(** ** The trust listing and lookup *)

(** Modelled from the spec: [SyncResponse(success, metadata)] is declared
    outside these sources.  A handler that has something to return answers
    with a Sync response carrying it as metadata. *)
Inductive Answer :=
| Plain (r : Response)
| SyncResponse (success : bool) (metadata : lxd.iface).

Section TrustStore.

(** ** What the listing and the lookup take from outside these sources *)

(** [lxd.GenerateFingerprint] *)
Variable GenerateFingerprint : http.Certificate -> string.
(** [mux.Vars(r)] *)
Variable mux_Vars : http.Request -> gmap string string.
(** the order in which [range] goes through a map this time *)
Variable range : gmap string http.Certificate
                 -> list (string * http.Certificate).

(** [func trustGet(d *Daemon, r *http.Request) Response] *)
Definition trustGet (d : Daemon) (r : http.Request) : Answer :=
  let body :=
    fold_left
      (fun body '(host, cert) =>
         let fingerprint := GenerateFingerprint cert in
         body ++ [lxd.IMap (<["host" := lxd.IString host]>
                              (<["fingerprint" := lxd.IString fingerprint]>
                                 ∅))])
      (range (clientCerts d)) [] in
  SyncResponse true (lxd.ISlice body).

(** The loop of [trustFingerprintGet] over the certificates still to be
    visited. *)
Fixpoint trustFingerprintGet_loop (fingerprint : string)
    (certs : list (string * http.Certificate)) : Answer :=
  match certs with
  | [] => Plain NotFound
  | (_, cert) :: rest =>
      if String.eqb fingerprint (GenerateFingerprint cert) then
        let b64 :=
          string_of_list_ascii (pem.base64_encode (http.Raw cert)) in
        let body : lxd.Jmap :=
          <["type" := lxd.IString "client"]>
            (<["certificate" := lxd.IString b64]> ∅) in
        SyncResponse true (lxd.IMap body)
      else trustFingerprintGet_loop fingerprint rest
  end.

(** [func trustFingerprintGet(d *Daemon, r *http.Request) Response] *)
Definition trustFingerprintGet (d : Daemon) (r : http.Request) : Answer :=
  let fingerprint := default "" (mux_Vars r !! "fingerprint") in
  trustFingerprintGet_loop fingerprint (range (clientCerts d)).

End TrustStore.

End daemon.


(** ** package main (the lxc command line): main.go *)

Module lxc.

(** The values of the map [commands]. *)
Inductive command :=
| versionCmd
| helpCmd
| fingerCmd
| configCmd
| createCmd
| listCmd
| shellCmd
| remoteCmd
| actionCmd (action : string)
| deleteCmd
| fileCmd
| snapshotCmd.

Section Run.

(** ** What [run] takes from outside these sources *)

(** the constants [lxd.Stop], [lxd.Start], [lxd.Restart], [lxd.Freeze]
    and [lxd.Unfreeze] *)
Variable Stop Start Restart Freeze Unfreeze : string.
(** what [run] does once it has found the command: its flags, the parsing
    of [os.Args[1:]], the logger, [lxd.LoadConfig] and [cmd.run] *)
Variable run_command : command -> list string -> os.World -> error * os.World.

(** [var commands = map[string]command{...}] *)
Definition commands : gmap string command :=
  <["version" := versionCmd]> (<["help" := helpCmd]>
  (<["finger" := fingerCmd]> (<["config" := configCmd]>
  (<["create" := createCmd]> (<["list" := listCmd]>
  (<["shell" := shellCmd]> (<["remote" := remoteCmd]>
  (<["stop" := actionCmd Stop]> (<["start" := actionCmd Start]>
  (<["restart" := actionCmd Restart]> (<["freeze" := actionCmd Freeze]>
  (<["unfreeze" := actionCmd Unfreeze]> (<["delete" := deleteCmd]>
  (<["file" := fileCmd]> (<["snapshot" := snapshotCmd]> ∅))))))))))))))).

(** [func run() error], on the arguments [os.Args] of the process; the
    second match is [len(os.Args) < 2 || os.Args[1] == "" ||
    os.Args[1][0] == '-'] with its tests in their order. *)
Definition run (Args : list string) (w : os.World) : error * os.World :=
  let Args :=
    match Args with
    | [prog; a1] =>
        if String.eqb a1 "-h" || String.eqb a1 "--help"
        then [prog; "help"]
        else Args
    | _ => Args
    end in
  let missing :=
    match Args with
    | [] | [_] => true
    | _ :: a1 :: _ =>
        String.eqb a1 ""
        || match index (list_ascii_of_string a1) 0 with
           | Returns c => Ascii.eqb c "-"
           | Panics _ => false
           end
    end in
  if missing then (Some (fmt.Errorf "missing subcommand"), w)
  else
    let name := default "" (Args !! 1%nat) in
    match commands !! name with
    | None => (Some (errorString ("unknown command: " +:+ name)), w)
    | Some cmd => run_command cmd (drop 1 Args) w
    end.

End Run.

End lxc.
(** * Statements *)

Import lxd.

(** ** The operation record *)

(** The wire encoding of the five statuses as the data model lists it:
    Pending, Running, Done, Cancelling, Cancelled are 0..4 in this order. *)
Definition status_wire_code (s : string) : option Z :=
  if decide (s = Pending) then Some 0
  else if decide (s = Running) then Some 1
  else if decide (s = Done) then Some 2
  else if decide (s = Cancelling) then Some 3
  else if decide (s = Cancelled) then Some 4
  else None.

(** The statuses from which an operation can no longer be cancelled. *)
Definition closes_cancel (s : string) : Prop :=
  s = Done \/ s = Cancelling \/ s = Cancelled.

(** ** Reading JSON *)

(** What a run of the reader with some fuel gives, it gives with any fuel
    from [bound] of the length of the text on; and it takes at least one
    character. *)
Definition fuel_enough {A}
    (run : nat -> N -> list ascii -> option (A * list ascii))
    (bound : nat -> nat) (fuel : nat) : Prop :=
  forall d s a rest,
    run fuel d s = Some (a, rest) ->
    (length rest < length s)%nat /\
    forall fuel', (bound (length s) <= fuel')%nat ->
                  run fuel' d s = Some (a, rest).

(** ** Envelopes *)

(** The field of [Response] a member of the body goes to, by its key. *)
Definition envelope_field (key : string) : option string :=
  find (fun name => json.name_matches name key)
    ["type"; "result"; "operation"; "error_code"; "error"; "metadata"].

(** The data model's rule for which fields go with which kind: [result]
    only with Sync, [operation] only with Async, [error_code] and [error]
    only with Error. *)
Definition kind_permits (kind field : string) : bool :=
  if String.eqb field "result" then String.eqb kind Sync
  else if String.eqb field "operation" then String.eqb kind Async
  else if (String.eqb field "error_code" || String.eqb field "error")%bool
  then String.eqb kind Error
  else true.

(** The members of a body are those the kind permits. *)
Definition permitted_members (kind : string) (ms : list json.member) : bool :=
  forallb (fun m : json.member =>
             match envelope_field m.1.1 with
             | Some field => kind_permits kind field
             | None => true
             end) ms.

(** A body as the data model wants it, for an envelope of kind [kind]: an
    object, the kind one of the three, the members those the kind permits. *)
Definition well_formed_envelope (kind : string) (body : bytes) : Prop :=
  kind ∈ [Sync; Async; Error] /\
  exists ms, json.parse body = Some (json.Object ms) /\
             permitted_members kind ms = true.

Definition string_or_null (v : json.value) : Prop :=
  v = json.Null \/ exists s, v = json.String s.

Definition int_or_null (v : json.value) : Prop :=
  v = json.Null \/
  exists lit n, v = json.Number lit /\ json.ParseInt64 lit = Some n.

(** What the decoder asks of one member: a value of the type of the field
    it goes to, or null; nothing of a member that goes to no field or to
    [metadata]. *)
Definition member_fits (m : json.member) : Prop :=
  match envelope_field m.1.1 with
  | None => True
  | Some field =>
      if String.eqb field "metadata" then True
      else if String.eqb field "error_code" then int_or_null m.2
      else string_or_null m.2
  end.

(** What the decoder asks of a body: null, or an object whose members fit. *)
Definition Response_shape (v : json.value) : Prop :=
  v = json.Null \/ exists ms, v = json.Object ms /\ Forall member_fits ms.

(** ** Trust on first use *)

(** The operator does not confirm: the answer, if there is one, does not
    start with [y] or [Y].  The empty line and the end of the input are
    among these answers. *)
Definition declines (w : os.World) : Prop :=
  match os.stdin w with
  | (l0 :: _) :: _ => l0 <> "y"%byte /\ l0 <> "Y"%byte
  | _ => True
  end.

(** The operator's answer starts with [y] or [Y]. *)
Definition confirms (w : os.World) : Prop :=
  exists l0 line rest,
    os.stdin w = (l0 :: line) :: rest /\ (l0 = "y"%byte \/ l0 = "Y"%byte).

(** Where the client keeps the certificate of its remote. *)
Definition cert_path (c : Client) (w : os.World) : string :=
  (os.Getenv "HOME" w +:+ "/.config/lxc/servercerts") +:+ "/" +:+ c_name c
  +:+ ".crt".

(** Where the daemon keeps the certificate of a client. *)
Definition client_cert_path (VarPath : string -> string) (host : string)
  : string :=
  VarPath "clientcerts" +:+ "/" +:+ host +:+ ".crt".

(** ** Sample inputs *)

Module Fixture.

Definition text (s : string) : bytes := list_byte_of_string s.

(** JSON text, written with an apostrophe where it has a double quote. *)
Definition json_text (s : string) : bytes :=
  map (fun b => if bool_decide (b = "'"%byte) then Byte.x22 else b) (text s).

(** A body with kind [sync] that also has the fields of the other kinds. *)
Definition mixed_body : bytes :=
  json_text
    ("{'type':'sync','operation':'/1.0/operations/7',"
     +:+ "'error_code':500,'error':'boom'}").

Definition answer (status : Z) (body : bytes)
    (tls : option http.ConnectionState) : http.Response :=
  http.mkResponse status ∅ (http.mkReadCloser body None) tls.

(** *** Stand-ins for what the sources do not hold

    Each is what the library or the missing code gives at the inputs of
    the runs below. *)

Definition APIVersion : string := "1.0".

(** [path.Join] on elements that are already clean. *)
Definition path_Join (elem : list string) : string := String.concat "/" elem.

Definition url_Parse (_ : string) : error := None.

(** [url.Values.Encode] on a value that needs no escaping. *)
Definition url_Values_Encode_path (p : string) : string := "path=" +:+ p.

(** A [Jmap], held as its compact JSON text; the encoder adds a newline. *)
Definition Jmap : Type := bytes.
Definition json_Encode (args : Jmap) : bytes * error :=
  (args ++ text (String "010" ""), None).

(** Not reached on a response whose status is not 200. *)
Definition ParseLXDFileHeaders (_ : http.Header) : Z * Z * Z * error :=
  (0, 0, 0, errors_New "missing X-LXD headers").

Definition VarPath (p : string) : string := "/var/lib/lxd/" +:+ p.
Definition PW_SALT_BYTES : nat := 32.
Definition PW_HASH_BYTES : nat := 64.

(** A key derivation in place of scrypt: the salt, then the password,
    cut or filled with zeros to the key length. *)
Definition kdf (password salt : bytes) (N r p : Z) (keyLen : nat)
  : bytes * error :=
  (take keyLen (salt ++ password ++ replicate keyLen "000"%byte), None).

(** [lxd.ReadToJson]: the whole body, decoded as JSON. *)
Definition ReadToJson (body : http.ReadCloser) (req : daemon.trustPostBody)
  : daemon.trustPostBody * error :=
  let '(buf, err) := http.ReadAll body in
  match err with
  | Some e => (req, Some e)
  | None =>
      json.Unmarshal daemon.trustPostBody_setField "main.trustPostBody"
        buf req
  end.

(** Not reached by a request that carries no certificate of its own. *)
Definition base64_DecodeString (s : string) : bytes * error :=
  ([], errors_New "illegal base64 data").
Definition x509_ParseCertificate (der : bytes)
  : error_value + http.Certificate :=
  inl (errorString "x509: malformed certificate").

(** *** A client with a pinned certificate, and a server that shows
    another one *)

Definition pinned_cert : http.Certificate := http.mkCertificate (text "DER-A").
Definition other_cert : http.Certificate := http.mkCertificate (text "DER-B").

Definition other_tls : http.ConnectionState :=
  http.mkConnectionState "srv" [other_cert].

Definition sync_body : bytes :=
  json_text "{'type':'sync','result':'success','metadata':{}}".

Definition sync_envelope : Response :=
  mkResponse Sync "success" "" 0 "" (text "{}").

(** Every request is answered with [status], [body] and the TLS state. *)
Definition server (status : Z) (body : bytes)
    (tls : option http.ConnectionState) : http.Client :=
  fun _ => inr (answer status body tls).

Definition pinned_client : Client :=
  mkClient "srv" (server 200 sync_body (Some other_tls)) "https://srv:8443"
    "client.crt" "client.key" (Some pinned_cert) None [] false.

Definition stop_args : Jmap :=
  json_text "{'action':'stop','force':true,'timeout':30}".

(** *** A file pull answered 404 with a Sync envelope *)

Definition pull_client : Client :=
  mkClient "srv" (server 404 sync_body None) "https://srv:8443"
    "client.crt" "client.key" None None [] false.

(** *** First contact: the operator is asked about the certificate *)

Definition first_contact : Client :=
  mkClient "srv" (server 200 sync_body (Some other_tls)) "https://srv:8443"
    "client.crt" "client.key" None (Some other_cert) (text "digest") true.

Definition terminal (answer : string) : os.World :=
  os.mkWorld {["HOME" := "/home/u"]} [text answer] "" ∅
    {["/home"; "/home/u"]} ∅.

(** *** A daemon with an admin password, and a trust request with a wrong
    one *)

Definition salt : bytes := replicate 32 "s"%byte.

Definition daemon_world : os.World :=
  os.mkWorld ∅ [] ""
    {[ VarPath "adminpwd" :=
         salt ++ fst (kdf (text "secret") salt (Z.shiftl 1 14) 8 1 64) ]}
    {["/var"; "/var/lib"; "/var/lib/lxd"]} ∅.

Definition laptop_cert : http.Certificate :=
  http.mkCertificate (text "DER-laptop").

Definition trust_request (password : string) : http.Request :=
  http.mkRequest "POST" "/1.0/trust" ∅
    (http.mkReadCloser
       (json_text ("{'type':'client','password':'" +:+ password +:+ "'}"))
       None)
    (Some (http.mkConnectionState "laptop" [laptop_cert])).

Definition empty_daemon : daemon.Daemon := daemon.mkDaemon ∅.

(** *** Stand-ins for the further calls *)

Definition APICompat : Z := 1.

(** The encoder of request bodies; the servers of these runs do not look
    at what they are sent. *)
Definition json_Encode_body (args : option lxd.Jmap) : bytes * error :=
  (text ("{}" +:+ String "010" ""), None).

(** [url.Values.Encode] at no values; not reached below. *)
Definition url_Values_Encode (vs : gmap string (list string)) : string :=
  EmptyString.

(** Not reached by a body without time stamps. *)
Definition time_UnmarshalJSON (raw : list ascii) (t : Time) : Time * error :=
  (t, errors_New "parsing time: cannot parse as a time stamp").

(** *** A daemon reached over the local channel *)

Definition local_client (body : bytes) : Client :=
  mkClient "" (server 200 body None) "http://unix.socket"
    "client.crt" "client.key" None None (replicate 32 "000"%byte) false.

Definition async_body : bytes :=
  json_text "{'type':'async','operation':'/1.0/operations/7'}".

Definition async_envelope : Response :=
  mkResponse Async "" "/1.0/operations/7" 0 "" [].

Definition error_body : bytes :=
  json_text "{'type':'error','error_code':404,'error':'not found'}".

Definition error_envelope : Response :=
  mkResponse Error "" "" 404 "not found" [].

(** The answer to a wait on an operation that is still running. *)
Definition running_body : bytes :=
  json_text
    ("{'type':'sync','metadata':"
     +:+ "{'status':'running','status_code':1,'may_cancel':true}}").

Definition running_operation : Operation :=
  mkOperation 0 0 "running" 1 "" 0 "" [] true None None None.

(** The answer to a listing of two containers. *)
Definition list_body : bytes :=
  json_text "{'type':'sync','metadata':['web1','db2']}".

(** *** The certificate store read back *)

Definition sextet_of (c : ascii) : option N :=
  N.of_nat <$> fmt.index_of c pem.alphabet.

Definition byte_of (n : N) : Byte.byte :=
  default "000"%byte (Byte.of_N (N.land n 0xFF)).

(** Base64 text without line breaks, back to bytes. *)
Fixpoint base64_decode (s : list ascii) : option bytes :=
  match s with
  | [] => Some []
  | a :: b :: c :: d :: r =>
      x ← sextet_of a;
      y ← sextet_of b;
      let v2 := N.lor (N.shiftl x 18) (N.shiftl y 12) in
      if Ascii.eqb c "=" then Some [byte_of (N.shiftr v2 16)]
      else
        z ← sextet_of c;
        let v3 := N.lor v2 (N.shiftl z 6) in
        if Ascii.eqb d "="
        then Some [byte_of (N.shiftr v3 16); byte_of (N.shiftr v3 8)]
        else
          t ← sextet_of d;
          let v4 := N.lor v3 t in
          rest ← base64_decode r;
          Some (byte_of (N.shiftr v4 16) :: byte_of (N.shiftr v4 8)
                :: byte_of v4 :: rest)
  | _ => None
  end.

Fixpoint until_dash (s : list ascii) : list ascii :=
  match s with
  | [] => []
  | c :: r => if Ascii.eqb c "-" then [] else c :: until_dash r
  end.

(** [pem.Decode] on data that starts with a [CERTIFICATE] block without
    headers; other data holds no block here. *)
Definition pem_Decode (data : bytes) : option (string * bytes) :=
  rest ← chars.strip_prefix
           (list_ascii_of_string
              ("-----BEGIN CERTIFICATE-----" +:+ String "010" ""))
           (map ascii_of_byte data);
  der ← base64_decode
          (filter (fun c => c <> "010"%char) (until_dash rest));
  Some ("CERTIFICATE", der).

(** [x509.ParseCertificate], by the bytes it keeps. *)
Definition x509_keep_Raw (der : bytes) : error_value + http.Certificate :=
  inr (http.mkCertificate der).

(** A client for the remote [srv] that has no pinned certificate yet. *)
Definition fresh_client : Client :=
  mkClient "srv" (server 200 sync_body (Some other_tls)) "https://srv:8443"
    "client.crt" "client.key" None None (replicate 32 "000"%byte) false.

(** A store in which the file of the remote [srv] is not PEM. *)
Definition broken_store : os.World :=
  os.mkWorld {["HOME" := "/home/u"]} [] ""
    {["/home/u/.config/lxc/servercerts/srv.crt" := text "not a certificate"]}
    {["/home"; "/home/u"; "/home/u/.config"; "/home/u/.config/lxc";
      "/home/u/.config/lxc/servercerts"]} ∅.

(** *** Setting up a client *)

(** The fields of [Config] and [RemoteConfig] that [NewClient] reads. *)
Record Config := mkConfig {
  DefaultRemote : string;
  Remotes : gmap string string
}.

Definition config : Config :=
  mkConfig "" {["srv" := "srv:8443"]}.

Definition configPath (name : string) : string :=
  "/home/u/.config/lxc/" +:+ name.

(** The key pair is there already. *)
Definition FindOrGenCert (certf keyf : string) (w : os.World)
  : error * os.World := (None, w).
Definition tls_LoadX509KeyPair (certf keyf : string) (w : os.World)
  : error_value + unit := inr tt.

(** [Jmap.GetInt] on a payload that holds an integer at the key. *)
Definition Jmap_GetInt (m : gmap string json.value) (key : string)
  : Z * error :=
  match m !! key with
  | Some (json.Number lit) =>
      match json.ParseInt64 lit with
      | Some n => (n, None)
      | None => (-1, errors_New ("value for key " +:+ key
                                 +:+ " is not an int"))
      end
  | _ => (-1, errors_New ("no value for key " +:+ key))
  end.

(** Not reached when the versions agree. *)
Definition fmt_Errorf_2 (format : string) (a b : Z) : error_value :=
  errorString "api version mismatch".

(** [strconv.Quote] on a text that needs no escape. *)
Definition strconv_Quote (s : string) : string :=
  String "034" s +:+ String "034" "".

Definition finger_body : bytes :=
  json_text "{'type':'sync','metadata':{'api_compat':1}}".

(** *** The daemon's listing and lookup *)

(** A fingerprint in place of the SHA-256 digest: the bytes of the
    certificate in hex. *)
Definition fingerprint (cert : http.Certificate) : string :=
  String.concat "" (map hex_byte (http.Raw cert)).

(** [mux.Vars] on the route [trust/{fingerprint}]: what follows
    [/1.0/trust/] in the path. *)
Definition mux_Vars (r : http.Request) : gmap string string :=
  {["fingerprint" :=
      substring 11 (String.length (http.URL r) - 11) (http.URL r)]}.

Definition lookup_request (fp : string) : http.Request :=
  http.mkRequest "GET" ("/1.0/trust/" +:+ fp) ∅ (http.mkReadCloser [] None)
    (Some (http.mkConnectionState "laptop" [laptop_cert])).

Definition laptop_daemon : daemon.Daemon :=
  daemon.mkDaemon {["laptop" := laptop_cert]}.

(** A trust request that came over the local socket. *)
Definition local_trust_request : http.Request :=
  http.mkRequest "POST" "/1.0/trust" ∅
    (http.mkReadCloser (json_text "{'type':'client'}") None) None.

End Fixture.


(** ** Notions used by the properties of the further calls *)

(** A character of the ASCII range. *)
Definition is_ascii (c : ascii) : Prop := (N_of_ascii c < 0x80)%N.

(** A text of ASCII characters without a percent sign. *)
Definition plain_ascii (s : string) : Prop :=
  Forall is_ascii (list_ascii_of_string s)
  /\ Forall (fun c => c <> "%"%char) (list_ascii_of_string s).

(** The daemon behind [c] answers every request with a body that decodes
    to the envelope [resp]. *)
Definition always_answers (c : Client) (resp : Response) : Prop :=
  forall req : http.Request,
    exists raw, c_http c req = inr raw
                /\ ParseResponse json_Unmarshal_Response raw = inr resp.

(** A text of ASCII characters. *)
Definition ascii_text (s : string) : Prop :=
  Forall is_ascii (list_ascii_of_string s).

(** A string as [json.Marshal] writes it. *)
Definition quoted (s : string) : list ascii :=
  "034"%char :: json.encode_chars 0 (list_ascii_of_string s) ++ ["034"%char].

(** The strings of a list as [json.Marshal] writes them, with commas
    between them. *)
Fixpoint elements_text (names : list string) : list ascii :=
  match names with
  | [] => []
  | n :: ns =>
      quoted n ++ match ns with
                  | [] => []
                  | _ => ","%char :: elements_text ns
                  end
  end.

(** The JSON array of a list of strings. *)
Definition names_json (names : list string) : bytes :=
  map byte_of_ascii ("["%char :: elements_text names ++ ["]"%char]).

(** What [trustFingerprintGet] answers for a certificate it has found. *)
Definition fingerprint_answer (cert : http.Certificate) : iface :=
  IMap (<["type" := IString "client"]>
          (<["certificate" :=
               IString (string_of_list_ascii
                          (pem.base64_encode (http.Raw cert)))]> ∅)).

(** An entry of the listing of [trustGet]. *)
Definition trust_entry (GenerateFingerprint : http.Certificate -> string)
    (host : string) (cert : http.Certificate) : iface :=
  IMap (<["host" := IString host]>
          (<["fingerprint" := IString (GenerateFingerprint cert)]> ∅)).

(** An operation without functions to run or cancel it and without a
    channel. *)
Definition no_hooks (o : Operation) : Prop :=
  op_Run o = None /\ op_Cancel o = None /\ op_Chan o = None.
(** * Properties *)

(** ** The JSON reader has fuel enough *)

Lemma skip_space_length (s : list ascii) :
  (length (json.skip_space s) <= length s)%nat.
Proof.
  induction s as [|c s IH]; cbn; [lia |].
  destruct (json.is_space c); cbn; lia.
Qed.

Lemma expect_length (c : ascii) (s r : list ascii) :
  chars.expect c s = Some r -> length s = S (length r).
Proof.
  destruct s as [|c' s]; cbn; [discriminate |].
  destruct (Ascii.eqb c' c); [|discriminate]. now intros [= ->].
Qed.

Lemma strip_prefix_length (p s r : list ascii) :
  chars.strip_prefix p s = Some r -> length s = (length p + length r)%nat.
Proof.
  revert s. induction p as [|c p IH]; intros s; cbn.
  - now intros [= ->].
  - destruct (chars.expect c s) as [s'|] eqn:E; cbn; [|discriminate].
    intros H. apply IH in H. apply expect_length in E. lia.
Qed.

Lemma span_digits_length (s ds r : list ascii) :
  json.span_digits s = (ds, r) -> (length r <= length s)%nat.
Proof.
  revert ds r. induction s as [|c s IH]; intros ds r; cbn.
  - now intros [= <- <-].
  - destruct (chars.is_digit c); [|intros [= <- <-]; cbn; lia].
    destruct (json.span_digits s) as [ds' r'].
    intros [= <- <-]. specialize (IH _ _ eq_refl). lia.
Qed.

Lemma scan_sign_length (s sign r : list ascii) :
  json.scan_sign s = (sign, r) -> (length r <= length s)%nat.
Proof.
  unfold json.scan_sign.
  destruct (chars.expect "-" s) eqn:E; intros [= <- <-]; [|lia].
  apply expect_length in E. lia.
Qed.

Lemma scan_int_length (s int r : list ascii) :
  json.scan_int s = Some (int, r) -> (length r < length s)%nat.
Proof.
  unfold json.scan_int. destruct s as [|c s]; [discriminate |].
  destruct (Ascii.eqb c "0"); [intros [= <- <-]; cbn; lia |].
  destruct (chars.is_digit c); [|discriminate].
  destruct (json.span_digits s) as [ds r'] eqn:E.
  intros [= <- <-]. apply span_digits_length in E. cbn. lia.
Qed.

Lemma scan_frac_length (s frac r : list ascii) :
  json.scan_frac s = Some (frac, r) -> (length r <= length s)%nat.
Proof.
  unfold json.scan_frac.
  destruct (chars.expect "." s) as [s'|] eqn:E; [|intros [= <- <-]; lia].
  destruct (json.span_digits s') as [ds r'] eqn:Ed.
  destruct ds; [discriminate |]. intros [= <- <-].
  apply expect_length in E. apply span_digits_length in Ed. lia.
Qed.

Lemma scan_exp_length (s exp r : list ascii) :
  json.scan_exp s = Some (exp, r) -> (length r <= length s)%nat.
Proof.
  unfold json.scan_exp. destruct s as [|e s]; [intros [= <- <-]; lia |].
  destruct (Ascii.eqb e "e" || Ascii.eqb e "E"); [|intros [= <- <-]; lia].
  destruct (json.scan_exp_sign s) as [sg r0] eqn:Es.
  assert (length r0 <= length s)%nat.
  { unfold json.scan_exp_sign in Es. destruct s as [|c s'];
      [injection Es as <- <-; lia |].
    destruct (Ascii.eqb c "+" || Ascii.eqb c "-");
      injection Es as <- <-; cbn; lia. }
  destruct (json.span_digits r0) as [ds r'] eqn:Ed.
  destruct ds; [discriminate |]. intros [= <- <-].
  apply span_digits_length in Ed. cbn. lia.
Qed.

Lemma scan_number_length (s lit r : list ascii) :
  json.scan_number s = Some (lit, r) -> (length r < length s)%nat.
Proof.
  unfold json.scan_number.
  destruct (json.scan_sign s) as [sign s1] eqn:E1.
  destruct (json.scan_int s1) as [[int s2]|] eqn:E2; cbn; [|discriminate].
  destruct (json.scan_frac s2) as [[frac s3]|] eqn:E3; cbn; [|discriminate].
  destruct (json.scan_exp s3) as [[exp s4]|] eqn:E4; cbn; [|discriminate].
  intros [= <- <-].
  apply scan_sign_length in E1. apply scan_int_length in E2.
  apply scan_frac_length in E3. apply scan_exp_length in E4. lia.
Qed.

Lemma scan_string_length (s : list ascii) :
  forall k out r,
    json.scan_string k s = Some (out, r) -> (length r + k < length s)%nat.
Proof.
  induction s as [|c s IH]; intros k out r; cbn [json.scan_string];
    [discriminate |].
  destruct k as [|k].
  2:{ intros H. apply IH in H. cbn. lia. }
  assert (Hrec : forall k' (f : list ascii -> list ascii),
             (json.scan_string k' s ≫=
                (fun '(out', rest) => Some (f out', rest))) = Some (out, r) ->
             (length r + 0 < length (c :: s))%nat).
  { intros k' f H.
    destruct (json.scan_string k' s) as [[out' rest]|] eqn:E; cbn in H;
      [|discriminate].
    injection H as _ <-. apply IH in E. cbn. lia. }
  destruct (Ascii.eqb c "034"); [intros [= <- <-]; cbn; lia |].
  destruct (Ascii.eqb c "\").
  { destruct s as [|e r1]; [discriminate |].
    destruct (Ascii.eqb e "u").
    - destruct (json.hex4 r1) as [rr|]; cbn [mbind option_bind];
        [|discriminate].
      destruct (json.is_surrogate rr).
      + destruct (_ =? utf8.RuneError)%N; apply Hrec.
      + apply Hrec.
    - destruct (json.simple_escape e) as [x|]; cbn [mbind option_bind];
        [|discriminate].
      apply (Hrec 1%nat (cons x)). }
  destruct (N_of_ascii c <? 32)%N; [discriminate |].
  destruct (N_of_ascii c <? 128)%N; [apply (Hrec 0%nat (cons c)) |].
  destruct (utf8.DecodeRune (c :: s)) as [rr size]. apply Hrec.
Qed.

Lemma parse_fuel_enough (fuel : nat) :
  fuel_enough json.parse_value (fun n => 2 * n)%nat fuel /\
  fuel_enough json.parse_members (fun n => 2 * n)%nat fuel /\
  fuel_enough json.parse_elements (fun n => 2 * n + 1)%nat fuel.
Proof.
  induction fuel as [|fuel (IHv & IHm & IHe)];
    [split; [|split]; intros d s a rest H; discriminate H |].
  split; [|split].
  - (* parse_value *)
    intros d s v rest. cbn [json.parse_value].
    destruct s as [|c r]; [discriminate |].
    destruct (Ascii.eqb c "{") eqn:Eobj.
    { destruct (json.maxNestingDepth <? d + 1)%N eqn:Ed; [discriminate |].
      pose proof (skip_space_length r) as Hsk.
      destruct (chars.expect "}" (json.skip_space r)) as [r'|] eqn:Ex.
      - intros [= <- <-]. apply expect_length in Ex as Lx.
        split; [cbn; lia |].
        intros [|f'] Hf; [cbn in Hf; lia |].
        cbn [json.parse_value]. now rewrite Eobj, Ed, Ex.
      - destruct (json.parse_members fuel (d + 1) (json.skip_space r))
          as [[ms rest']|] eqn:Em; cbn [mbind option_bind]; [|discriminate].
        intros [= <- <-]. destruct (IHm _ _ _ _ Em) as [Hlen Hsuf].
        split; [cbn; lia |].
        intros [|f'] Hf; [cbn in Hf; lia |].
        cbn [json.parse_value]. rewrite Eobj, Ed, Ex.
        rewrite Hsuf by (cbn in Hf; lia). reflexivity. }
    destruct (Ascii.eqb c "[") eqn:Earr.
    { destruct (json.maxNestingDepth <? d + 1)%N eqn:Ed; [discriminate |].
      pose proof (skip_space_length r) as Hsk.
      destruct (chars.expect "]" (json.skip_space r)) as [r'|] eqn:Ex.
      - intros [= <- <-]. apply expect_length in Ex as Lx.
        split; [cbn; lia |].
        intros [|f'] Hf; [cbn in Hf; lia |].
        cbn [json.parse_value]. now rewrite Eobj, Earr, Ed, Ex.
      - destruct (json.parse_elements fuel (d + 1) (json.skip_space r))
          as [[vs rest']|] eqn:Em; cbn [mbind option_bind]; [|discriminate].
        intros [= <- <-]. destruct (IHe _ _ _ _ Em) as [Hlen Hsuf].
        split; [cbn; lia |].
        intros [|f'] Hf; [cbn in Hf; lia |].
        cbn [json.parse_value]. rewrite Eobj, Earr, Ed, Ex.
        rewrite Hsuf by (cbn in Hf; lia). reflexivity. }
    intros H.
    assert (Hlen : (length rest < length (c :: r))%nat).
    { destruct (Ascii.eqb c "034").
      - destruct (json.scan_string 0 r) as [[str rest']|] eqn:Es;
          cbn [mbind option_bind] in H; [|discriminate].
        injection H as _ <-. apply scan_string_length in Es. cbn. lia.
      - repeat match type of H with
               | match chars.strip_prefix ?p ?s with _ => _ end = _ =>
                   let E := fresh "E" in
                   destruct (chars.strip_prefix p s) eqn:E;
                   [injection H as _ <-; apply strip_prefix_length in E;
                    cbn in E |- *; lia |]
               end.
        destruct (json.scan_number (c :: r)) as [[lit rest']|] eqn:Es;
          cbn [mbind option_bind] in H; [|discriminate].
        injection H as _ <-. now apply scan_number_length in Es. }
    split; [exact Hlen |].
    intros [|f'] Hf; [cbn in Hf; lia |].
    cbn [json.parse_value]. now rewrite Eobj, Earr.
  - (* parse_members *)
    intros d s ms rest. cbn [json.parse_members].
    destruct (chars.expect "034" s) as [r|] eqn:E0;
      cbn [mbind option_bind]; [|discriminate].
    destruct (json.scan_string 0 r) as [[key r1]|] eqn:E1;
      cbn [mbind option_bind]; [|discriminate].
    destruct (chars.expect ":" (json.skip_space r1)) as [r2|] eqn:E2;
      cbn [mbind option_bind]; [|discriminate].
    destruct (json.parse_value fuel d (json.skip_space r2)) as [[v r4]|] eqn:E3;
      cbn [mbind option_bind]; [|discriminate].
    apply expect_length in E0 as L0. apply scan_string_length in E1 as L1.
    apply expect_length in E2 as L2.
    pose proof (skip_space_length r1) as K1.
    pose proof (skip_space_length r2) as K2.
    pose proof (skip_space_length r4) as K4.
    destruct (IHv _ _ _ _ E3) as [L3 S3].
    destruct (chars.expect "," (json.skip_space r4)) as [r5|] eqn:E4.
    + destruct (json.parse_members fuel d (json.skip_space r5))
        as [[ms' rest']|] eqn:E5; cbn [mbind option_bind]; [|discriminate].
      intros [= <- <-].
      apply expect_length in E4 as L4.
      pose proof (skip_space_length r5) as K5.
      destruct (IHm _ _ _ _ E5) as [L5 S5].
      split; [lia |].
      intros [|f'] Hf; [lia |].
      cbn [json.parse_members]. rewrite E0. cbn [mbind option_bind].
      rewrite E1. cbn [mbind option_bind]. rewrite E2.
      cbn [mbind option_bind]. rewrite S3 by lia. cbn [mbind option_bind].
      rewrite E4, S5 by lia. reflexivity.
    + destruct (chars.expect "}" (json.skip_space r4)) as [r5|] eqn:E5;
        cbn [mbind option_bind]; [|discriminate].
      intros [= <- <-]. apply expect_length in E5 as L5.
      split; [lia |].
      intros [|f'] Hf; [lia |].
      cbn [json.parse_members]. rewrite E0. cbn [mbind option_bind].
      rewrite E1. cbn [mbind option_bind]. rewrite E2.
      cbn [mbind option_bind]. rewrite S3 by lia. cbn [mbind option_bind].
      rewrite E4, E5. reflexivity.
  - (* parse_elements *)
    intros d s vs rest. cbn [json.parse_elements].
    destruct (json.parse_value fuel d s) as [[v r1]|] eqn:E1;
      cbn [mbind option_bind]; [|discriminate].
    destruct (IHv _ _ _ _ E1) as [L1 S1].
    pose proof (skip_space_length r1) as K1.
    destruct (chars.expect "," (json.skip_space r1)) as [r2|] eqn:E2.
    + destruct (json.parse_elements fuel d (json.skip_space r2))
        as [[vs' rest']|] eqn:E3; cbn [mbind option_bind]; [|discriminate].
      intros [= <- <-]. apply expect_length in E2 as L2.
      pose proof (skip_space_length r2) as K2.
      destruct (IHe _ _ _ _ E3) as [L3 S3].
      split; [lia |].
      intros [|f'] Hf; [lia |].
      cbn [json.parse_elements]. rewrite S1 by lia. cbn [mbind option_bind].
      rewrite E2, S3 by lia. reflexivity.
    + destruct (chars.expect "]" (json.skip_space r1)) as [r2|] eqn:E3;
        cbn [mbind option_bind]; [|discriminate].
      intros [= <- <-]. apply expect_length in E3 as L3.
      split; [lia |].
      intros [|f'] Hf; [lia |].
      cbn [json.parse_elements]. rewrite S1 by lia. cbn [mbind option_bind].
      rewrite E2, E3. reflexivity.
Qed.

(** The fuel [json.parse] gives the reader loses no document: a text that
    reads as a document with some fuel reads as the same with its own. *)
Lemma parse_with_any_fuel (data : bytes) (fuel : nat) (v : json.value)
    (rest : list ascii) :
  json.parse_value fuel 0 (json.skip_space (map ascii_of_byte data))
  = Some (v, rest) ->
  json.skip_space rest = [] ->
  json.parse data = Some v.
Proof.
  intros Hrun Hrest. unfold json.parse.
  destruct (parse_fuel_enough fuel) as (Hv & _ & _).
  destruct (Hv _ _ _ _ Hrun) as [_ Hsuf].
  rewrite Hsuf by lia. cbn. now rewrite Hrest.
Qed.

(** ** Formatting has fuel enough *)

Lemma skip_flags_length (s : list ascii) :
  (length (fmt.skip_flags s) <= length s)%nat.
Proof.
  induction s as [|c s IH]; cbn; [lia |].
  destruct (fmt.is_flag c); cbn; lia.
Qed.

Lemma parsenum_from_length (s : list ascii) (num : N) (isnum : bool) :
  (length (fmt.parsenum_from num isnum s).2 <= length s)%nat.
Proof.
  revert num isnum. induction s as [|c s IH]; intros num isnum; cbn; [lia |].
  destruct (chars.is_digit c); [|cbn; lia].
  destruct (1000000 <? num)%N; [cbn; lia |].
  specialize (IH (num * 10 + (N_of_ascii c - 48))%N true). lia.
Qed.

Lemma argNumber_length (st : fmt.verb_state) :
  (length (fmt.left (fmt.argNumber st)) <= length (fmt.left st))%nat.
Proof.
  unfold fmt.argNumber.
  destruct (chars.expect "[" (fmt.left st)); [|cbn; lia].
  destruct (fmt.parseArgNumber _) as [wid ok]. cbn. rewrite length_drop. lia.
Qed.

Lemma width_length (st : fmt.verb_state) :
  (length (fmt.left (fmt.width st)) <= length (fmt.left st))%nat.
Proof.
  unfold fmt.width.
  destruct (chars.expect "*" (fmt.left st)) as [r|] eqn:E.
  - apply expect_length in E. cbn. lia.
  - pose proof (parsenum_from_length (fmt.left st) 0 false) as H.
    unfold fmt.parsenum. destruct (fmt.parsenum_from _ _ _). exact H.
Qed.

Lemma precision_length (st : fmt.verb_state) :
  (length (fmt.left (fmt.precision st)) <= length (fmt.left st))%nat.
Proof.
  unfold fmt.precision.
  destruct (chars.expect "." (fmt.left st)) as [r|] eqn:E; [|lia].
  apply expect_length in E.
  match goal with |- context [fmt.argNumber ?x] =>
    pose proof (argNumber_length x) as H; set (st' := fmt.argNumber x) in * end.
  cbn in H.
  destruct (chars.expect "*" (fmt.left st')) as [r'|] eqn:E'.
  - apply expect_length in E'. cbn. lia.
  - pose proof (parsenum_from_length (fmt.left st') 0 false) as H'.
    unfold fmt.parsenum. destruct (fmt.parsenum_from _ _ _). cbn in *. lia.
Qed.

Lemma verb_length (st : fmt.verb_state) :
  (length (fmt.verb st).2 <= length (fmt.left st))%nat.
Proof.
  unfold fmt.verb. destruct (fmt.left st) as [|c r]; [cbn; lia |].
  destruct (if (N_of_ascii c <? 128)%N then _ else _) as [v size].
  cbn [snd]. rewrite length_drop. lia.
Qed.

Lemma verb_no_operands_length (s : list ascii) :
  (length (fmt.verb_no_operands s).2 <= length s)%nat.
Proof.
  unfold fmt.verb_no_operands.
  pose proof (skip_flags_length s) as H0.
  set (st0 := fmt.mkVerbState [] (fmt.skip_flags s) false true).
  pose proof (argNumber_length st0) as H1.
  pose proof (width_length (fmt.argNumber st0)) as H2.
  pose proof (precision_length (fmt.width (fmt.argNumber st0))) as H3.
  set (st3 := fmt.precision _) in *.
  pose proof (argNumber_length st3) as H4.
  pose proof (verb_length (if fmt.afterIndex st3 then st3
                           else fmt.argNumber st3)) as H5.
  cbn in H1. destruct (fmt.afterIndex st3); lia.
Qed.

(** [doPrintf] gives the same with any fuel past the length of the
    format. *)
Lemma doPrintf_fuel (s : list ascii) :
  forall f1 f2,
    (length s < f1)%nat -> (length s < f2)%nat ->
    fmt.doPrintf f1 s = fmt.doPrintf f2 s.
Proof.
  induction s as [s IH] using (induction_ltof1 _ (@length ascii)).
  unfold ltof in IH.
  intros [|f1] [|f2] H1 H2; try lia. cbn [fmt.doPrintf].
  destruct s as [|c r]; [reflexivity |]. cbn in H1, H2.
  destruct (Ascii.eqb c "%").
  - pose proof (verb_no_operands_length r) as Hv.
    destruct (fmt.verb_no_operands r) as [out rest]. cbn in Hv.
    f_equal. apply IH; cbn; lia.
  - f_equal. apply IH; cbn; lia.
Qed.

(** ** Decoding into a struct *)

Section DecodeObject.

Context {S : Type}.
Variable setField : json.member -> S -> S * error.
Variable fits : json.member -> Prop.
Hypothesis setField_fits :
  forall m s, snd (setField m s) = None <-> fits m.

Lemma decode_members_ok (ms : list json.member) (s : S) (e : error) :
  snd (fold_left (json.decode_member setField) ms (s, e)) = None
  <-> e = None /\ Forall fits ms.
Proof.
  revert s e. induction ms as [|m ms IH]; intros s e; cbn [fold_left].
  - cbn. split; [intros ->; split; [reflexivity | constructor] | tauto].
  - unfold json.decode_member at 2.
    destruct (setField m s) as [s' e'] eqn:Em.
    rewrite IH, Forall_cons, <- (setField_fits m s), Em. cbn [snd].
    destruct e; [split; [intros [? _] | intros [? _]]; discriminate |].
    tauto.
Qed.

Lemma decode_object_ok (ms : list json.member) (s : S) :
  snd (json.decode_object setField ms s) = None <-> Forall fits ms.
Proof.
  unfold json.decode_object. rewrite decode_members_ok. tauto.
Qed.

End DecodeObject.

Lemma store_string_ok (field ty : string) (v : json.value) (old : string) :
  snd (json.store_string field ty v old) = None <-> string_or_null v.
Proof.
  unfold string_or_null.
  destruct v; cbn; split; intros H; try discriminate; try reflexivity;
    try (left; reflexivity); try (right; eexists; reflexivity);
    destruct H as [H | [s' H]]; discriminate.
Qed.

Lemma store_int_ok (field : string) (v : json.value) (old : Z) :
  snd (json.store_int field v old) = None <-> int_or_null v.
Proof.
  unfold int_or_null.
  destruct v as [| b | lit | s | vs | ms]; cbn;
    try (split; [discriminate | intros [H | (l & n & H & _)]; discriminate]).
  - split; [left; reflexivity | reflexivity].
  - destruct (json.ParseInt64 lit) as [n|] eqn:E; cbn.
    + split; [right; exists lit, n; auto | reflexivity].
    + split; [discriminate |].
      intros [H | (l & n & H & Hn)]; [discriminate |].
      injection H as <-. congruence.
Qed.

Lemma Response_setField_ok (m : json.member) (r : Response) :
  snd (Response_setField m r) = None <-> member_fits m.
Proof.
  destruct m as [[key raw] v].
  unfold Response_setField, member_fits, envelope_field. cbn [fst snd find].
  repeat match goal with
  | |- context [json.name_matches ?n key] =>
      destruct (json.name_matches n key); cbn [String.eqb Ascii.eqb Bool.eqb]
  end;
  repeat match goal with
  | |- context [json.store_string ?f ?t v ?o] =>
      rewrite <- (store_string_ok f t v o);
      destruct (json.store_string f t v o)
  | |- context [json.store_int ?f v ?o] =>
      rewrite <- (store_int_ok f v o); destruct (json.store_int f v o)
  end; cbn; tauto.
Qed.

Lemma Unmarshal_Response_ok (data : bytes) (r : Response) :
  snd (json_Unmarshal_Response data r) = None
  <-> exists v, json.parse data = Some v /\ Response_shape v.
Proof.
  unfold json_Unmarshal_Response, json.Unmarshal, Response_shape.
  destruct (json.parse data) as [v|]; cbn.
  - destruct v as [| b | lit | s | vs | ms]; cbn;
      try (split; [discriminate |];
           intros (v' & Hv & [H | (ms' & H & _)]); injection Hv as <-;
           discriminate).
    + split; [eauto | reflexivity].
    + rewrite (decode_object_ok _ _ Response_setField_ok).
      split.
      * intros H. eexists; split; [reflexivity |]. right; eauto.
      * intros (v' & Hv & [H | (ms' & H & HF)]); injection Hv as <-;
          [discriminate | injection H as <-; exact HF].
  - split; [discriminate | intros (v & Hv & _); discriminate].
Qed.

(** C4, as the code has it: [ParseResponse] with Go's decoder returns an
    envelope exactly when the body could be read and is a JSON document that
    is null or an object whose members fit the fields they go to, whatever
    fields go with whatever kind; otherwise it returns the error of the read
    or of the decoder. *)
Theorem ParseResponse_decodes (r : http.Response) :
  (exists env, ParseResponse json_Unmarshal_Response r = inr env)
  <-> http.read_error (http.Body r) = None /\
      exists v, json.parse (http.content (http.Body r)) = Some v /\
                Response_shape v.
Proof.
  unfold ParseResponse, http.ReadAll.
  rewrite <- (Unmarshal_Response_ok _ Response_zero).
  destruct (http.read_error (http.Body r)) as [e|].
  - split; [intros [env H] | intros [H _]]; discriminate.
  - destruct (json_Unmarshal_Response _ _) as [ret [e|]]; cbn [snd].
    + split; [intros [env H] | intros [_ H]]; discriminate.
    + split; eauto.
Qed.

(** C4, as stated, fails: a body of kind [sync] that also carries an
    operation reference, an error code and an error message is decoded
    into an envelope. *)
Lemma ParseResponse_accepts_mixed_fields :
  ~ (forall (r : http.Response) (env : Response),
       ParseResponse json_Unmarshal_Response r = inr env ->
       well_formed_envelope (resp_Type env) (http.content (http.Body r))).
Proof.
  intros H.
  destruct (H (Fixture.answer 200 Fixture.mixed_body None)
              (mkResponse Sync "" "/1.0/operations/7" 500 "boom" []))
    as (_ & ms & Hms & Hperm).
  - vm_compute. reflexivity.
  - vm_compute in Hms. injection Hms as <-. vm_compute in Hperm.
    discriminate.
Qed.

(** ** The operation record *)

Lemma closes_cancel_eqb (s : string) :
  (String.eqb s Done || String.eqb s Cancelling || String.eqb s Cancelled)%bool
  = true <-> closes_cancel s.
Proof.
  unfold closes_cancel.
  rewrite !orb_true_iff, !String.eqb_eq. tauto.
Qed.

Lemma SetStatus_fields (now : Time) (s : string) (o : Operation) :
  SetStatus now s o =
  mkOperation (op_CreatedAt o) now s (map_index StatusCodes s)
    (op_Result o) (op_ResultCode o) (op_ResourceURL o) (op_Metadata o)
    (if (String.eqb s Done || String.eqb s Cancelling
         || String.eqb s Cancelled)%bool then false else op_MayCancel o)
    (op_Run o) (op_Cancel o) (op_Chan o).
Proof.
  unfold SetStatus.
  destruct (String.eqb s Done || String.eqb s Cancelling
            || String.eqb s Cancelled)%bool; reflexivity.
Qed.

(** C6: for each of the five named statuses, [SetStatus] stores the status,
    refreshes [UpdatedAt], stores the wire code of the status (0..4), clears
    [MayCancel] for Done, Cancelling and Cancelled, and leaves [MayCancel] as
    it was for Pending and Running. *)
Theorem SetStatus_named (now : Time) (s : string) (o : Operation) :
  s ∈ [Pending; Running; Done; Cancelling; Cancelled] ->
  op_Status (SetStatus now s o) = s /\
  op_UpdatedAt (SetStatus now s o) = now /\
  Some (op_StatusCode (SetStatus now s o)) = status_wire_code s /\
  (closes_cancel s -> op_MayCancel (SetStatus now s o) = false) /\
  (~ closes_cancel s -> op_MayCancel (SetStatus now s o) = op_MayCancel o).
Proof.
  intros Hs. rewrite SetStatus_fields.
  cbn [op_Status op_UpdatedAt op_StatusCode op_MayCancel].
  split; [reflexivity | split; [reflexivity | split]].
  - rewrite !elem_of_cons, elem_of_nil in Hs.
    destruct Hs as [-> | [-> | [-> | [-> | [-> | []]]]]]; reflexivity.
  - split; intros Hc.
    + apply closes_cancel_eqb in Hc. now rewrite Hc.
    + destruct (String.eqb s Done || String.eqb s Cancelling
                || String.eqb s Cancelled)%bool eqn:E; [|reflexivity].
      apply closes_cancel_eqb in E. contradiction.
Qed.

Lemma SetStatus_named_witness :
  let o := mkOperation 10 10 Running 1 "" 0 "/1.0/containers/web1" [] true
             None None (Some 1%positive) in
  Done ∈ [Pending; Running; Done; Cancelling; Cancelled] /\
  op_Status (SetStatus 20 Done o) = Done /\
  op_UpdatedAt (SetStatus 20 Done o) = 20 /\
  Some (op_StatusCode (SetStatus 20 Done o)) = status_wire_code Done /\
  (closes_cancel Done -> op_MayCancel (SetStatus 20 Done o) = false) /\
  (~ closes_cancel Done ->
   op_MayCancel (SetStatus 20 Done o) = op_MayCancel o).
Proof.
  intros o.
  assert (H : Done ∈ [Pending; Running; Done; Cancelling; Cancelled]).
  { rewrite !elem_of_cons. right; right; left; reflexivity. }
  split; [exact H | exact (SetStatus_named 20 Done o H)].
Defined.

(** C10: [SetStatus], at any status string, changes no field other than
    [Status], [StatusCode], [UpdatedAt] and [MayCancel], and never turns
    [MayCancel] on. *)
Theorem SetStatus_frame (now : Time) (s : string) (o : Operation) :
  op_Result (SetStatus now s o) = op_Result o /\
  op_ResultCode (SetStatus now s o) = op_ResultCode o /\
  op_ResourceURL (SetStatus now s o) = op_ResourceURL o /\
  op_Metadata (SetStatus now s o) = op_Metadata o /\
  op_CreatedAt (SetStatus now s o) = op_CreatedAt o /\
  op_Run (SetStatus now s o) = op_Run o /\
  op_Cancel (SetStatus now s o) = op_Cancel o /\
  op_Chan (SetStatus now s o) = op_Chan o /\
  (op_MayCancel (SetStatus now s o) = true -> op_MayCancel o = true).
Proof.
  rewrite SetStatus_fields. cbn.
  repeat (split; [reflexivity|]).
  destruct (String.eqb s Done || String.eqb s Cancelling
            || String.eqb s Cancelled)%bool; [discriminate | trivial].
Qed.

Lemma SetStatus_frame_witness :
  let o := mkOperation 10 10 Pending 0 "" 0 "/1.0/containers/web1" [] false
             None None None in
  op_MayCancel (SetStatus 20 "resumed" o) = false.
Proof.
  intros o.
  destruct (op_MayCancel (SetStatus 20 "resumed" o)) eqn:E; [|reflexivity].
  apply (SetStatus_frame 20 "resumed" o) in E. discriminate E.
Defined.

Section SetResultProps.

Variable json_Marshal_string : string -> bytes * error.

Lemma SetResult_fields (now : Time) (err : error) (o : Operation) :
  SetResult json_Marshal_string now err o =
  mkOperation (op_CreatedAt o) now (op_Status o) (op_StatusCode o)
    (match err with Some _ => Failure | None => Success end)
    (match err with Some _ => 0 | None => 1 end)
    (op_ResourceURL o)
    (match err with
     | Some e => fst (json_Marshal_string (Error_text e))
     | None => op_Metadata o
     end)
    (op_MayCancel o) (op_Run o) (op_Cancel o) (op_Chan o).
Proof.
  unfold SetResult. destruct err as [e|]; [|reflexivity].
  destruct (json_Marshal_string (Error_text e)) as [md e']. reflexivity.
Qed.

(** C5: [SetResult] at nil stores Success with code 1; at an error it
    stores Failure with code 0 and replaces the metadata by what
    [json.Marshal] gave for the error text, whether or not the encoder
    reported an error; in both cases [UpdatedAt] is refreshed. *)
Theorem SetResult_result (now : Time) (err : error) (o : Operation) :
  op_UpdatedAt (SetResult json_Marshal_string now err o) = now /\
  match err with
  | None =>
      op_Result (SetResult json_Marshal_string now err o) = Success /\
      op_ResultCode (SetResult json_Marshal_string now err o) = 1
  | Some e =>
      op_Result (SetResult json_Marshal_string now err o) = Failure /\
      op_ResultCode (SetResult json_Marshal_string now err o) = 0 /\
      op_Metadata (SetResult json_Marshal_string now err o)
        = fst (json_Marshal_string (Error_text e))
  end.
Proof.
  rewrite SetResult_fields. destruct err; cbn; auto.
Qed.

(** C3, as the code has it: [SetResult] leaves the status, its code and
    [MayCancel] as they were; the status is Done and [MayCancel] is
    false once [SetStatus] at Done has run, before or after it. *)
Theorem SetResult_keeps_status (now now' : Time) (err : error)
    (o : Operation) :
  op_Status (SetResult json_Marshal_string now err o) = op_Status o /\
  op_StatusCode (SetResult json_Marshal_string now err o)
    = op_StatusCode o /\
  op_MayCancel (SetResult json_Marshal_string now err o)
    = op_MayCancel o /\
  op_Status (SetStatus now' Done (SetResult json_Marshal_string now err o))
    = Done /\
  op_MayCancel
    (SetStatus now' Done (SetResult json_Marshal_string now err o))
    = false /\
  op_Status (SetResult json_Marshal_string now' err (SetStatus now Done o))
    = Done /\
  op_MayCancel
    (SetResult json_Marshal_string now' err (SetStatus now Done o))
    = false.
Proof.
  rewrite !SetResult_fields, !SetStatus_fields. cbn. tauto.
Qed.

End SetResultProps.

(** C3, as stated, fails: after [SetResult] on a running, cancellable
    operation the status is still Running and [MayCancel] is still true. *)
Lemma SetResult_not_Done :
  ~ (forall (marshal : string -> bytes * error) (now : Time) (err : error)
       (o : Operation),
       op_Status (SetResult marshal now err o) = Done /\
       op_MayCancel (SetResult marshal now err o) = false).
Proof.
  intros H.
  destruct (H (fun _ => ([], None)) 20 None
              (mkOperation 10 10 Running 1 "" 0 "/1.0/containers/web1" []
                 true None None None))
    as [Hs _].
  discriminate Hs.
Qed.

(** ** Errors in envelopes *)

Lemma ParseError_nil (r : Response) :
  ParseError r = None <-> resp_Type r <> Error.
Proof.
  unfold ParseError.
  destruct (String.eqb (resp_Type r) Error) eqn:E.
  - apply String.eqb_eq in E. split; [discriminate | contradiction].
  - apply String.eqb_neq in E. tauto.
Qed.

Lemma doPrintf_plain (s : list ascii) (fuel : nat) :
  (length s < fuel)%nat ->
  Forall (fun c => c <> "%"%char) s ->
  fmt.doPrintf fuel s = s.
Proof.
  revert fuel. induction s as [|c s IH]; intros fuel Hf Hs.
  - destruct fuel; reflexivity.
  - destruct fuel as [|fuel]; [cbn in Hf; lia |].
    apply Forall_cons in Hs as [Hc Hs]. cbn [fmt.doPrintf].
    destruct (Ascii.eqb c "%") eqn:E.
    + apply Ascii.eqb_eq in E. contradiction.
    + rewrite IH; [reflexivity | cbn in Hf; lia | exact Hs].
Qed.

Lemma length_list_ascii_of_string (s : string) :
  length (list_ascii_of_string s) = String.length s.
Proof. induction s as [|c s IH]; cbn; [reflexivity | now rewrite IH]. Qed.

(** An error message without a percent sign is carried as it is. *)
Lemma ParseError_plain (r : Response) :
  resp_Type r = Error ->
  Forall (fun c => c <> "%"%char) (list_ascii_of_string (resp_Error r)) ->
  ParseError r = Some (errorString (resp_Error r)).
Proof.
  intros Ht Hs. unfold ParseError, fmt.Errorf, fmt.Sprintf.
  rewrite Ht, String.eqb_refl, doPrintf_plain.
  - now rewrite string_of_list_ascii_of_string.
  - rewrite length_list_ascii_of_string. lia.
  - exact Hs.
Qed.

(** C7 at an Error envelope whose message is [cpu at 100%]: [ParseError]
    gives a failure, but its text is the message run through [fmt.Errorf]
    as a format, not the message. *)
Theorem ParseError_percent_message :
  ParseError (mkResponse Error "" "" 500 "cpu at 100%" [])
  = Some (errorString "cpu at 100%!(NOVERB)").
Proof. vm_compute. reflexivity. Qed.

(** ** The dispatch helpers and the pinned certificate *)

Section DispatchProps.

Variable APIVersion : string.
Variable path_Join : list string -> string.
Variable url_Parse : string -> error.
Variable url_Values_Encode_path : string -> string.
Variable Jmap : Type.
Variable json_Encode : Jmap -> bytes * error.
Variable json_Unmarshal : bytes -> Response -> Response * error.
Variable sha256_Sum256 : bytes -> bytes.
Variable ParseLXDFileHeaders : http.Header -> Z * Z * Z * error.

(** [get] compares the certificate of the peer with the pinned one before
    it reads the body: when they differ the call fails, whatever the body
    holds, and the client is left as it was. *)
Lemma get_checks_pin (c : Client) (base : string)
    (pinned peer : http.Certificate) (tls : http.ConnectionState)
    (resp : http.Response) :
  c_scert c = Some pinned ->
  http.Get url_Parse (c_http c) (url path_Join c [APIVersion; base])
    = inr resp ->
  http.TLS resp = Some tls ->
  http.PeerCertificates tls !! 0%nat = Some peer ->
  http.Raw peer <> http.Raw pinned ->
  get APIVersion path_Join url_Parse json_Unmarshal sha256_Sum256 c base
  = Returns (c, inl (errorString "Server certificate has changed")).
Proof.
  intros Hpin Hget Htls Hpeer Hne. unfold get.
  rewrite Hget, Hpin, Htls. unfold index. rewrite Hpeer. cbn.
  unfold bytes_Equal. rewrite bool_decide_eq_false_2 by exact Hne.
  reflexivity.
Qed.

(** C2 on [put], [post] and [delete_]: with a certificate pinned and a
    peer that shows another one, each of them still decodes the body and
    returns its envelope. *)
Theorem put_post_delete_skip_pin (c : Client) (base : string) (args : Jmap)
    (buf : bytes) (pinned peer : http.Certificate)
    (tls : http.ConnectionState) (resp : http.Response) (env : Response) :
  c_scert c = Some pinned ->
  json_Encode args = (buf, None) ->
  url_Parse (url path_Join c [APIVersion; base]) = None ->
  (forall req, c_http c req = inr resp) ->
  http.TLS resp = Some tls ->
  http.PeerCertificates tls !! 0%nat = Some peer ->
  http.Raw peer <> http.Raw pinned ->
  ParseResponse json_Unmarshal resp = inr env ->
  put APIVersion path_Join url_Parse Jmap json_Encode json_Unmarshal
    c base args = inr env /\
  post APIVersion path_Join url_Parse Jmap json_Encode json_Unmarshal
    c base args = inr env /\
  delete_ APIVersion path_Join url_Parse Jmap json_Encode json_Unmarshal
    c base args = inr env.
Proof.
  intros _ Henc Hurl Hsrv _ _ _ Hparse.
  unfold put, post, delete_, http.Post, http.NewRequest, http.Do.
  rewrite Henc, Hurl, !Hsrv, Hparse. auto.
Qed.

(** C9: when the answer to a file pull has a status other than 200 and its
    body decodes to an envelope whose kind is not Error, [PullFile]
    returns zero uid, gid and mode, no stream and a nil error. *)
Theorem PullFile_non200_not_Error (c : Client) (container p : string)
    (r : http.Response) (resp : Response) :
  http.Get url_Parse (c_http c)
    (url path_Join c [APIVersion; "containers"; container; "files"]
     +:+ "?" +:+ url_Values_Encode_path p) = inr r ->
  http.StatusCode r <> 200 ->
  ParseResponse json_Unmarshal r = inr resp ->
  resp_Type resp <> Error ->
  PullFile APIVersion path_Join url_Parse url_Values_Encode_path
    json_Unmarshal ParseLXDFileHeaders c container p
  = (0, 0, 0, None, None).
Proof.
  intros Hget Hstatus Hparse Hkind. unfold PullFile.
  rewrite Hget. apply Z.eqb_neq in Hstatus. rewrite Hstatus. cbn [negb].
  rewrite Hparse. apply ParseError_nil in Hkind. now rewrite Hkind.
Qed.

End DispatchProps.

Lemma put_post_delete_skip_pin_witness :
  put Fixture.APIVersion Fixture.path_Join Fixture.url_Parse Fixture.Jmap
    Fixture.json_Encode json_Unmarshal_Response Fixture.pinned_client
    "containers/web1/state" Fixture.stop_args
  = inr Fixture.sync_envelope /\
  post Fixture.APIVersion Fixture.path_Join Fixture.url_Parse Fixture.Jmap
    Fixture.json_Encode json_Unmarshal_Response Fixture.pinned_client
    "containers/web1/state" Fixture.stop_args
  = inr Fixture.sync_envelope /\
  delete_ Fixture.APIVersion Fixture.path_Join Fixture.url_Parse Fixture.Jmap
    Fixture.json_Encode json_Unmarshal_Response Fixture.pinned_client
    "containers/web1/state" Fixture.stop_args
  = inr Fixture.sync_envelope.
Proof.
  apply (put_post_delete_skip_pin Fixture.APIVersion Fixture.path_Join
           Fixture.url_Parse Fixture.Jmap Fixture.json_Encode
           json_Unmarshal_Response Fixture.pinned_client
           "containers/web1/state" Fixture.stop_args
           (Fixture.stop_args ++ Fixture.text (String "010" ""))
           Fixture.pinned_cert Fixture.other_cert Fixture.other_tls
           (Fixture.answer 200 Fixture.sync_body (Some Fixture.other_tls))
           Fixture.sync_envelope).
  - reflexivity.
  - reflexivity.
  - reflexivity.
  - intros req. reflexivity.
  - reflexivity.
  - reflexivity.
  - vm_compute. discriminate.
  - vm_compute. reflexivity.
Defined.

Lemma PullFile_non200_not_Error_witness :
  PullFile Fixture.APIVersion Fixture.path_Join Fixture.url_Parse
    Fixture.url_Values_Encode_path json_Unmarshal_Response
    Fixture.ParseLXDFileHeaders Fixture.pull_client "web1" "hostname"
  = (0, 0, 0, None, None).
Proof.
  apply (PullFile_non200_not_Error Fixture.APIVersion Fixture.path_Join
           Fixture.url_Parse Fixture.url_Values_Encode_path
           json_Unmarshal_Response Fixture.ParseLXDFileHeaders
           Fixture.pull_client "web1" "hostname"
           (Fixture.answer 404 Fixture.sync_body None)
           Fixture.sync_envelope).
  - reflexivity.
  - vm_compute. discriminate.
  - vm_compute. reflexivity.
  - vm_compute. discriminate.
Defined.

(** ** Trust on first use *)

Lemma Create_cases (name : string) (w : os.World) :
  (exists e, os.Create name w = (inl e, w)) \/
  os.Create name w
  = (inr (os.Regular name), os.set_files (<[name := []]> (os.files w)) w).
Proof.
  unfold os.Create. repeat case_decide; eauto.
  destruct (match os.parent name with
            | Some d => bool_decide (d ∈ os.dirs w)
            | None => true
            end); eauto.
Qed.

Lemma MkdirAll_cases (path : string) (w : os.World) :
  (exists e, os.MkdirAll path w = (Some e, w)) \/
  exists ds, os.MkdirAll path w = (None, os.set_dirs ds w).
Proof. unfold os.MkdirAll. repeat case_bool_decide; eauto. Qed.

(** A run of [UserAuthServerCert] touches no file other than the one named
    after the remote. *)
Lemma UserAuthServerCert_files (c : Client) (w : os.World) (p : string) :
  p <> cert_path c w ->
  os.files (UserAuthServerCert c w).2 !! p = os.files w !! p.
Proof.
  intros Hp. unfold UserAuthServerCert.
  destruct (c_scertDigestSet c); cbn [negb]; [|reflexivity].
  unfold ReadStdin. cbn [os.stdin os.Print os.set_stdout].
  destruct (os.stdin w) as [|line rest]; [reflexivity |].
  destruct (Go.index line 0) as [l0|msg]; [|reflexivity].
  destruct (negb _ && negb _)%bool; [reflexivity |].
  unfold os.Getenv at 1 2. cbn [os.env os.set_stdin]. fold (os.Getenv "HOME" w).
  destruct (String.eqb _ ""); [reflexivity |].
  fold (cert_path c w).
  match goal with |- context [os.MkdirAll ?d ?w'] =>
    destruct (MkdirAll_cases d w') as [[e ->] | [ds ->]] end; [reflexivity |].
  match goal with |- context [os.Create ?n ?w'] =>
    destruct (Create_cases n w') as [[e ->] | ->] end; [reflexivity |].
  destruct (deref (c_scertWire c)) as [wire|msg]; cbn;
    now rewrite ?lookup_insert_ne by (intros <-; now apply Hp).
Qed.

(** Without an answer that starts with [y] or [Y], a run leaves files and
    directories as they were. *)
Lemma UserAuthServerCert_unconfirmed (c : Client) (w : os.World) :
  ~ confirms w ->
  os.files (UserAuthServerCert c w).2 = os.files w /\
  os.dirs (UserAuthServerCert c w).2 = os.dirs w.
Proof.
  intros Hno. unfold UserAuthServerCert.
  destruct (c_scertDigestSet c); cbn [negb]; [|auto].
  unfold ReadStdin. cbn [os.stdin os.Print os.set_stdout].
  destruct (os.stdin w) as [|[|l0 line] rest] eqn:Hin; [auto | auto |].
  cbn [Go.index lookup list_lookup].
  destruct (bool_decide (l0 = "y"%byte)) eqn:Ey.
  { apply bool_decide_eq_true in Ey. exfalso. apply Hno. red. eauto 10. }
  destruct (bool_decide (l0 = "Y"%byte)) eqn:EY.
  { apply bool_decide_eq_true in EY. exfalso. apply Hno. red. eauto 10. }
  cbn. auto.
Qed.

Lemma confirms_dec (w : os.World) : confirms w \/ ~ confirms w.
Proof.
  unfold confirms.
  destruct (os.stdin w) as [|[|l0 line] rest].
  - right. intros (? & ? & ? & H & _). discriminate.
  - right. intros (? & ? & ? & H & _). discriminate.
  - destruct (decide (l0 = "y"%byte)) as [-> | Hy]; [left; eauto 10 |].
    destruct (decide (l0 = "Y"%byte)) as [-> | HY]; [left; eauto 10 |].
    right. intros (l & ? & ? & [= -> _ _] & [-> | ->]); contradiction.
Qed.

(** C8, where the code parts from it.  On a client that holds a
    certificate from the connection, an answer that does not confirm leaves
    files and directories as they were, but the call fails with the error
    of a refused certificate only when something was typed: on the empty
    line [line[0]] is read without a test of the length and the call
    panics, and at the end of the input the error of the read is returned.
    And whenever a run changes the files at all, the answer started with
    [y] or [Y] and no file other than the one named after the remote is
    touched. *)
Theorem UserAuthServerCert_decline (c : Client) (w : os.World) :
  (c_scertDigestSet c = true -> declines w ->
   (UserAuthServerCert c w).1
   = match os.stdin w with
     | [] => Returns (errors_New "EOF")
     | [] :: _ => Panics "runtime error: index out of range"
     | (_ :: _) :: _ =>
         Returns (errors_New "Server certificate NACKed by user")
     end /\
   os.files (UserAuthServerCert c w).2 = os.files w /\
   os.dirs (UserAuthServerCert c w).2 = os.dirs w) /\
  (os.files (UserAuthServerCert c w).2 <> os.files w ->
   confirms w /\
   forall p, p <> cert_path c w ->
             os.files (UserAuthServerCert c w).2 !! p = os.files w !! p).
Proof.
  split.
  - intros Hset Hd. unfold declines in Hd.
    unfold UserAuthServerCert, ReadStdin. rewrite Hset. cbn.
    destruct (os.stdin w) as [|[|l0 line] rest]; cbn; [auto | auto |].
    destruct Hd as [Hy HY].
    rewrite !bool_decide_eq_false_2 by assumption. cbn. auto.
  - intros Hchanged. split.
    + destruct (confirms_dec w) as [Hc | Hc]; [exact Hc |].
      destruct (UserAuthServerCert_unconfirmed c w Hc) as [Hf _].
      contradiction.
    + intros p Hp. now apply UserAuthServerCert_files.
Qed.

Lemma UserAuthServerCert_decline_witness :
  (UserAuthServerCert Fixture.first_contact (Fixture.terminal "")).1
  = Panics "runtime error: index out of range" /\
  os.files (UserAuthServerCert Fixture.first_contact (Fixture.terminal "")).2
  = os.files (Fixture.terminal "") /\
  os.dirs (UserAuthServerCert Fixture.first_contact (Fixture.terminal "")).2
  = os.dirs (Fixture.terminal "").
Proof.
  apply (UserAuthServerCert_decline Fixture.first_contact
           (Fixture.terminal "")).
  - reflexivity.
  - vm_compute. trivial.
Defined.

(** A run with the answer [no]: the call fails with the error of a refused
    certificate and nothing is written. *)
Example UserAuthServerCert_no :
  (UserAuthServerCert Fixture.first_contact (Fixture.terminal "no")).1
  = Returns (errors_New "Server certificate NACKed by user") /\
  os.files (UserAuthServerCert Fixture.first_contact (Fixture.terminal "no")).2
  = os.files (Fixture.terminal "no").
Proof. split; vm_compute; reflexivity. Qed.

(** A run with the answer [yes]: the certificate from the connection is
    written, in PEM, to the file named after the remote, and the call
    succeeds. *)
Example UserAuthServerCert_yes :
  (UserAuthServerCert Fixture.first_contact (Fixture.terminal "yes")).1
  = Returns None /\
  os.files (UserAuthServerCert Fixture.first_contact (Fixture.terminal "yes")).2
  = {[ "/home/u/.config/lxc/servercerts/srv.crt" :=
         pem.Encode "CERTIFICATE" (http.Raw Fixture.other_cert) ]}.
Proof. split; vm_compute; reflexivity. Qed.

(** ** The daemon's trust handler *)

Section PasswordProps.

Variable VarPath : string -> string.
Variable PW_SALT_BYTES PW_HASH_BYTES : nat.
Variable scrypt_Key : bytes -> bytes -> Z -> Z -> Z -> nat -> bytes * error.

(** [verifyAdminPwd] does what the password check asks: it accepts a password
    exactly when the password file can be read, is not empty, and the scrypt
    key of the password under the stored salt, with N = 2^14, r = 8, p = 1,
    is the stored hash. *)
Lemma verifyAdminPwd_checks_hash (d : daemon.Daemon) (password : string)
    (w : os.World) :
  daemon.verifyAdminPwd VarPath PW_SALT_BYTES PW_HASH_BYTES scrypt_Key
    d password w = true
  <-> exists f data hash,
        os.Open (VarPath "adminpwd") w = inr f /\
        os.Read f (PW_SALT_BYTES + PW_HASH_BYTES) w = (data, None) /\
        let buff :=
          data ++ replicate (PW_SALT_BYTES + PW_HASH_BYTES - length data)
                    "000"%byte in
        scrypt_Key (list_byte_of_string password) (take PW_SALT_BYTES buff)
          16384 8 1 PW_HASH_BYTES = (hash, None) /\
        hash = drop PW_SALT_BYTES buff.
Proof.
  unfold daemon.verifyAdminPwd.
  destruct (os.Open (VarPath "adminpwd") w) as [e|f].
  { split; [discriminate | intros (? & ? & ? & H & _); discriminate H]. }
  destruct (os.Read f _ w) as [data [e|]] eqn:Er.
  { split; [discriminate |].
    intros (? & ? & ? & [= <-] & H & _). rewrite Er in H. discriminate H. }
  change (Z.shiftl 1 14) with 16384.
  destruct (scrypt_Key _ _ _ _ _ _) as [hash [e|]] eqn:Ek.
  { split; [discriminate |].
    intros (? & ? & ? & [= <-] & H & Hk). rewrite Er in H.
    injection H as <-. cbn zeta in Hk. destruct Hk as [Hk _].
    rewrite Ek in Hk. discriminate Hk. }
  unfold bytes_Equal. case_bool_decide as Heq; cbn [negb].
  - split; [intros _ | reflexivity].
    exists f, data, hash. cbn zeta. rewrite Ek. auto.
  - split; [discriminate |].
    intros (? & ? & ? & [= <-] & H & Hk). rewrite Er in H.
    injection H as <-. cbn zeta in Hk. destruct Hk as [Hk Hh].
    rewrite Ek in Hk. injection Hk as <-. contradiction.
Qed.

End PasswordProps.

Section TrustProps.

Variable VarPath : string -> string.
Variable PW_SALT_BYTES PW_HASH_BYTES : nat.
Variable scrypt_Key : bytes -> bytes -> Z -> Z -> Z -> nat -> bytes * error.
Variable ReadToJson :
  http.ReadCloser -> daemon.trustPostBody -> daemon.trustPostBody * error.
Variable base64_DecodeString : string -> bytes * error.
Variable x509_ParseCertificate : bytes -> error_value + http.Certificate.

(** When [saveCert] reports no error, the PEM text of the certificate is
    in the file named after the host. *)
Lemma saveCert_ok (host : string) (cert : http.Certificate) (w : os.World) :
  (daemon.saveCert VarPath host cert w).1 = None ->
  os.files (daemon.saveCert VarPath host cert w).2
    !! client_cert_path VarPath host
  = Some (pem.Encode "CERTIFICATE" (http.Raw cert)).
Proof.
  unfold daemon.saveCert. fold (client_cert_path VarPath host).
  destruct (os.MkdirAll _ w) as [err w1].
  destruct (Create_cases (client_cert_path VarPath host) w1) as [[e ->] | ->];
    [discriminate |].
  cbn. intros _. now rewrite lookup_insert_eq, lookup_insert_eq.
Qed.

(** [trustPost] does not look at the password: two requests on the same
    connection whose bodies decode alike but for the password are answered
    alike, with the same effect. *)
Lemma trustPost_password_unused (d : daemon.Daemon) (r1 r2 : http.Request)
    (w : os.World) (req1 req2 : daemon.trustPostBody) :
  ReadToJson (http.ReqBody r1) daemon.trustPostBody_zero = (req1, None) ->
  ReadToJson (http.ReqBody r2) daemon.trustPostBody_zero = (req2, None) ->
  daemon.tpb_Certificate req1 = daemon.tpb_Certificate req2 ->
  http.ReqTLS r1 = http.ReqTLS r2 ->
  daemon.trustPost VarPath ReadToJson base64_DecodeString
    x509_ParseCertificate d r1 w
  = daemon.trustPost VarPath ReadToJson base64_DecodeString
      x509_ParseCertificate d r2 w.
Proof.
  intros H1 H2 Hc Ht. unfold daemon.trustPost, daemon.trustPost_cert.
  now rewrite H1, H2, Hc, Ht.
Qed.
(** C1 on a request that carries no certificate of its own: on a daemon
    with an admin password, a password that [verifyAdminPwd] rejects does
    not stop [trustPost]; it stores the certificate of the peer under the
    server name, in the map and on disk, and answers with success. *)
Theorem trustPost_unverified_password (d : daemon.Daemon)
    (r : http.Request) (w : os.World) (req : daemon.trustPostBody)
    (tls : http.ConnectionState) (cert : http.Certificate) :
  daemon.hasPwd VarPath d w = true ->
  ReadToJson (http.ReqBody r) daemon.trustPostBody_zero = (req, None) ->
  daemon.verifyAdminPwd VarPath PW_SALT_BYTES PW_HASH_BYTES scrypt_Key d
    (daemon.tpb_Password req) w = false ->
  daemon.tpb_Certificate req = "" ->
  http.ReqTLS r = Some tls ->
  last (http.PeerCertificates tls) = Some cert ->
  (daemon.saveCert VarPath (http.ServerName tls) cert w).1 = None ->
  let '(resp, d', w') :=
    daemon.trustPost VarPath ReadToJson base64_DecodeString
      x509_ParseCertificate d r w in
  resp = Returns daemon.EmptySyncResponse /\
  daemon.clientCerts d'
  = <[http.ServerName tls := cert]> (daemon.clientCerts d) /\
  os.files w' !! client_cert_path VarPath (http.ServerName tls)
  = Some (pem.Encode "CERTIFICATE" (http.Raw cert)).
Proof.
  intros _ Hread _ Hnocert Htls Hlast Hsave.
  unfold daemon.trustPost, daemon.trustPost_cert.
  rewrite Hread, Hnocert, Htls. cbn.
  unfold Go.index. rewrite last_lookup in Hlast.
  replace (length (http.PeerCertificates tls) - 1)%nat
    with (pred (length (http.PeerCertificates tls))) by lia.
  rewrite Hlast. cbn.
  pose proof (saveCert_ok (http.ServerName tls) cert w Hsave) as Hfile.
  destruct (daemon.saveCert VarPath (http.ServerName tls) cert w)
    as [err w'].
  cbn in Hsave, Hfile. subst err. auto.
Qed.

End TrustProps.

Lemma trustPost_unverified_password_witness :
  daemon.verifyAdminPwd Fixture.VarPath 32 64 Fixture.kdf
    Fixture.empty_daemon "wrong" Fixture.daemon_world = false /\
  let '(resp, d', w') :=
    daemon.trustPost Fixture.VarPath Fixture.ReadToJson
      Fixture.base64_DecodeString Fixture.x509_ParseCertificate
      Fixture.empty_daemon (Fixture.trust_request "wrong")
      Fixture.daemon_world in
  resp = Returns daemon.EmptySyncResponse /\
  daemon.clientCerts d' = <["laptop" := Fixture.laptop_cert]> ∅ /\
  os.files w' !! "/var/lib/lxd/clientcerts/laptop.crt"
  = Some (pem.Encode "CERTIFICATE" (http.Raw Fixture.laptop_cert)).
Proof.
  split; [vm_compute; reflexivity |].
  apply (trustPost_unverified_password Fixture.VarPath 32%nat 64%nat
           Fixture.kdf Fixture.ReadToJson Fixture.base64_DecodeString
           Fixture.x509_ParseCertificate Fixture.empty_daemon
           (Fixture.trust_request "wrong") Fixture.daemon_world
           (daemon.mktrustPostBody "client" "" "wrong")
           (http.mkConnectionState "laptop" [Fixture.laptop_cert])
           Fixture.laptop_cert).
  - vm_compute. reflexivity.
  - vm_compute. reflexivity.
  - vm_compute. reflexivity.
  - reflexivity.
  - reflexivity.
  - reflexivity.
  - vm_compute. reflexivity.
Defined.

(** ** An operation's failure, written and read back *)

Lemma ascii_escape_cases (c : ascii) :
  is_ascii c ->
  (json.html_safe c = true /\ Ascii.eqb c "034" = false
   /\ Ascii.eqb c "\" = false /\ (N_of_ascii c <? 0x20)%N = false)
  \/ (json.html_safe c = false
      /\ exists e, json.escape_ascii c = [e] /\ Ascii.eqb e "u" = false
                   /\ json.simple_escape e = Some c)
  \/ (json.html_safe c = false
      /\ exists h1 h2,
           json.escape_ascii c = ["u"; "0"; "0"; h1; h2]%char
           /\ (forall t, json.hex4 ("0" :: "0" :: h1 :: h2 :: t)%char
                         = Some (N_of_ascii c))
           /\ json.is_surrogate (N_of_ascii c) = false
           /\ utf8.EncodeRune (N_of_ascii c) = [c]).
Proof.
  unfold is_ascii.
  destruct c as [b0 b1 b2 b3 b4 b5 b6 b7].
  destruct b7;
    [destruct b0, b1, b2, b3, b4, b5, b6; intros H; vm_compute in H;
     discriminate H|].
  intros _.
  destruct b0, b1, b2, b3, b4, b5, b6;
    first [ left; vm_compute; repeat split; reflexivity
          | right; left; split; [reflexivity|]; eexists;
            split; [reflexivity|]; split; reflexivity
          | right; right; split; [reflexivity|]; do 2 eexists;
            split; [reflexivity|]; split; [intros t; reflexivity|];
            split; reflexivity ].
Qed.

(** What the encoder writes for an ASCII text, closed by a quote, is read
    back as that text. *)
Lemma scan_encode_ascii (s rest : list ascii) :
  Forall is_ascii s ->
  json.scan_string 0 (json.encode_chars 0 s ++ "034"%char :: rest)
  = Some (s, rest).
Proof.
  induction 1 as [|c s Hc Hs IH]; [reflexivity|].
  cbn [json.encode_chars].
  assert (Hlt : (N_of_ascii c <? 128)%N = true) by (apply N.ltb_lt, Hc).
  rewrite Hlt.
  destruct (ascii_escape_cases c Hc)
    as [(Hs1 & Hq & Hb & Hlo)
       | [(Hs1 & e & He & Hu & Hx)
         | (Hs1 & h1 & h2 & He & Hh & Hsur & Henc)]];
    rewrite Hs1.
  - cbn [app json.scan_string]. rewrite Hq, Hb, Hlo, Hlt, IH. reflexivity.
  - rewrite He. cbn [app json.scan_string].
    change (Ascii.eqb "\" "034") with false.
    change (Ascii.eqb "\" "\") with true.
    cbn iota. rewrite Hu, Hx. cbn [mbind option_bind]. rewrite IH.
    reflexivity.
  - rewrite He. cbn [app json.scan_string].
    change (Ascii.eqb "\" "034") with false.
    change (Ascii.eqb "\" "\") with true.
    cbn iota. change (Ascii.eqb "u" "u") with true. cbn iota.
    rewrite Hh. cbn [mbind option_bind]. rewrite Hsur, IH.
    cbn [mbind option_bind]. rewrite Henc. reflexivity.
Qed.

Lemma map_ascii_of_byte_of_ascii (l : list ascii) :
  map ascii_of_byte (map byte_of_ascii l) = l.
Proof.
  induction l as [|c l IH]; [reflexivity|].
  cbn. now rewrite ascii_of_byte_of_ascii, IH.
Qed.

(** [json.Marshal] then [json.Unmarshal] at a string of ASCII characters
    gives the string back. *)
Lemma Unmarshal_Marshal_ascii (s old : string) :
  Forall is_ascii (list_ascii_of_string s) ->
  json.Unmarshal_string (json.Marshal_string s).1 old = (s, None).
Proof.
  intros Hs.
  assert (Hp : json.parse (json.Marshal_string s).1
               = Some (json.String s)).
  { unfold json.Marshal_string, json.parse. cbn [fst].
    rewrite map_ascii_of_byte_of_ascii.
    remember (json.encode_chars 0 (list_ascii_of_string s) ++ ["034"%char])
      as body eqn:Hbody.
    change (json.skip_space ("034"%char :: body)) with ("034"%char :: body).
    change (2 * length ("034"%char :: body))%nat
      with (S (length body + S (length body + 0)))%nat.
    cbn [json.parse_value].
    change (Ascii.eqb "034" "{") with false.
    change (Ascii.eqb "034" "[") with false.
    change (Ascii.eqb "034" "034") with true. cbn iota.
    subst body. rewrite (scan_encode_ascii _ [] Hs). cbn.
    now rewrite string_of_list_ascii_of_string. }
  unfold json.Unmarshal_string. now rewrite Hp.
Qed.

Lemma SetResult_failure_metadata (now : Time) (e : error_value)
    (o : Operation) :
  op_Result (SetResult json.Marshal_string now (Some e) o) = Failure
  /\ op_Metadata (SetResult json.Marshal_string now (Some e) o)
     = (json.Marshal_string (Error_text e)).1.
Proof. split; reflexivity. Qed.

Lemma list_ascii_of_string_app (a b : string) :
  list_ascii_of_string (a +:+ b)
  = list_ascii_of_string a ++ list_ascii_of_string b.
Proof.
  induction a as [|c a IH]; [reflexivity|].
  change (String c a +:+ b) with (String c (a +:+ b)).
  cbn. f_equal. exact IH.
Qed.

Lemma string_of_list_ascii_app (a b : list ascii) :
  string_of_list_ascii (a ++ b)
  = string_of_list_ascii a +:+ string_of_list_ascii b.
Proof.
  induction a as [|c a IH]; [reflexivity|].
  cbn [app string_of_list_ascii]. rewrite IH. reflexivity.
Qed.

Lemma doPrintf_nil (fuel : nat) : fmt.doPrintf fuel [] = [].
Proof. destruct fuel; reflexivity. Qed.

(** A format that ends in a lone percent sign, with nothing to format. *)
Lemma doPrintf_trailing_percent (p : list ascii) (fuel : nat) :
  (length p + 1 < fuel)%nat ->
  Forall (fun c => c <> "%"%char) p ->
  fmt.doPrintf fuel (p ++ ["%"%char]) = p ++ fmt.noVerbString.
Proof.
  revert fuel. induction p as [|c p IH]; intros fuel Hf Hp.
  - destruct fuel as [|fuel]; [cbn in Hf; lia |].
    cbn [app fmt.doPrintf]. change (Ascii.eqb "%" "%") with true.
    cbn iota.
    change (fmt.verb_no_operands []) with (fmt.noVerbString, @nil ascii).
    cbn iota. now rewrite doPrintf_nil, app_nil_r.
  - destruct fuel as [|fuel]; [cbn in Hf; lia |].
    apply Forall_cons in Hp as [Hc Hp]. cbn [app fmt.doPrintf].
    destruct (Ascii.eqb c "%") eqn:E.
    + apply Ascii.eqb_eq in E. contradiction.
    + rewrite IH; [reflexivity | cbn in Hf; lia | exact Hp].
Qed.

(** X1.  An operation failed with [SetResult(err)] gives the error back
    from [GetError]: for every error whose text is made of ASCII characters
    and has no percent sign, reading the failure of the operation that
    [SetResult] wrote returns an error with that very text, whatever the
    operation held before. *)
Theorem GetError_after_SetResult (now : Time) (e : error_value)
    (o : Operation) :
  plain_ascii (Error_text e) ->
  GetError (SetResult json.Marshal_string now (Some e) o) = Some e.
Proof.
  intros [Ha Hp]. unfold GetError.
  destruct (SetResult_failure_metadata now e o) as [-> ->].
  rewrite String.eqb_refl, (Unmarshal_Marshal_ascii _ _ Ha).
  unfold fmt.Errorf, fmt.Sprintf. rewrite doPrintf_plain.
  - rewrite string_of_list_ascii_of_string. now destruct e.
  - rewrite length_list_ascii_of_string. lia.
  - exact Hp.
Qed.

Lemma GetError_after_SetResult_witness :
  GetError (SetResult json.Marshal_string 7
              (errors_New "container <web1> not found: no such file")
              Operation_zero)
  = errors_New "container <web1> not found: no such file".
Proof.
  apply (GetError_after_SetResult 7
           (errorString "container <web1> not found: no such file")
           Operation_zero).
  split; repeat (constructor; [first [vm_compute; reflexivity
                                     | discriminate] |]);
    constructor.
Defined.

(** X2.  A failure text that ends in a percent sign does not come back as
    it was recorded: [GetError] hands the decoded text to [fmt.Errorf] as
    a format, so for every ASCII text [p] without a percent sign, the
    operation failed with the text [p%] reports [p%!(NOVERB)]. *)
Theorem GetError_trailing_percent (now : Time) (p : string) (o : Operation) :
  plain_ascii p ->
  GetError (SetResult json.Marshal_string now
              (Some (errorString (p +:+ "%"))) o)
  = Some (errorString (p +:+ "%!(NOVERB)")).
Proof.
  intros [Ha Hp]. unfold GetError.
  destruct (SetResult_failure_metadata now (errorString (p +:+ "%")) o)
    as [-> ->].
  cbn [Error_text].
  rewrite String.eqb_refl, Unmarshal_Marshal_ascii.
  - unfold fmt.Errorf, fmt.Sprintf.
    rewrite list_ascii_of_string_app. cbn [list_ascii_of_string].
    rewrite doPrintf_trailing_percent.
    + rewrite string_of_list_ascii_app, string_of_list_ascii_of_string.
      reflexivity.
    + rewrite <- (length_list_ascii_of_string (p +:+ "%")),
        list_ascii_of_string_app, length_app.
      cbn [list_ascii_of_string length]. lia.
    + exact Hp.
  - rewrite list_ascii_of_string_app. apply Forall_app. split; [exact Ha |].
    constructor; [vm_compute; reflexivity | constructor].
Qed.

Lemma GetError_trailing_percent_witness :
  GetError (SetResult json.Marshal_string 7
              (errors_New "disk usage at 100%") Operation_zero)
  = errors_New "disk usage at 100%!(NOVERB)".
Proof.
  apply (GetError_trailing_percent 7 "disk usage at 100" Operation_zero).
  split; repeat (constructor; [first [vm_compute; reflexivity
                                     | discriminate] |]);
    constructor.
Defined.

(** An operation has an error exactly when its result is [failure]. *)
Lemma GetError_None (o : Operation) :
  GetError o = None <-> op_Result o <> Failure.
Proof.
  unfold GetError. destruct (String.eqb (op_Result o) Failure) eqn:E.
  - apply String.eqb_eq in E. split; [|contradiction].
    destruct (json.Unmarshal_string (op_Metadata o) "") as [s [e|]];
      discriminate.
  - apply String.eqb_neq in E. split; [intros _; exact E | reflexivity].
Qed.

(** ** A list of names, written and read back *)

Lemma parse_value_quoted (fuel : nat) (d : N) (n : string)
    (rest : list ascii) :
  ascii_text n ->
  json.parse_value (S fuel) d (quoted n ++ rest)
  = Some (json.String n, rest).
Proof.
  intros Hn. unfold quoted. cbn [app json.parse_value].
  change (Ascii.eqb "034" "{") with false.
  change (Ascii.eqb "034" "[") with false.
  change (Ascii.eqb "034" "034") with true. cbn iota.
  rewrite <- app_assoc. cbn [app].
  rewrite (scan_encode_ascii _ rest Hn). cbn [mbind option_bind].
  now rewrite string_of_list_ascii_of_string.
Qed.

Lemma parse_elements_S (fuel : nat) (d : N) (s : list ascii) :
  json.parse_elements (S fuel) d s
  = '(v, r1) ← json.parse_value fuel d s;
    match chars.expect "," (json.skip_space r1) with
    | Some r2 =>
        '(vs, rest) ← json.parse_elements fuel d (json.skip_space r2);
        Some (v :: vs, rest)
    | None =>
        r2 ← chars.expect "]" (json.skip_space r1);
        Some ([v], r2)
    end.
Proof. reflexivity. Qed.

Lemma skip_space_quoted (n : string) (t : list ascii) :
  json.skip_space (quoted n ++ t) = quoted n ++ t.
Proof. reflexivity. Qed.

Lemma parse_elements_names (names : list string) :
  names <> [] ->
  Forall ascii_text names ->
  forall (fuel : nat) (d : N) (rest : list ascii),
    (length names < fuel)%nat ->
    json.parse_elements fuel d (elements_text names ++ "]"%char :: rest)
    = Some (json.String <$> names, rest).
Proof.
  induction names as [|n ns IH]; [congruence |].
  intros _ Hall fuel d rest Hf.
  apply Forall_cons in Hall as [Hn Hns].
  destruct fuel as [|fuel]; [cbn in Hf; lia |].
  destruct fuel as [|fuel]; [cbn in Hf; lia |].
  rewrite parse_elements_S. cbn [elements_text].
  rewrite <- app_assoc, (parse_value_quoted fuel d n _ Hn).
  cbn [mbind option_bind].
  destruct ns as [|n' ns'].
  - reflexivity.
  - cbn [app].
    change (json.skip_space (","%char :: ?t)) with (","%char :: t).
    cbn [chars.expect]. change (Ascii.eqb "," ",") with true. cbn iota.
    change (elements_text (n' :: ns'))
      with (quoted n' ++ match ns' with
                         | [] => []
                         | _ => ","%char :: elements_text ns'
                         end) at 1.
    rewrite <- app_assoc, skip_space_quoted, app_assoc.
    change (quoted n' ++ match ns' with
                         | [] => []
                         | _ => ","%char :: elements_text ns'
                         end)
      with (elements_text (n' :: ns')).
    rewrite IH; [reflexivity | congruence | exact Hns | cbn in Hf |- *; lia].
Qed.

Lemma store_strings_names (names : list string) :
  json.store_strings (json.String <$> names) = (names, None).
Proof.
  induction names as [|n ns IH]; [reflexivity |].
  cbn [fmap list_fmap json.store_strings]. 
  change (list_fmap _ _ json.String ns) with (json.String <$> ns).
  now rewrite IH.
Qed.

Lemma elements_text_length (names : list string) :
  (2 * length names <= length (elements_text names))%nat.
Proof.
  induction names as [|n ns IH]; [cbn; lia |].
  cbn [elements_text]. unfold quoted. rewrite length_app. cbn [length].
  rewrite length_app. cbn [length]. destruct ns; cbn [length] in *; lia.
Qed.

(** The JSON array of some names, decoded into a slice of strings, gives
    the names. *)
Lemma Unmarshal_strings_names (names l : list string) :
  Forall ascii_text names ->
  json.Unmarshal_strings (names_json names) l = (names, None).
Proof.
  intros Hall.
  assert (Hp : json.parse (names_json names)
               = Some (json.Array (json.String <$> names))).
  { unfold json.parse, names_json. rewrite map_ascii_of_byte_of_ascii.
    remember (elements_text names ++ ["]"%char]) as body eqn:Hbody.
    change (json.skip_space ("["%char :: body)) with ("["%char :: body).
    change (2 * length ("["%char :: body))%nat
      with (S (length body + S (length body + 0)))%nat.
    cbn [json.parse_value].
    change (Ascii.eqb "[" "{") with false.
    change (Ascii.eqb "[" "[") with true. cbn iota.
    change (json.maxNestingDepth <? 0 + 1)%N with false. cbn iota.
    destruct names as [|n ns].
    - subst body. reflexivity.
    - assert (Hs : json.skip_space body = body).
      { subst body. cbn [elements_text]. rewrite <- app_assoc.
        apply skip_space_quoted. }
      rewrite Hs.
      assert (He : chars.expect "]" body = None).
      { subst body. reflexivity. }
      rewrite He. subst body.
      rewrite parse_elements_names; [reflexivity | congruence | exact Hall |].
      pose proof (elements_text_length (n :: ns)) as Hl.
      rewrite length_app. cbn [length] in *. lia. }
  unfold json.Unmarshal_strings. rewrite Hp. apply store_strings_names.
Qed.

(** ** The calls on a daemon *)

Section CallsProps.

Variable APIVersion : string.
Variable path_Join : list string -> string.
Variable url_Parse : string -> error.
Variable url_Values_Encode : gmap string (list string) -> string.
Variable json_Encode : option Jmap -> bytes * error.
Variable sha256_Sum256 : bytes -> bytes.
Variable time_UnmarshalJSON : list ascii -> Time -> Time * error.
Variable fmt_Sprintf_04o : Z -> string.
Variable strconv_FormatUint : Z -> string.
Variable Container : Type.
Variable Container_zero : Container.
Variable json_Unmarshal_Container : bytes -> Container -> Container * error.

Local Abbreviation get' :=
  (get APIVersion path_Join url_Parse json_Unmarshal_Response sha256_Sum256).
Local Abbreviation post' :=
  (post APIVersion path_Join url_Parse (option Jmap) json_Encode
     json_Unmarshal_Response).
Local Abbreviation put' :=
  (put APIVersion path_Join url_Parse (option Jmap) json_Encode
     json_Unmarshal_Response).
Local Abbreviation delete' :=
  (delete_ APIVersion path_Join url_Parse (option Jmap) json_Encode
     json_Unmarshal_Response).
Local Abbreviation Create' :=
  (Create APIVersion path_Join url_Parse json_Encode).
Local Abbreviation Delete' :=
  (Delete APIVersion path_Join url_Parse json_Encode).
Local Abbreviation Snapshot' :=
  (Snapshot APIVersion path_Join url_Parse json_Encode).
Local Abbreviation Action' :=
  (Action APIVersion path_Join url_Parse json_Encode).
Local Abbreviation SetRemotePwd' :=
  (SetRemotePwd APIVersion path_Join url_Parse json_Encode).
Local Abbreviation AddCertToServer' :=
  (AddCertToServer APIVersion path_Join url_Parse json_Encode).
Local Abbreviation PushFile' :=
  (PushFile APIVersion path_Join url_Parse url_Values_Encode
     fmt_Sprintf_04o strconv_FormatUint).
Local Abbreviation ListContainers' :=
  (ListContainers APIVersion path_Join url_Parse sha256_Sum256).
Local Abbreviation ContainerStatus' :=
  (ContainerStatus APIVersion path_Join url_Parse sha256_Sum256 Container
     Container_zero json_Unmarshal_Container).
Local Abbreviation WaitFor' :=
  (WaitFor path_Join url_Parse time_UnmarshalJSON).
Local Abbreviation WaitForSuccess' :=
  (WaitForSuccess path_Join url_Parse time_UnmarshalJSON).

(** What a helper decodes is what the daemon answered. *)
Lemma Get_answer (c : Client) (resp : Response) (u : string)
    (raw : http.Response) :
  always_answers c resp ->
  http.Get url_Parse (c_http c) u = inr raw ->
  ParseResponse json_Unmarshal_Response raw = inr resp.
Proof.
  intros Ha. unfold http.Get, http.NewRequest, http.Do.
  destruct (url_Parse u); [discriminate |].
  intros H. destruct (Ha (http.mkRequest "GET" u ∅
                            (http.mkReadCloser [] None) None))
    as (raw' & Hr & Hp).
  rewrite Hr in H. now injection H as <-.
Qed.

Lemma Do_answer (c : Client) (resp : Response) (req : http.Request)
    (raw : http.Response) :
  always_answers c resp ->
  http.Do (c_http c) req = inr raw ->
  ParseResponse json_Unmarshal_Response raw = inr resp.
Proof.
  intros Ha H. unfold http.Do in H.
  destruct (Ha req) as (raw' & Hr & Hp). rewrite Hr in H.
  now injection H as <-.
Qed.

Lemma Post_answer (c : Client) (resp : Response) (u ct : string)
    (body : bytes) (raw : http.Response) :
  always_answers c resp ->
  http.Post url_Parse (c_http c) u ct body = inr raw ->
  ParseResponse json_Unmarshal_Response raw = inr resp.
Proof.
  intros Ha. unfold http.Post, http.NewRequest.
  destruct (url_Parse u); [discriminate |]. apply Do_answer, Ha.
Qed.

Lemma post_answer (c : Client) (resp r : Response) (base : string)
    (args : option Jmap) :
  always_answers c resp -> post' c base args = inr r -> r = resp.
Proof.
  intros Ha. unfold post.
  destruct (json_Encode args) as [buf [e|]]; [discriminate |].
  destruct (http.Post _ _ _ _ _) as [e|raw] eqn:Hp; [discriminate |].
  rewrite (Post_answer _ _ _ _ _ _ Ha Hp). now intros [= <-].
Qed.

Lemma put_answer (c : Client) (resp r : Response) (base : string)
    (args : option Jmap) :
  always_answers c resp -> put' c base args = inr r -> r = resp.
Proof.
  intros Ha. unfold put.
  destruct (json_Encode args) as [buf [e|]]; [discriminate |].
  destruct (http.NewRequest _ _ _ _) as [e|req]; [discriminate |].
  destruct (http.Do _ _) as [e|raw] eqn:Hp; [discriminate |].
  rewrite (Do_answer _ _ _ _ Ha Hp). now intros [= <-].
Qed.

Lemma delete_answer (c : Client) (resp r : Response) (base : string)
    (args : option Jmap) :
  always_answers c resp -> delete' c base args = inr r -> r = resp.
Proof.
  intros Ha. unfold delete_.
  destruct (json_Encode args) as [buf [e|]]; [discriminate |].
  destruct (http.NewRequest _ _ _ _) as [e|req]; [discriminate |].
  destruct (http.Do _ _) as [e|raw] eqn:Hp; [discriminate |].
  rewrite (Do_answer _ _ _ _ Ha Hp). now intros [= <-].
Qed.

(** [get] changes nothing of the client but what it records of the
    connection, and hands back what [ParseResponse] decodes. *)
Lemma get_inv (c c' : Client) (base : string)
    (r : error_value + Response) :
  get' c base = Returns (c', r) ->
  c_http c' = c_http c /\ c_name c' = c_name c
  /\ c_baseURL c' = c_baseURL c /\ c_scert c' = c_scert c
  /\ (c_scertDigestSet c = true -> c' = c)
  /\ (forall resp, r = inr resp ->
        exists raw,
          http.Get url_Parse (c_http c)
            (url path_Join c [APIVersion; base]) = inr raw
          /\ ParseResponse json_Unmarshal_Response raw = inr resp).
Proof.
  unfold get.
  destruct (http.Get _ _ _) as [e|raw] eqn:Hg.
  { intros [= <- <-]. repeat split; try reflexivity. discriminate. }
  destruct (match c_scert c with Some _ => _ | None => _ end)
    as [changed|msg]; [|discriminate].
  cbn [mbind outcome_bind]. destruct changed.
  { intros [= <- <-]. repeat split; try reflexivity. discriminate. }
  assert (Hdone : forall c0 : Client,
            c_http c0 = c_http c -> c_name c0 = c_name c ->
            c_baseURL c0 = c_baseURL c -> c_scert c0 = c_scert c ->
            (c_scertDigestSet c = true -> c0 = c) ->
            Returns (c0, ParseResponse json_Unmarshal_Response raw)
            = Returns (c', r) ->
            c_http c' = c_http c /\ c_name c' = c_name c
            /\ c_baseURL c' = c_baseURL c /\ c_scert c' = c_scert c
            /\ (c_scertDigestSet c = true -> c' = c)
            /\ (forall resp, r = inr resp ->
                  exists raw0,
                    (inr raw : error_value + http.Response) = inr raw0
                    /\ ParseResponse json_Unmarshal_Response raw0
                       = inr resp)).
  { intros c0 H1 H2 H3 H4 H5 [= <- <-]. repeat split; try assumption.
    intros resp Hr. eauto. }
  destruct (c_scertDigestSet c) eqn:Hset.
  - cbn [mbind outcome_bind]. apply Hdone; reflexivity.
  - destruct (http.TLS raw) as [tls|].
    + destruct (Go.index _ 0) as [peer|msg]; [|discriminate].
      cbn [mbind outcome_bind]. apply Hdone; try reflexivity; discriminate.
    + cbn [mbind outcome_bind]. apply Hdone; try reflexivity; discriminate.
Qed.

(** X3.  [Create], [Delete] and [Snapshot] hand back an envelope only when
    it announces an operation: whatever the daemon answers, the envelope
    any of the three returns has the kind [async]; an answer of the kind
    [sync], or of no kind, becomes an error. *)
Theorem Create_Delete_Snapshot_async (c : Client)
    (name container snapshotName : string) (stateful : bool)
    (r : Response) :
  Create' c name = inr r
  \/ Delete' c name = inr r
  \/ Snapshot' c container snapshotName stateful = inr r ->
  resp_Type r = Async.
Proof.
  unfold Create, Delete, Snapshot.
  intros [H | [H | H]];
    match type of H with
    | match ?call with _ => _ end = _ =>
        destruct call as [e|resp]; [discriminate H |]
    end;
    destruct (ParseError resp); try discriminate H;
    destruct (String.eqb (resp_Type resp) Async) eqn:E;
    try discriminate H; cbn in H; injection H as <-;
    now apply String.eqb_eq in E.
Qed.


Lemma ParseError_Error (resp : Response) :
  resp_Type resp = Error -> exists e, ParseError resp = Some e.
Proof. unfold ParseError. intros ->. rewrite String.eqb_refl. eauto. Qed.

(** X4.  An Error envelope never passes for a result.  When the daemon
    answers every request with an envelope of the kind [error], each of
    [Create], [Delete], [Snapshot], [Action] and [SetRemotePwd] returns an
    error and no envelope, [AddCertToServer] and [PushFile] return a
    non-nil error, and [ListContainers], [ContainerStatus] and [WaitFor]
    return no list, no container and no operation. *)
Theorem Error_envelope_is_no_result (c : Client) (resp : Response) :
  always_answers c resp ->
  resp_Type resp = Error ->
  (forall name, exists e, Create' c name = inl e)
  /\ (forall name, exists e, Delete' c name = inl e)
  /\ (forall ct sn st, exists e, Snapshot' c ct sn st = inl e)
  /\ (forall name a t f, exists e, Action' c name a t f = inl e)
  /\ (forall pwd, exists e, SetRemotePwd' c pwd = inl e)
  /\ (forall pwd, AddCertToServer' c pwd <> None)
  /\ (forall ct p gid uid mode buf,
        PushFile' c ct p gid uid mode buf <> None)
  /\ (forall c' l, ListContainers' c <> Returns (c', inr l))
  /\ (forall name c' ct, ContainerStatus' c name <> Returns (c', inr ct))
  /\ (forall u op, WaitFor' c u <> Returns (inr op)).
Proof.
  intros Ha Hk. destruct (ParseError_Error resp Hk) as [e He].
  assert (Hpost : forall base args,
            (exists e', post' c base args = inl e')
            \/ post' c base args = inr resp).
  { intros base args. destruct (post' c base args) as [e'|r] eqn:Hp; [eauto |].
    right. f_equal. eapply post_answer; eauto. }
  assert (Hput : forall base args,
            (exists e', put' c base args = inl e')
            \/ put' c base args = inr resp).
  { intros base args. destruct (put' c base args) as [e'|r] eqn:Hp; [eauto |].
    right. f_equal. eapply put_answer; eauto. }
  assert (Hdel : forall base args,
            (exists e', delete' c base args = inl e')
            \/ delete' c base args = inr resp).
  { intros base args.
    destruct (delete' c base args) as [e'|r] eqn:Hp; [eauto |].
    right. f_equal. eapply delete_answer; eauto. }
  assert (Hget : forall base c' r,
            get' c base = Returns (c', inr r) -> r = resp).
  { intros base c' r Hg.
    destruct (get_inv _ _ _ _ Hg) as (_ & _ & _ & _ & _ & Hr).
    destruct (Hr r eq_refl) as (raw & Hraw & Hp).
    rewrite (Get_answer _ _ _ _ Ha Hraw) in Hp. now injection Hp. }
  split_and!.
  - intros name. unfold Create.
    match goal with |- context [post' c ?b ?a] =>
      destruct (Hpost b a) as [[e' ->] | ->] end; [eauto |].
    rewrite He. eauto.
  - intros name. unfold Delete.
    match goal with |- context [delete' c ?b ?a] =>
      destruct (Hdel b a) as [[e' ->] | ->] end; [eauto |].
    rewrite He. eauto.
  - intros ct sn st. unfold Snapshot.
    match goal with |- context [post' c ?b ?a] =>
      destruct (Hpost b a) as [[e' ->] | ->] end; [eauto |].
    rewrite He. eauto.
  - intros name a t f. unfold Action.
    match goal with |- context [put' c ?b ?a] =>
      destruct (Hput b a) as [[e' ->] | ->] end; [eauto |].
    rewrite He. eauto.
  - intros pwd. unfold SetRemotePwd.
    match goal with |- context [put' c ?b ?a] =>
      destruct (Hput b a) as [[e' ->] | ->] end; [eauto |].
    rewrite He. eauto.
  - intros pwd. unfold AddCertToServer.
    match goal with |- context [post' c ?b ?a] =>
      destruct (Hpost b a) as [[e' ->] | ->] end; [discriminate |].
    rewrite He. discriminate.
  - intros ct p gid uid mode buf. unfold PushFile.
    destruct (http.NewRequest _ _ _ _) as [e'|req]; [discriminate |].
    destruct (http.Do _ _) as [e'|raw] eqn:Hd; [discriminate |].
    rewrite (Do_answer _ _ _ _ Ha Hd), He. discriminate.
  - intros c' l. unfold ListContainers.
    destruct (get' c "list") as [[c1 [e'|r]]|msg] eqn:Hg;
      cbn [mbind outcome_bind]; [discriminate | | discriminate].
    rewrite (Hget _ _ _ Hg), He. discriminate.
  - intros name c' ct. unfold ContainerStatus.
    destruct (get' c _) as [[c1 [e'|r]]|msg] eqn:Hg;
      cbn [mbind outcome_bind]; [discriminate | | discriminate].
    rewrite (Hget _ _ _ Hg), He. discriminate.
  - intros u op. unfold WaitFor.
    destruct (slice_from_1 u) as [tail|msg]; [|discriminate].
    cbn [mbind outcome_bind].
    destruct (http.Post _ _ _ _ _) as [e'|raw] eqn:Hp; [discriminate |].
    rewrite (Post_answer _ _ _ _ _ _ Ha Hp), He. discriminate.
Qed.


(** X5.  [WaitForSuccess] reports success for everything that is not a
    failure: when the wait returns an operation, the result is nil exactly
    when the operation's result is not [failure], so also for an operation
    that is still running and has no result yet. *)
Theorem WaitForSuccess_nil_iff (c : Client) (waitURL : string)
    (op : Operation) :
  WaitFor' c waitURL = Returns (inr op) ->
  WaitForSuccess' c waitURL = Returns None <-> op_Result op <> Failure.
Proof.
  intros Hw. unfold WaitForSuccess. rewrite Hw. cbn [mbind outcome_bind].
  destruct (String.eqb (op_Result op) Success) eqn:E.
  - apply String.eqb_eq in E. rewrite E. split; [discriminate | reflexivity].
  - rewrite <- GetError_None. split; [now intros [= ->] | now intros ->].
Qed.

(** X6.  [Action] does not ask for an operation.  When the daemon
    answers a state change with an envelope that is not an error and names
    no operation (a Sync answer), [Action] returns that envelope; waiting
    on its operation then panics, since [WaitFor] cuts the first byte off
    the empty locator before it makes any request.  The encoder and the
    URL parser are taken not to fail. *)
Theorem Action_then_wait_on_sync (c : Client) (resp : Response)
    (name action : string) (timeout : Z) (force : bool) :
  always_answers c resp ->
  resp_Type resp <> Error ->
  resp_Operation resp = "" ->
  (forall args, (json_Encode args).2 = None) ->
  (forall u, url_Parse u = None) ->
  Action' c name action timeout force = inr resp
  /\ WaitForSuccess' c (resp_Operation resp)
     = Panics "runtime error: slice bounds out of range [1:0]".
Proof.
  intros Ha Hk Hop Henc Hurl. split; [|now rewrite Hop].
  unfold Action, put.
  match goal with |- context [json_Encode ?args] =>
    pose proof (Henc args) as He; destruct (json_Encode args) as [buf e]
  end.
  cbn in He. subst e. unfold http.NewRequest. rewrite Hurl.
  unfold http.Do.
  match goal with |- context [c_http c ?req] =>
    destruct (Ha req) as (raw & -> & ->)
  end.
  unfold ParseError. apply String.eqb_neq in Hk. now rewrite Hk.
Qed.

(** X7.  [get] records the certificate of the connection once.  When a
    call returns, the pinned certificate, the name, the address and the
    transport of the client are as before; and a client that has a
    recorded fingerprint is returned unchanged, so that what
    [UserAuthServerCert] shows and stores is the certificate of the first
    answer over TLS, whatever later answers present. *)
Theorem get_records_once (c c' : Client) (base : string)
    (r : error_value + Response) :
  get' c base = Returns (c', r) ->
  c_scert c' = c_scert c /\ c_name c' = c_name c
  /\ c_baseURL c' = c_baseURL c /\ c_http c' = c_http c
  /\ (c_scertDigestSet c = true -> c' = c).
Proof.
  intros Hg. destruct (get_inv _ _ _ _ Hg) as (H1 & H2 & H3 & H4 & H5 & _).
  auto.
Qed.

(** X8.  Over a connection without TLS [get] checks nothing: the answer is
    decoded and returned and the client is left as it is, also when the
    client has a pinned certificate. *)
Theorem get_without_TLS (c : Client) (base : string)
    (raw : http.Response) :
  http.Get url_Parse (c_http c) (url path_Join c [APIVersion; base])
    = inr raw ->
  http.TLS raw = None ->
  get' c base
  = Returns (c, ParseResponse json_Unmarshal_Response raw).
Proof.
  intros Hg Ht. unfold get. rewrite Hg, Ht.
  destruct (c_scert c), (c_scertDigestSet c); reflexivity.
Qed.

(** X9.  With a pinned certificate, an answer over TLS is accepted
    exactly when the first certificate of the peer has the bytes of the
    pinned one: [get] then decodes the answer; otherwise it fails with
    [Server certificate has changed], the body unread and the client
    unchanged. *)
Theorem get_pinned (c : Client) (base : string)
    (pinned peer : http.Certificate) (tls : http.ConnectionState)
    (raw : http.Response) :
  c_scert c = Some pinned ->
  http.Get url_Parse (c_http c) (url path_Join c [APIVersion; base])
    = inr raw ->
  http.TLS raw = Some tls ->
  http.PeerCertificates tls !! 0%nat = Some peer ->
  (http.Raw peer = http.Raw pinned
   /\ exists c', get' c base
                 = Returns (c', ParseResponse json_Unmarshal_Response raw))
  \/ (http.Raw peer <> http.Raw pinned
      /\ get' c base
         = Returns (c, inl (errorString "Server certificate has changed"))).
Proof.
  intros Hpin Hg Ht Hpeer. unfold get. rewrite Hg, Hpin, Ht.
  unfold Go.index. rewrite Hpeer. cbn [mbind outcome_bind].
  unfold bytes_Equal. case_bool_decide as Heq; cbn [negb].
  - left. split; [exact Heq |].
    destruct (c_scertDigestSet c); cbn [mbind outcome_bind]; eauto.
  - right. split; [exact Heq | reflexivity].
Qed.

(** X10.  [ListContainers] returns the names the daemon lists: when the
    answer is a Sync envelope whose metadata is the JSON array of some
    names (ASCII texts, written as [json.Marshal] writes strings), the
    result is exactly these names, in their order, with no error; the
    empty array gives the empty list. *)
Theorem ListContainers_names (c c' : Client) (resp : Response)
    (names : list string) :
  get' c "list" = Returns (c', inr resp) ->
  resp_Type resp = Sync ->
  resp_Metadata resp = names_json names ->
  Forall ascii_text names ->
  ListContainers' c = Returns (c', inr names).
Proof.
  intros Hg Hk Hm Hall. unfold ListContainers. rewrite Hg.
  cbn [mbind outcome_bind]. unfold ParseError. rewrite Hk.
  change (String.eqb Sync Error) with false.
  change (String.eqb Sync Sync) with true. cbn [negb].
  rewrite Hm, (Unmarshal_strings_names _ _ Hall). reflexivity.
Qed.

End CallsProps.

Lemma Create_Delete_Snapshot_async_witness :
  Create Fixture.APIVersion Fixture.path_Join Fixture.url_Parse
    Fixture.json_Encode_body (Fixture.local_client Fixture.async_body) "web1"
  = inr Fixture.async_envelope
  /\ resp_Type Fixture.async_envelope = Async.
Proof.
  assert (H : Create Fixture.APIVersion Fixture.path_Join Fixture.url_Parse
                Fixture.json_Encode_body
                (Fixture.local_client Fixture.async_body) "web1"
              = inr Fixture.async_envelope)
    by (vm_compute; reflexivity).
  split; [exact H |].
  apply (Create_Delete_Snapshot_async Fixture.APIVersion Fixture.path_Join
           Fixture.url_Parse Fixture.json_Encode_body
           (Fixture.local_client Fixture.async_body) "web1" "web1" "snap0"
           false Fixture.async_envelope).
  left. exact H.
Defined.

Lemma Error_envelope_is_no_result_witness :
  always_answers (Fixture.local_client Fixture.error_body)
    Fixture.error_envelope
  /\ exists e,
       Create Fixture.APIVersion Fixture.path_Join Fixture.url_Parse
         Fixture.json_Encode_body (Fixture.local_client Fixture.error_body)
         "web1" = inl e.
Proof.
  assert (Ha : always_answers (Fixture.local_client Fixture.error_body)
                 Fixture.error_envelope).
  { intros req. exists (Fixture.answer 200 Fixture.error_body None).
    split; [reflexivity | vm_compute; reflexivity]. }
  split; [exact Ha |].
  destruct (Error_envelope_is_no_result Fixture.APIVersion Fixture.path_Join
              Fixture.url_Parse Fixture.url_Values_Encode
              Fixture.json_Encode_body (fun der => der)
              Fixture.time_UnmarshalJSON (fun _ => "0644") (fun _ => "0")
              unit tt (fun _ ct => (ct, None))
              (Fixture.local_client Fixture.error_body)
              Fixture.error_envelope Ha eq_refl) as (Hcreate & _).
  exact (Hcreate "web1").
Defined.

Lemma WaitForSuccess_nil_iff_witness :
  WaitFor Fixture.path_Join Fixture.url_Parse Fixture.time_UnmarshalJSON
    (Fixture.local_client Fixture.running_body) "/1.0/operations/7"
  = Returns (inr Fixture.running_operation)
  /\ (WaitForSuccess Fixture.path_Join Fixture.url_Parse
        Fixture.time_UnmarshalJSON
        (Fixture.local_client Fixture.running_body) "/1.0/operations/7"
      = Returns None
      <-> op_Result Fixture.running_operation <> Failure).
Proof.
  assert (H : WaitFor Fixture.path_Join Fixture.url_Parse
                Fixture.time_UnmarshalJSON
                (Fixture.local_client Fixture.running_body)
                "/1.0/operations/7"
              = Returns (inr Fixture.running_operation))
    by (vm_compute; reflexivity).
  split; [exact H |].
  apply (WaitForSuccess_nil_iff Fixture.path_Join Fixture.url_Parse
           Fixture.time_UnmarshalJSON
           (Fixture.local_client Fixture.running_body)
           "/1.0/operations/7" Fixture.running_operation H).
Defined.

Lemma Action_then_wait_on_sync_witness :
  Action Fixture.APIVersion Fixture.path_Join Fixture.url_Parse
    Fixture.json_Encode_body (Fixture.local_client Fixture.sync_body)
    "web1" "stop" 30 true
  = inr Fixture.sync_envelope
  /\ WaitForSuccess Fixture.path_Join Fixture.url_Parse
       Fixture.time_UnmarshalJSON (Fixture.local_client Fixture.sync_body)
       (resp_Operation Fixture.sync_envelope)
     = Panics "runtime error: slice bounds out of range [1:0]".
Proof.
  apply (Action_then_wait_on_sync Fixture.APIVersion Fixture.path_Join
           Fixture.url_Parse Fixture.json_Encode_body
           Fixture.time_UnmarshalJSON
           (Fixture.local_client Fixture.sync_body) Fixture.sync_envelope
           "web1" "stop" 30 true).
  - intros req. exists (Fixture.answer 200 Fixture.sync_body None).
    split; [reflexivity | vm_compute; reflexivity].
  - discriminate.
  - reflexivity.
  - intros args. reflexivity.
  - intros u. reflexivity.
Defined.

Lemma get_records_once_witness :
  c_scertWire
    (Fixture.first_contact) = Some Fixture.other_cert
  /\ get Fixture.APIVersion Fixture.path_Join Fixture.url_Parse
       json_Unmarshal_Response (fun der => der) Fixture.first_contact "finger"
     = Returns (Fixture.first_contact, inr Fixture.sync_envelope).
Proof.
  split; [reflexivity |].
  assert (H : exists c' r,
            get Fixture.APIVersion Fixture.path_Join Fixture.url_Parse
              json_Unmarshal_Response (fun der => der)
              Fixture.first_contact "finger" = Returns (c', r)
            /\ r = inr Fixture.sync_envelope).
  { eexists _, _. split; [reflexivity | vm_compute; reflexivity]. }
  destruct H as (c' & r & Hg & ->).
  destruct (get_records_once Fixture.APIVersion Fixture.path_Join
              Fixture.url_Parse (fun der => der) Fixture.first_contact c'
              "finger" _ Hg) as (_ & _ & _ & _ & Hc).
  rewrite Hg, (Hc eq_refl). reflexivity.
Defined.

Lemma get_without_TLS_witness :
  c_scert (set_scert Fixture.pinned_cert
             (Fixture.local_client Fixture.sync_body))
  = Some Fixture.pinned_cert
  /\ get Fixture.APIVersion Fixture.path_Join Fixture.url_Parse
       json_Unmarshal_Response (fun der => der)
       (set_scert Fixture.pinned_cert
          (Fixture.local_client Fixture.sync_body)) "finger"
     = Returns (set_scert Fixture.pinned_cert
                  (Fixture.local_client Fixture.sync_body),
                ParseResponse json_Unmarshal_Response
                  (Fixture.answer 200 Fixture.sync_body None)).
Proof.
  split; [reflexivity |].
  apply (get_without_TLS Fixture.APIVersion Fixture.path_Join
           Fixture.url_Parse (fun der => der)
           (set_scert Fixture.pinned_cert
              (Fixture.local_client Fixture.sync_body)) "finger"
           (Fixture.answer 200 Fixture.sync_body None)).
  - reflexivity.
  - reflexivity.
Defined.

Lemma get_pinned_witness :
  http.Raw Fixture.other_cert <> http.Raw Fixture.pinned_cert
  /\ get Fixture.APIVersion Fixture.path_Join Fixture.url_Parse
       json_Unmarshal_Response (fun der => der) Fixture.pinned_client "list"
     = Returns (Fixture.pinned_client,
                inl (errorString "Server certificate has changed")).
Proof.
  destruct (get_pinned Fixture.APIVersion Fixture.path_Join
              Fixture.url_Parse (fun der => der) Fixture.pinned_client
              "list" Fixture.pinned_cert Fixture.other_cert
              Fixture.other_tls
              (Fixture.answer 200 Fixture.sync_body (Some Fixture.other_tls))
              eq_refl eq_refl eq_refl eq_refl)
    as [[Heq _] | [Hne Hg]].
  - vm_compute in Heq. discriminate Heq.
  - split; [exact Hne | exact Hg].
Defined.

Lemma ListContainers_names_witness :
  ListContainers Fixture.APIVersion Fixture.path_Join Fixture.url_Parse
    (fun der => der) (Fixture.local_client Fixture.list_body)
  = Returns (Fixture.local_client Fixture.list_body, inr ["web1"; "db2"]).
Proof.
  apply (ListContainers_names Fixture.APIVersion Fixture.path_Join
           Fixture.url_Parse (fun der => der)
           (Fixture.local_client Fixture.list_body)
           (Fixture.local_client Fixture.list_body)
           (mkResponse Sync "" "" 0 "" (names_json ["web1"; "db2"]))
           ["web1"; "db2"]).
  - vm_compute. reflexivity.
  - reflexivity.
  - reflexivity.
  - repeat (constructor;
            [repeat (constructor; [vm_compute; reflexivity |]);
             constructor |]).
    constructor.
Defined.

(** ** The certificate store of the client *)

Lemma String_length_append (a b : string) :
  String.length (a +:+ b) = (String.length a + String.length b)%nat.
Proof.
  induction a as [|c a IH]; [reflexivity |].
  change (String c a +:+ b) with (String c (a +:+ b)).
  cbn [String.length]. now rewrite IH.
Qed.

Lemma ancestors_from_length (rest seen p : string) :
  p ∈ os.ancestors_from seen rest ->
  (String.length seen <= String.length p
   < String.length seen + String.length rest)%nat.
Proof.
  revert seen. induction rest as [|c rest IH]; intros seen.
  - cbn. intros H. now apply elem_of_nil in H.
  - cbn [os.ancestors_from String.length]. rewrite elem_of_app.
    intros [H | H].
    + destruct (Ascii.eqb c "/" && negb (String.eqb seen ""));
        [|now apply elem_of_nil in H].
      apply list_elem_of_singleton in H as ->. lia.
    + apply IH in H. rewrite String_length_append in H.
      cbn [String.length] in H. lia.
Qed.

(** Neither a directory nor one of its ancestors is a path below it. *)
Lemma below_not_ancestor (dnam tail p : string) :
  p ∈ os.ancestors dnam ++ [dnam] ->
  tail <> "" ->
  p <> dnam +:+ tail.
Proof.
  intros Hp Ht ->. apply elem_of_app in Hp as [Hp | Hp].
  - apply ancestors_from_length in Hp.
    rewrite String_length_append in Hp. cbn in Hp. lia.
  - apply list_elem_of_singleton in Hp.
    apply (f_equal String.length) in Hp.
    rewrite String_length_append in Hp.
    destruct tail; [congruence | cbn in Hp; lia].
Qed.

Lemma MkdirAll_ok (path : string) (w w' : os.World) :
  os.MkdirAll path w = (None, w') ->
  let all := os.ancestors path ++ [path] in
  w' = os.set_dirs (list_to_set all ∪ os.dirs w) w
  /\ Forall (fun p => p ∉ dom (os.files w)) all.
Proof.
  unfold os.MkdirAll. intros H. cbn zeta.
  case_bool_decide as H1; [discriminate H |].
  case_bool_decide as H2; [discriminate H |].
  injection H as <-. split; [reflexivity |].
  apply Forall_forall. intros p Hp Hin. apply H2.
  apply Exists_exists. eauto.
Qed.

(** Making again the directories that are there changes nothing, as long
    as no file has taken the place of one of them. *)
Lemma MkdirAll_again (path : string) (w : os.World) :
  let all := os.ancestors path ++ [path] in
  Forall (fun p => p ∈ os.dirs w) all ->
  Forall (fun p => p ∉ dom (os.files w)) all ->
  os.MkdirAll path w = (None, w).
Proof.
  cbn zeta. intros Hd Hf. unfold os.MkdirAll.
  rewrite bool_decide_eq_false_2.
  2:{ rewrite Exists_exists. intros (p & Hp & _ & Hn).
      rewrite Forall_forall in Hd. now apply Hn, Hd. }
  rewrite bool_decide_eq_false_2.
  2:{ rewrite Exists_exists. intros (p & Hp & Hin).
      rewrite Forall_forall in Hf. now apply (Hf p Hp). }
  f_equal. destruct w as [e i o f d dn]. unfold os.set_dirs. cbn.
  f_equal. apply subseteq_union_1_L. intros p Hp.
  apply elem_of_list_to_set in Hp. rewrite Forall_forall in Hd.
  now apply Hd.
Qed.

(** What a confirmed run of [UserAuthServerCert] leaves behind. *)
Lemma UserAuthServerCert_stored (c : Client) (w w1 : os.World) :
  UserAuthServerCert c w = (Returns None, w1) ->
  exists wire,
    c_scertWire c = Some wire
    /\ os.env w1 = os.env w
    /\ os.denied w1 = os.denied w
    /\ os.files w1 !! cert_path c w
       = Some (pem.Encode "CERTIFICATE" (http.Raw wire))
    /\ (cert_path c w ∉ os.denied w)
    /\ os.Getenv "HOME" w <> ""
    /\ let dnam := os.Getenv "HOME" w +:+ "/.config/lxc/servercerts" in
       Forall (fun p => p ∈ os.dirs w1) (os.ancestors dnam ++ [dnam])
       /\ Forall (fun p => p ∉ dom (os.files w1))
            (os.ancestors dnam ++ [dnam]).
Proof.
  unfold UserAuthServerCert.
  destruct (c_scertDigestSet c); cbn [negb]; [|discriminate].
  unfold ReadStdin. cbn [os.stdin os.Print os.set_stdout].
  destruct (os.stdin w) as [|line rest]; [discriminate |].
  destruct (Go.index line 0) as [l0|msg]; [|discriminate].
  destruct (negb _ && negb _)%bool; [discriminate |].
  change (os.Getenv "HOME" (os.set_stdin rest _))
    with (os.Getenv "HOME" w).
  destruct (String.eqb (os.Getenv "HOME" w) "") eqn:Eh; [discriminate |].
  apply String.eqb_neq in Eh.
  fold (cert_path c w).
  match goal with |- context [os.MkdirAll ?d ?w'] =>
    destruct (os.MkdirAll d w') as [[e|] w2] eqn:Em end; [discriminate |].
  apply MkdirAll_ok in Em as [-> Hnf]. cbn zeta in Hnf.
  cbn [os.files os.set_dirs] in Hnf.
  unfold os.Create.
  cbn [os.denied os.set_dirs os.dirs os.files].
  case_decide as Hden; [discriminate |].
  case_decide as Hdir; [discriminate |].
  destruct (match os.parent (cert_path c w) with
            | Some d => _
            | None => true
            end); [|discriminate].
  destruct (c_scertWire c) as [wire|]; [|discriminate].
  cbn. intros [= <-]. exists wire. cbn.
  split_and!; try reflexivity; try assumption.
  - now rewrite lookup_insert_eq, lookup_insert_eq.
  - apply Forall_forall. intros p Hp. apply elem_of_union. left.
    now apply elem_of_list_to_set.
  - apply Forall_forall. intros p Hp.
    rewrite !dom_insert, !elem_of_union, !elem_of_singleton.
    rewrite Forall_forall in Hnf.
    intros [Heq | [Heq | Hin]]; [| |now apply (Hnf p Hp)];
      revert Heq; unfold cert_path;
      apply (below_not_ancestor _ ("/" +:+ c_name c +:+ ".crt") _ Hp);
      discriminate.
Qed.

Section StoreProps.

Variable APIVersion : string.
Variable path_Join : list string -> string.
Variable url_Parse : string -> error.
Variable sha256_Sum256 : bytes -> bytes.
Variable pem_Decode : bytes -> option (string * bytes).
Variable x509_ParseCertificate : bytes -> error_value + http.Certificate.

Local Abbreviation get' :=
  (get APIVersion path_Join url_Parse json_Unmarshal_Response sha256_Sum256).
Local Abbreviation loadServerCert' :=
  (loadServerCert pem_Decode x509_ParseCertificate).

Lemma loadServerCert_client (c : Client) (w : os.World) (c' : Client) :
  (loadServerCert' c w).1 = Returns c' ->
  c' = c \/ exists cert, c' = set_scert cert c.
Proof.
  unfold loadServerCert.
  destruct (String.eqb (os.Getenv "HOME" w) ""); [now intros [= <-]; auto |].
  cbn zeta.
  destruct (os.MkdirAll _ w) as [[e|] w1]; [intros [= <-]; auto |].
  destruct (os.ReadFile _ _) as [e|cf]; [intros [= <-]; auto |].
  destruct (pem_Decode cf) as [[ty der]|]; cbn [deref]; [|discriminate].
  destruct (x509_ParseCertificate der) as [e|cert]; intros [= <-]; eauto.
Qed.


(** X12.  A stored file that holds no PEM block makes [loadServerCert]
    panic: the block that [pem.Decode] returns is used without a test for
    nil. *)
Theorem loadServerCert_not_PEM (c : Client) (w w1 : os.World)
    (cf : bytes) :
  os.Getenv "HOME" w <> "" ->
  os.MkdirAll (os.Getenv "HOME" w +:+ "/.config/lxc/servercerts") w
    = (None, w1) ->
  os.ReadFile (cert_path c w) w1 = inr cf ->
  pem_Decode cf = None ->
  (loadServerCert' c w).1
  = Panics "runtime error: nil pointer dereference".
Proof.
  intros Hh Hm Hr Hp. unfold loadServerCert.
  apply String.eqb_neq in Hh. rewrite Hh. cbn zeta. rewrite Hm.
  fold (cert_path c w). rewrite Hr, Hp. reflexivity.
Qed.

(** X13.  Trust on first use, round trip.  After the operator has
    confirmed the certificate of the connection ([UserAuthServerCert]
    returned nil), a client for the same remote loads it from the store:
    [loadServerCert] pins a certificate with the bytes of the confirmed
    one and leaves the store as it is; and [get] with this client refuses
    every answer over TLS whose first peer certificate has other bytes,
    with [Server certificate has changed].  The PEM decoder is assumed to
    read back the block the encoder wrote, and the parsed certificate to
    hold the bytes it was parsed from. *)
Theorem confirmed_certificate_is_pinned (c c0 : Client) (w w1 : os.World)
    (wire cert : http.Certificate) :
  UserAuthServerCert c w = (Returns None, w1) ->
  c_scertWire c = Some wire ->
  c_name c0 = c_name c ->
  pem_Decode (pem.Encode "CERTIFICATE" (http.Raw wire))
    = Some ("CERTIFICATE", http.Raw wire) ->
  x509_ParseCertificate (http.Raw wire) = inr cert ->
  http.Raw cert = http.Raw wire ->
  loadServerCert' c0 w1 = (Returns (set_scert cert c0), w1)
  /\ forall (base : string) (raw : http.Response)
            (tls : http.ConnectionState) (peer : http.Certificate),
       http.Get url_Parse (c_http c0)
         (url path_Join c0 [APIVersion; base]) = inr raw ->
       http.TLS raw = Some tls ->
       http.PeerCertificates tls !! 0%nat = Some peer ->
       http.Raw peer <> http.Raw wire ->
       get' (set_scert cert c0) base
       = Returns (set_scert cert c0,
                  inl (errorString "Server certificate has changed")).
Proof.
  intros Hu Hw Hn Hpem Hx Hraw.
  destruct (UserAuthServerCert_stored c w w1 Hu)
    as (wire' & Hw' & Henv & Hden & Hfile & Hnd & Hh & Hdirs & Hfiles).
  rewrite Hw in Hw'. injection Hw' as <-. cbn zeta in Hdirs, Hfiles.
  assert (Hhome : os.Getenv "HOME" w1 = os.Getenv "HOME" w)
    by (unfold os.Getenv; now rewrite Henv).
  split.
  - unfold loadServerCert. rewrite Hhome.
    apply String.eqb_neq in Hh. rewrite Hh. cbn zeta.
    rewrite (MkdirAll_again _ w1 Hdirs Hfiles), Hn.
    fold (cert_path c w).
    assert (Hr : os.ReadFile (cert_path c w) w1
                 = inr (pem.Encode "CERTIFICATE" (http.Raw wire))).
    { unfold os.ReadFile, os.Open. rewrite Hden.
      rewrite decide_False by exact Hnd.
      rewrite decide_True by (apply elem_of_dom; eauto).
      cbn iota. f_equal.
      exact (f_equal (default []) Hfile). }
    rewrite Hr, Hpem. cbn [deref]. rewrite Hx. reflexivity.
  - intros base raw tls peer Hg Ht Hp Hne.
    apply (get_checks_pin APIVersion path_Join url_Parse
             json_Unmarshal_Response sha256_Sum256 (set_scert cert c0)
             base cert peer tls raw);
      [reflexivity | exact Hg | exact Ht | exact Hp | now rewrite Hraw].
Qed.

End StoreProps.

Lemma loadServerCert_not_PEM_witness :
  (loadServerCert Fixture.pem_Decode Fixture.x509_keep_Raw
     Fixture.fresh_client Fixture.broken_store).1
  = Panics "runtime error: nil pointer dereference".
Proof.
  apply (loadServerCert_not_PEM Fixture.pem_Decode Fixture.x509_keep_Raw
           Fixture.fresh_client Fixture.broken_store Fixture.broken_store
           (Fixture.text "not a certificate")).
  - vm_compute. discriminate.
  - vm_compute. reflexivity.
  - vm_compute. reflexivity.
  - vm_compute. reflexivity.
Defined.

Lemma confirmed_certificate_is_pinned_witness :
  loadServerCert Fixture.pem_Decode Fixture.x509_keep_Raw
    Fixture.fresh_client
    (UserAuthServerCert Fixture.first_contact (Fixture.terminal "yes")).2
  = (Returns (set_scert Fixture.other_cert Fixture.fresh_client),
     (UserAuthServerCert Fixture.first_contact (Fixture.terminal "yes")).2).
Proof.
  destruct (confirmed_certificate_is_pinned Fixture.APIVersion
              Fixture.path_Join Fixture.url_Parse (fun der => der)
              Fixture.pem_Decode Fixture.x509_keep_Raw
              Fixture.first_contact Fixture.fresh_client
              (Fixture.terminal "yes")
              (UserAuthServerCert Fixture.first_contact
                 (Fixture.terminal "yes")).2
              Fixture.other_cert Fixture.other_cert) as [H _].
  - vm_compute. reflexivity.
  - reflexivity.
  - reflexivity.
  - vm_compute. reflexivity.
  - reflexivity.
  - reflexivity.
  - exact H.
Defined.

Section FirstContactProps.

Variable APIVersion : string.
Variable path_Join : list string -> string.
Variable url_Parse : string -> error.
Variable sha256_Sum256 : bytes -> bytes.

Local Abbreviation get' :=
  (get APIVersion path_Join url_Parse json_Unmarshal_Response sha256_Sum256).

(** X14.  First contact.  A client without a pinned certificate and
    without a recorded fingerprint, answered over TLS, comes back from
    [get] with the first certificate of the peer recorded, together with
    the SHA-256 digest of its bytes; and when the operator then confirms,
    what [UserAuthServerCert] writes into the file of the remote is the PEM
    text of that certificate. *)
Theorem first_contact_records_peer (c : Client) (base : string)
    (raw : http.Response) (tls : http.ConnectionState)
    (peer : http.Certificate) :
  c_scert c = None ->
  c_scertDigestSet c = false ->
  http.Get url_Parse (c_http c) (url path_Join c [APIVersion; base])
    = inr raw ->
  http.TLS raw = Some tls ->
  http.PeerCertificates tls !! 0%nat = Some peer ->
  exists c',
    get' c base = Returns (c', ParseResponse json_Unmarshal_Response raw)
    /\ c_scertWire c' = Some peer
    /\ c_scertDigest c' = sha256_Sum256 (http.Raw peer)
    /\ c_scertDigestSet c' = true
    /\ forall w w1,
         UserAuthServerCert c' w = (Returns None, w1) ->
         os.files w1 !! cert_path c w
         = Some (pem.Encode "CERTIFICATE" (http.Raw peer)).
Proof.
  intros Hpin Hset Hg Ht Hp.
  exists (set_scertWire_Digest peer (sha256_Sum256 (http.Raw peer)) c).
  split_and!; try reflexivity.
  - unfold get. rewrite Hg, Hpin, Hset, Ht. cbn [mbind outcome_bind].
    unfold Go.index. rewrite Hp. reflexivity.
  - intros w w1 Hu.
    destruct (UserAuthServerCert_stored _ _ _ Hu)
      as (wire & Hw & _ & _ & Hfile & _).
    cbn in Hw. injection Hw as <-. exact Hfile.
Qed.

End FirstContactProps.

Lemma first_contact_records_peer_witness :
  exists c',
    get Fixture.APIVersion Fixture.path_Join Fixture.url_Parse
      json_Unmarshal_Response (fun der => der) Fixture.fresh_client "finger"
    = Returns (c', inr Fixture.sync_envelope)
    /\ c_scertWire c' = Some Fixture.other_cert.
Proof.
  destruct (first_contact_records_peer Fixture.APIVersion Fixture.path_Join
              Fixture.url_Parse (fun der => der) Fixture.fresh_client
              "finger"
              (Fixture.answer 200 Fixture.sync_body (Some Fixture.other_tls))
              Fixture.other_tls Fixture.other_cert
              eq_refl eq_refl eq_refl eq_refl eq_refl)
    as (c' & Hg & Hw & _).
  exists c'. split; [|exact Hw].
  assert (Hp : ParseResponse json_Unmarshal_Response
                 (Fixture.answer 200 Fixture.sync_body
                    (Some Fixture.other_tls))
               = inr Fixture.sync_envelope) by (vm_compute; reflexivity).
  now rewrite Hg, Hp.
Defined.

(** ** Setting up a client *)

Lemma cut_colon_no_colon (raw a b : string) :
  cut_colon raw = Some (a, b) ->
  Forall (fun c => c <> ":"%char) (list_ascii_of_string a)
  /\ raw = a +:+ ":" +:+ b.
Proof.
  revert a. induction raw as [|c raw IH]; intros a; [discriminate |].
  cbn [cut_colon]. destruct (Ascii.eqb c ":") eqn:E.
  - apply Ascii.eqb_eq in E. subst c. intros [= <- <-].
    split; [constructor | reflexivity].
  - apply Ascii.eqb_neq in E.
    destruct (cut_colon raw) as [[a' b']|]; [|discriminate].
    cbn. intros [= <- <-]. destruct (IH a' eq_refl) as [Hf ->].
    split; [constructor; assumption | reflexivity].
Qed.

(** A text without a colon does not start with [unix:]. *)
Lemma no_colon_not_unix (a : string) :
  Forall (fun c => c <> ":"%char) (list_ascii_of_string a) ->
  String.eqb (substring 0 5 a) "unix:" = false.
Proof.
  intros Hf. apply String.eqb_neq. intros Heq.
  destruct a as [|c0 [|c1 [|c2 [|c3 [|c4 r]]]]]; try discriminate Heq.
  cbn in Heq. injection Heq as _ _ _ _ -> _.
  cbn in Hf. do 4 apply Forall_cons in Hf as [_ Hf].
  apply Forall_cons in Hf as [Hf _]. now apply Hf.
Qed.

Section ConnectProps.

Variable APIVersion : string.
Variable APICompat : Z.
Variable path_Join : list string -> string.
Variable url_Parse : string -> error.
Variable sha256_Sum256 : bytes -> bytes.
Variable Jmap_GetInt : gmap string json.value -> string -> Z * error.
Variable fmt_Errorf_2 : string -> Z -> Z -> error_value.
Variable pem_Decode : bytes -> option (string * bytes).
Variable x509_ParseCertificate : bytes -> error_value + http.Certificate.
Variable configPath : string -> string.
Variable FindOrGenCert : string -> string -> os.World -> error * os.World.
Variable tls_Certificate : Type.
Variable tls_LoadX509KeyPair :
  string -> string -> os.World -> error_value + tls_Certificate.
Variable Config RemoteConfig : Type.
Variable DefaultRemote : Config -> string.
Variable Remotes : Config -> gmap string RemoteConfig.
Variable Addr : RemoteConfig -> string.
Variable tls_Transport : tls_Certificate -> http.Client.
Variable unixTransport : http.Client.
Variable strconv_Quote : string -> string.

Local Abbreviation NewClient' :=
  (NewClient APIVersion APICompat path_Join url_Parse sha256_Sum256
     Jmap_GetInt fmt_Errorf_2 pem_Decode x509_ParseCertificate configPath
     FindOrGenCert tls_Certificate tls_LoadX509KeyPair Config RemoteConfig
     DefaultRemote Remotes Addr tls_Transport unixTransport strconv_Quote).
Local Abbreviation Finger' :=
  (Finger APIVersion APICompat path_Join url_Parse sha256_Sum256
     Jmap_GetInt fmt_Errorf_2).

Lemma Finger_inv (c c' : Client) (e : error) :
  Finger' c = Returns (c', e) ->
  c_name c' = c_name c /\ c_baseURL c' = c_baseURL c.
Proof.
  unfold Finger.
  destruct (get _ _ _ _ _ c "finger") as [[c1 r]|msg] eqn:Hg;
    [|discriminate].
  destruct (get_inv _ _ _ _ _ _ _ _ Hg) as (_ & Hn & Hb & _).
  cbn [mbind outcome_bind].
  destruct r as [err|resp]; [now intros [= <- <-] |].
  destruct (MetadataAsMap resp) as [err|jmap]; [now intros [= <- <-] |].
  destruct (Jmap_GetInt jmap "api_compat") as [n [err|]];
    [now intros [= <- <-] |].
  destruct (negb (n =? APICompat)); now intros [= <- <-].
Qed.

(** X15.  The remote in a name with a colon.  [NewClient] takes the text
    before the first colon as the remote, so that remote holds no colon
    and is never taken for a [unix:] address: when it is not empty and not
    a configured remote, [NewClient] fails with [unknown remote name]
    before any request is made (so for [unix:/var/lib/lxd/unix.socket],
    whose remote is [unix]). *)
Theorem NewClient_colon_remote (config : Config)
    (raw remote container : string) (w w1 : os.World)
    (cert : tls_Certificate) :
  cut_colon raw = Some (remote, container) ->
  remote <> "" ->
  Remotes config !! remote = None ->
  FindOrGenCert (configPath "client.crt") (configPath "client.key") w
    = (None, w1) ->
  tls_LoadX509KeyPair (configPath "client.crt") (configPath "client.key") w1
    = inr cert ->
  NewClient' config raw w
  = (Returns (inl (errorString ("unknown remote name: "
                                +:+ strconv_Quote remote))), w1).
Proof.
  intros Hcut Hne Hrem Hgen Hload.
  destruct (cut_colon_no_colon _ _ _ Hcut) as [Hnc _].
  unfold NewClient, readMyCert, strings_SplitN_colon_2.
  rewrite Hgen, Hload, Hcut. cbn [c_name c_http c_baseURL].
  apply String.eqb_neq in Hne. rewrite Hne.
  rewrite (no_colon_not_unix _ Hnc), andb_false_r, Hrem. reflexivity.
Qed.

(** X16.  What [NewClient] returns.  When it returns a client and a
    container name for [raw]: without a colon in [raw] the client is for
    the default remote and the container name is [raw]; with one, [raw] is
    the name of the client's remote, a colon and the container name.  The
    client talks to the local socket, which happens only for the empty
    remote or a default remote that starts with [unix:], or to the address
    configured for its remote. *)
Theorem NewClient_result (config : Config) (raw container : string)
    (c : Client) (w w' : os.World) :
  NewClient' config raw w = (Returns (inr (c, container)), w') ->
  ((cut_colon raw = None /\ c_name c = DefaultRemote config
    /\ container = raw)
   \/ (cut_colon raw = Some (c_name c, container)
       /\ raw = c_name c +:+ ":" +:+ container))
  /\ ((c_baseURL c = "http://unix.socket"
       /\ (c_name c = ""
           \/ (cut_colon raw = None
               /\ substring 0 5 (c_name c) = "unix:")))
      \/ exists r, Remotes config !! c_name c = Some r
                   /\ c_baseURL c = "https://" +:+ Addr r).
Proof.
  unfold NewClient, readMyCert, strings_SplitN_colon_2.
  destruct (FindOrGenCert _ _ w) as [[e|] w1]; [discriminate |].
  destruct (tls_LoadX509KeyPair _ _ w1) as [e|cert]; [discriminate |].
  cbn [c_name c_http c_baseURL c_certf c_keyf c_scert c_scertWire
       c_scertDigest c_scertDigestSet].
  set (split := match cut_colon raw with
                | Some (a, b) => [a; b]
                | None => [raw]
                end).
  destruct (match split with
            | [whole] => (DefaultRemote config, whole)
            | first :: second :: _ => (first, second)
            | [] => (EmptyString, EmptyString)
            end) as [remote ct] eqn:Hrc.
  assert (Hnames :
            (cut_colon raw = None /\ remote = DefaultRemote config
             /\ ct = raw)
            \/ (cut_colon raw = Some (remote, ct)
                /\ raw = remote +:+ ":" +:+ ct)).
  { subst split. destruct (cut_colon raw) as [[a b]|] eqn:Hcut.
    - injection Hrc as <- <-. right. split; [reflexivity |].
      now destruct (cut_colon_no_colon _ _ _ Hcut).
    - injection Hrc as <- <-. left. auto. }
  clearbody split. clear Hrc split.
  assert (Hfinish : forall (c0 : Client) (w0 : os.World),
            c_name c0 = remote ->
            match Finger' c0 with
            | Returns (c1, Some err) => (Returns (inl err), w0)
            | Returns (c1, None) => (Returns (inr (c1, ct)), w0)
            | Panics msg => (Panics msg, w0)
            end = (Returns (inr (c, container)), w') ->
            c_name c = remote /\ c_baseURL c = c_baseURL c0
            /\ container = ct).
  { intros c0 w0 Hn0.
    destruct (Finger' c0) as [[c1 [err|]]|msg] eqn:Hf; try discriminate.
    intros [= <- <- <-]. destruct (Finger_inv _ _ _ Hf) as [H1 H2].
    split_and!; congruence. }
  destruct (String.eqb remote "") eqn:Eempty.
  { apply String.eqb_eq in Eempty. intros H.
    apply Hfinish in H as (Hn & Hb & ->); [|reflexivity].
    rewrite Hn. split; [exact Hnames |].
    left. split; [exact Hb | left; exact Eempty]. }
  destruct ((6 <? String.length remote)%nat
            && String.eqb (substring 0 5 remote) "unix:") eqn:Eunix.
  { intros H. apply Hfinish in H as (Hn & Hb & ->); [|reflexivity].
    rewrite Hn. split; [exact Hnames |].
    left. split; [exact Hb |]. right.
    apply andb_true_iff in Eunix as [_ Eu]. apply String.eqb_eq in Eu.
    split; [|exact Eu].
    destruct Hnames as [(Hc & _ & _) | (Hc & _)]; [exact Hc |].
    destruct (cut_colon_no_colon _ _ _ Hc) as [Hnc _].
    apply no_colon_not_unix in Hnc. apply String.eqb_neq in Hnc.
    contradiction. }
  destruct (Remotes config !! remote) as [r|] eqn:Hr; [|discriminate].
  match goal with |- context [loadServerCert ?p ?x ?c0 w1] =>
    pose proof (loadServerCert_client p x c0 w1) as Hload;
    destruct (loadServerCert p x c0 w1) as [[c1|msg] w2]
  end; [|discriminate].
  intros H.
  assert (Hc1 : c_name c1 = remote
                /\ c_baseURL c1 = "https://" +:+ Addr r).
  { destruct (Hload c1 eq_refl) as [-> | [cert' ->]]; split; reflexivity. }
  destruct Hc1 as [Hn1 Hb1].
  apply Hfinish in H as (Hn & Hb & ->); [|exact Hn1].
  rewrite Hn. split; [exact Hnames |].
  right. exists r. split; [exact Hr | congruence].
Qed.

End ConnectProps.

Lemma NewClient_colon_remote_witness :
  NewClient Fixture.APIVersion Fixture.APICompat Fixture.path_Join
    Fixture.url_Parse (fun der => der) Fixture.Jmap_GetInt
    Fixture.fmt_Errorf_2 Fixture.pem_Decode Fixture.x509_keep_Raw
    Fixture.configPath Fixture.FindOrGenCert unit
    Fixture.tls_LoadX509KeyPair Fixture.Config string
    Fixture.DefaultRemote Fixture.Remotes (fun addr => addr)
    (fun _ => Fixture.server 200 Fixture.finger_body (Some Fixture.other_tls))
    (Fixture.server 200 Fixture.finger_body None) Fixture.strconv_Quote
    Fixture.config "unix:/var/lib/lxd/unix.socket" (Fixture.terminal "")
  = (Returns (inl (errorString
                     ("unknown remote name: "
                      +:+ Fixture.strconv_Quote "unix"))),
     Fixture.terminal "").
Proof.
  apply (NewClient_colon_remote Fixture.APIVersion Fixture.APICompat
           Fixture.path_Join Fixture.url_Parse (fun der => der)
           Fixture.Jmap_GetInt Fixture.fmt_Errorf_2 Fixture.pem_Decode
           Fixture.x509_keep_Raw Fixture.configPath Fixture.FindOrGenCert
           unit Fixture.tls_LoadX509KeyPair Fixture.Config string
           Fixture.DefaultRemote Fixture.Remotes (fun addr => addr)
           (fun _ => Fixture.server 200 Fixture.finger_body
                       (Some Fixture.other_tls))
           (Fixture.server 200 Fixture.finger_body None)
           Fixture.strconv_Quote Fixture.config
           "unix:/var/lib/lxd/unix.socket" "unix" "/var/lib/lxd/unix.socket"
           (Fixture.terminal "") (Fixture.terminal "") tt).
  - reflexivity.
  - discriminate.
  - vm_compute. reflexivity.
  - reflexivity.
  - reflexivity.
Defined.

Lemma NewClient_result_witness :
  exists c w',
    NewClient Fixture.APIVersion Fixture.APICompat Fixture.path_Join
      Fixture.url_Parse (fun der => der) Fixture.Jmap_GetInt
      Fixture.fmt_Errorf_2 Fixture.pem_Decode Fixture.x509_keep_Raw
      Fixture.configPath Fixture.FindOrGenCert unit
      Fixture.tls_LoadX509KeyPair Fixture.Config string
      Fixture.DefaultRemote Fixture.Remotes (fun addr => addr)
      (fun _ => Fixture.server 200 Fixture.finger_body
                  (Some Fixture.other_tls))
      (Fixture.server 200 Fixture.finger_body None)
      Fixture.strconv_Quote Fixture.config "srv:web1"
      (Fixture.terminal "")
    = (Returns (inr (c, "web1")), w')
    /\ cut_colon "srv:web1" = Some (c_name c, "web1")
    /\ c_baseURL c = "https://srv:8443".
Proof.
  assert (H : exists c w',
            NewClient Fixture.APIVersion Fixture.APICompat Fixture.path_Join
              Fixture.url_Parse (fun der => der) Fixture.Jmap_GetInt
              Fixture.fmt_Errorf_2 Fixture.pem_Decode Fixture.x509_keep_Raw
              Fixture.configPath Fixture.FindOrGenCert unit
              Fixture.tls_LoadX509KeyPair Fixture.Config string
              Fixture.DefaultRemote Fixture.Remotes (fun addr => addr)
              (fun _ => Fixture.server 200 Fixture.finger_body
                          (Some Fixture.other_tls))
              (Fixture.server 200 Fixture.finger_body None)
              Fixture.strconv_Quote Fixture.config "srv:web1"
              (Fixture.terminal "")
            = (Returns (inr (c, "web1")), w')).
  { eexists _, _. vm_compute. reflexivity. }
  destruct H as (c & w' & H). exists c, w'. split; [exact H |].
  destruct (NewClient_result Fixture.APIVersion Fixture.APICompat
              Fixture.path_Join Fixture.url_Parse (fun der => der)
              Fixture.Jmap_GetInt Fixture.fmt_Errorf_2 Fixture.pem_Decode
              Fixture.x509_keep_Raw Fixture.configPath Fixture.FindOrGenCert
              unit Fixture.tls_LoadX509KeyPair Fixture.Config string
              Fixture.DefaultRemote Fixture.Remotes (fun addr => addr)
              (fun _ => Fixture.server 200 Fixture.finger_body
                          (Some Fixture.other_tls))
              (Fixture.server 200 Fixture.finger_body None)
              Fixture.strconv_Quote Fixture.config "srv:web1" "web1" c
              (Fixture.terminal "") w' H)
    as [[(Hc & _) | (Hc & _)] Hurl]; [discriminate Hc |].
  split; [exact Hc |].
  injection Hc as Hn.
  destruct Hurl as [(_ & [He | (Hc' & _)]) | (r & Hr & Hb)].
  - rewrite He in Hn. discriminate Hn.
  - discriminate Hc'.
  - rewrite <- Hn in Hr. vm_compute in Hr. injection Hr as <-. exact Hb.
Defined.

(** ** An operation read from an answer *)

Section DecodedOperation.

Variable path_Join : list string -> string.
Variable url_Parse : string -> error.
Variable time_UnmarshalJSON : list ascii -> Time -> Time * error.

Local Abbreviation MetadataAsOperation' :=
  (MetadataAsOperation time_UnmarshalJSON).
Local Abbreviation WaitFor' :=
  (WaitFor path_Join url_Parse time_UnmarshalJSON).

Lemma Operation_setField_hooks (m : json.member) (o : Operation) :
  no_hooks o -> no_hooks (Operation_setField time_UnmarshalJSON m o).1.
Proof.
  intros Ho. destruct m as [[key raw] v]. unfold Operation_setField.
  repeat match goal with
         | |- context [if ?b then _ else _] => destruct b
         | |- context [let '(_, _) := ?p in _] => destruct p
         end; exact Ho.
Qed.

Lemma decode_object_hooks (ms : list json.member)
    (acc : Operation * error) :
  no_hooks acc.1 ->
  no_hooks
    (fold_left (json.decode_member (Operation_setField time_UnmarshalJSON))
       ms acc).1.
Proof.
  revert acc. induction ms as [|m ms IH]; intros acc Ha; [exact Ha |].
  cbn [fold_left]. apply IH. destruct acc as [o e].
  unfold json.decode_member.
  pose proof (Operation_setField_hooks m o Ha) as H.
  destruct (Operation_setField time_UnmarshalJSON m o). exact H.
Qed.

Lemma MetadataAsOperation_hooks (r : Response) (op : Operation) :
  MetadataAsOperation' r = inr op -> no_hooks op.
Proof.
  unfold MetadataAsOperation, json.Unmarshal.
  destruct (json.parse (resp_Metadata r)) as [[| | | | |ms]|];
    try discriminate.
  - intros [= <-]. repeat split.
  - unfold json.decode_object.
    pose proof (decode_object_hooks ms (Operation_zero, None)) as H.
    destruct (fold_left _ ms _) as [o [e|]]; [discriminate |].
    intros [= <-]. apply H. repeat split.
Qed.

(** X17.  An operation read from an answer has no hooks: whatever the
    metadata holds, the operation that [MetadataAsOperation] decodes, and
    so the one [WaitFor] returns, has no [Run] and no [Cancel] function and
    no channel; these fields are not part of the wire form. *)
Theorem decoded_operation_has_no_hooks (c : Client) (r : Response)
    (waitURL : string) (op : Operation) :
  MetadataAsOperation' r = inr op
  \/ WaitFor' c waitURL = Returns (inr op) ->
  op_Run op = None /\ op_Cancel op = None /\ op_Chan op = None.
Proof.
  intros [H | H]; [exact (MetadataAsOperation_hooks _ _ H) |].
  unfold WaitFor in H.
  destruct (slice_from_1 waitURL) as [tail|msg]; [|discriminate H].
  cbn [mbind outcome_bind] in H.
  destruct (http.Post _ _ _ _ _) as [e|raw]; [discriminate H |].
  destruct (ParseResponse _ raw) as [e|resp]; [discriminate H |].
  destruct (ParseError resp); [discriminate H |].
  injection H as H. exact (MetadataAsOperation_hooks _ _ H).
Qed.

End DecodedOperation.

Lemma decoded_operation_has_no_hooks_witness :
  WaitFor Fixture.path_Join Fixture.url_Parse Fixture.time_UnmarshalJSON
    (Fixture.local_client Fixture.running_body) "/1.0/operations/7"
  = Returns (inr Fixture.running_operation)
  /\ op_Run Fixture.running_operation = None
  /\ op_Cancel Fixture.running_operation = None
  /\ op_Chan Fixture.running_operation = None.
Proof.
  assert (H : WaitFor Fixture.path_Join Fixture.url_Parse
                Fixture.time_UnmarshalJSON
                (Fixture.local_client Fixture.running_body)
                "/1.0/operations/7"
              = Returns (inr Fixture.running_operation))
    by (vm_compute; reflexivity).
  split; [exact H |].
  apply (decoded_operation_has_no_hooks Fixture.path_Join Fixture.url_Parse
           Fixture.time_UnmarshalJSON
           (Fixture.local_client Fixture.running_body)
           Fixture.sync_envelope "/1.0/operations/7"
           Fixture.running_operation).
  right. exact H.
Defined.

(** ** The daemon's trust store *)

Section TrustStoreProps.

Variable VarPath : string -> string.
Variable ReadToJson :
  http.ReadCloser -> daemon.trustPostBody -> daemon.trustPostBody * error.
Variable base64_DecodeString : string -> bytes * error.
Variable x509_ParseCertificate : bytes -> error_value + http.Certificate.
Variable GenerateFingerprint : http.Certificate -> string.
Variable mux_Vars : http.Request -> gmap string string.
Variable range : gmap string http.Certificate
                 -> list (string * http.Certificate).

(** [range] goes through every entry of the map once, in some order. *)
Hypothesis range_all : forall m, range m ≡ₚ map_to_list m.

Local Abbreviation trustPost' :=
  (daemon.trustPost VarPath ReadToJson base64_DecodeString
     x509_ParseCertificate).
Local Abbreviation trustFingerprintGet' :=
  (daemon.trustFingerprintGet GenerateFingerprint mux_Vars range).
Local Abbreviation trustGet' :=
  (daemon.trustGet GenerateFingerprint range).

Lemma range_lookup (m : gmap string http.Certificate) (host : string)
    (cert : http.Certificate) :
  (host, cert) ∈ range m <-> m !! host = Some cert.
Proof. rewrite range_all. apply elem_of_map_to_list. Qed.

Lemma trustFingerprintGet_loop_cases (fp : string)
    (l : list (string * http.Certificate)) :
  (exists host cert,
     (host, cert) ∈ l /\ GenerateFingerprint cert = fp
     /\ daemon.trustFingerprintGet_loop GenerateFingerprint fp l
        = daemon.SyncResponse true (fingerprint_answer cert))
  \/ (Forall (fun hc => GenerateFingerprint hc.2 <> fp) l
      /\ daemon.trustFingerprintGet_loop GenerateFingerprint fp l
         = daemon.Plain daemon.NotFound).
Proof.
  induction l as [|[host cert] l IH].
  - right. split; [constructor | reflexivity].
  - cbn [daemon.trustFingerprintGet_loop].
    destruct (String.eqb fp (GenerateFingerprint cert)) eqn:E.
    + apply String.eqb_eq in E. left. exists host, cert.
      split_and!; [left | easy | reflexivity].
    + apply String.eqb_neq in E.
      destruct IH as [(h & c & Hin & Hfp & ->) | [Hall ->]].
      * left. exists h, c. split_and!; [now right | easy | reflexivity].
      * right. split; [constructor; [cbn; congruence | exact Hall]
                      | reflexivity].
Qed.

(** X18.  The lookup by fingerprint.  [trustFingerprintGet] answers
    [NotFound] exactly when no stored certificate has the fingerprint
    asked for; otherwise it answers with a stored certificate that has
    this fingerprint, as base64 of its bytes, in whatever order the map is
    gone through. *)
Theorem trustFingerprintGet_found_iff (d : daemon.Daemon)
    (r : http.Request) :
  let fp := default "" (mux_Vars r !! "fingerprint") in
  (trustFingerprintGet' d r = daemon.Plain daemon.NotFound
   <-> forall host cert, daemon.clientCerts d !! host = Some cert ->
                         GenerateFingerprint cert <> fp)
  /\ (trustFingerprintGet' d r <> daemon.Plain daemon.NotFound ->
      exists host cert,
        daemon.clientCerts d !! host = Some cert
        /\ GenerateFingerprint cert = fp
        /\ trustFingerprintGet' d r
           = daemon.SyncResponse true (fingerprint_answer cert)).
Proof.
  cbn zeta. unfold daemon.trustFingerprintGet.
  set (fp := default "" (mux_Vars r !! "fingerprint")).
  destruct (trustFingerprintGet_loop_cases fp
              (range (daemon.clientCerts d)))
    as [(h & c & Hin & Hfp & Heq) | [Hall Heq]]; rewrite Heq.
  - apply range_lookup in Hin. split.
    + split; [discriminate |]. intros Hno. now apply Hno in Hin.
    + intros _. eauto.
  - split; [|congruence]. split; [|reflexivity]. intros _ host cert Hl.
    apply range_lookup in Hl. rewrite Forall_forall in Hall.
    exact (Hall _ Hl).
Qed.

(** What [trustPost] does to the store: on success the certificate is
    under the server name and [saveCert] has run; in every other case the
    store is as it was. *)
Lemma trustPost_cases (d : daemon.Daemon) (r : http.Request)
    (w : os.World) :
  (exists tls cert w',
     trustPost' d r w
     = (Returns daemon.EmptySyncResponse,
        daemon.mkDaemon (<[http.ServerName tls := cert]>
                           (daemon.clientCerts d)), w')
     /\ http.ReqTLS r = Some tls
     /\ daemon.saveCert VarPath (http.ServerName tls) cert w = (None, w'))
  \/ ((trustPost' d r w).1.1 <> Returns daemon.EmptySyncResponse
      /\ (trustPost' d r w).1.2 = d).
Proof.
  unfold daemon.trustPost.
  destruct (ReadToJson _ _) as [req [e|]];
    [right; split; [discriminate | reflexivity] |].
  destruct (daemon.trustPost_cert _ _ req r) as [[resp|cert]|msg] eqn:Hc;
    [| |right; split; [discriminate | reflexivity]].
  - right. split; [|reflexivity]. cbn. intros [= ->].
    unfold daemon.trustPost_cert in Hc.
    destruct (negb _).
    + destruct (base64_DecodeString _) as [data [e|]];
        [discriminate Hc |].
      destruct (x509_ParseCertificate data); discriminate Hc.
    + destruct (deref (http.ReqTLS r)); [|discriminate Hc].
      cbn in Hc. destruct (Go.index _ _); discriminate Hc.
  - destruct (http.ReqTLS r) as [tls|]; cbn [deref];
      [|right; split; [discriminate | reflexivity]].
    destruct (daemon.saveCert VarPath (http.ServerName tls) cert w)
      as [[e|] w'] eqn:Hs;
      [right; split; [discriminate | reflexivity] |].
    left. exists tls, cert, w'. auto.
Qed.

(** X19.  The store changes on success only.  [trustPost] leaves the
    daemon's certificates as they were unless it answers with success; when
    it does, the request came over TLS, exactly the entry under the
    connection's server name is set (an earlier certificate under that
    name is replaced, every other host keeps its own), and the
    certificate's PEM text is in the file named after the host. *)
Theorem trustPost_store (d : daemon.Daemon) (r : http.Request)
    (w : os.World) :
  ((trustPost' d r w).1.1 <> Returns daemon.EmptySyncResponse ->
   (trustPost' d r w).1.2 = d)
  /\ ((trustPost' d r w).1.1 = Returns daemon.EmptySyncResponse ->
      exists tls cert,
        http.ReqTLS r = Some tls
        /\ daemon.clientCerts (trustPost' d r w).1.2
             !! http.ServerName tls = Some cert
        /\ (forall host, host <> http.ServerName tls ->
              daemon.clientCerts (trustPost' d r w).1.2 !! host
              = daemon.clientCerts d !! host)
        /\ os.files (trustPost' d r w).2
             !! client_cert_path VarPath (http.ServerName tls)
           = Some (pem.Encode "CERTIFICATE" (http.Raw cert))).
Proof.
  destruct (trustPost_cases d r w)
    as [(tls & cert & w' & -> & Ht & Hs) | [Hne Hd]].
  - split; [cbn; congruence |]. intros _. exists tls, cert. cbn.
    split_and!.
    + exact Ht.
    + apply lookup_insert_eq.
    + intros host Hh. now apply lookup_insert_ne.
    + pose proof (saveCert_ok VarPath (http.ServerName tls) cert w) as Hf.
      rewrite Hs in Hf. now apply Hf.
  - split; [intros _; exact Hd | contradiction].
Qed.

Lemma trustGet_body_fold (l : list (string * http.Certificate))
    (acc : list iface) :
  fold_left
    (fun body '(host, cert) =>
       body ++ [IMap (<["host" := IString host]>
                        (<["fingerprint" :=
                             IString (GenerateFingerprint cert)]> ∅))])
    l acc
  = acc ++ map (fun hc => trust_entry GenerateFingerprint hc.1 hc.2) l.
Proof.
  revert acc. induction l as [|[host cert] l IH]; intros acc.
  - cbn. now rewrite app_nil_r.
  - cbn [fold_left map]. rewrite IH, <- app_assoc. reflexivity.
Qed.

(** X20.  A certificate that was added is found and listed.  After
    [trustPost] has answered with success, a certificate is stored under
    the connection's server name; the lookup by its fingerprint then
    answers with a stored certificate of that fingerprint (never
    [NotFound]), and the listing of [trustGet] has the entry of this host
    with this fingerprint. *)
Theorem trustPost_then_found (d d' : daemon.Daemon) (r : http.Request)
    (w w' : os.World) :
  trustPost' d r w = (Returns daemon.EmptySyncResponse, d', w') ->
  exists tls cert,
    http.ReqTLS r = Some tls
    /\ daemon.clientCerts d' !! http.ServerName tls = Some cert
    /\ (forall q,
          mux_Vars q !! "fingerprint" = Some (GenerateFingerprint cert) ->
          exists host cert',
            daemon.clientCerts d' !! host = Some cert'
            /\ GenerateFingerprint cert' = GenerateFingerprint cert
            /\ trustFingerprintGet' d' q
               = daemon.SyncResponse true (fingerprint_answer cert'))
    /\ (forall q, exists body,
          trustGet' d' q = daemon.SyncResponse true (ISlice body)
          /\ trust_entry GenerateFingerprint (http.ServerName tls) cert
             ∈ body).
Proof.
  intros Hpost.
  destruct (trustPost_cases d r w)
    as [(tls & cert & w1 & Heq & Ht & _) | [Hne _]];
    [|rewrite Hpost in Hne; now contradiction Hne].
  rewrite Hpost in Heq. injection Heq as -> _.
  assert (Hl : daemon.clientCerts
                 (daemon.mkDaemon (<[http.ServerName tls := cert]>
                                     (daemon.clientCerts d)))
                 !! http.ServerName tls = Some cert)
    by apply lookup_insert_eq.
  exists tls, cert. split_and!; [exact Ht | exact Hl | |].
  - intros q Hq. unfold daemon.trustFingerprintGet. rewrite Hq.
    cbn [default].
    match goal with |- context [range ?m] =>
      destruct (trustFingerprintGet_loop_cases
                  (GenerateFingerprint cert) (range m))
        as [(h & c & Hin & Hfp & Heq) | [Hall _]]
    end.
    + apply range_lookup in Hin. eauto.
    + apply range_lookup in Hl. rewrite Forall_forall in Hall.
      now apply Hall in Hl.
  - intros q. unfold daemon.trustGet. rewrite trustGet_body_fold.
    cbn [app]. eexists. split; [reflexivity |].
    apply range_lookup in Hl. apply list_elem_of_fmap.
    exists (http.ServerName tls, cert). auto.
Qed.

(** X21.  A request that did not come over TLS makes [trustPost] panic
    once its body is read: without a certificate in the body the peer
    certificates are looked up in the missing TLS state, and with one that
    parses, the server name is. *)
Theorem trustPost_without_TLS (d : daemon.Daemon) (r : http.Request)
    (w : os.World) (req : daemon.trustPostBody) :
  http.ReqTLS r = None ->
  ReadToJson (http.ReqBody r) daemon.trustPostBody_zero = (req, None) ->
  daemon.tpb_Certificate req = ""
  \/ (exists data cert,
        base64_DecodeString (daemon.tpb_Certificate req) = (data, None)
        /\ x509_ParseCertificate data = inr cert) ->
  trustPost' d r w
  = (Panics "runtime error: nil pointer dereference", d, w).
Proof.
  intros Ht Hr Hc. unfold daemon.trustPost, daemon.trustPost_cert.
  rewrite Hr, Ht.
  destruct (String.eqb (daemon.tpb_Certificate req) "") eqn:E;
    cbn [negb]; [reflexivity |].
  apply String.eqb_neq in E.
  destruct Hc as [Hc | (data & cert & Hb & Hx)]; [contradiction |].
  rewrite Hb, Hx. reflexivity.
Qed.


(** X22.  The listing holds every stored certificate once: [trustGet]
    answers with as many entries as the daemon has certificates, and an
    entry of a host with a fingerprint is listed exactly when the
    certificate stored for the host has this fingerprint. *)
Theorem trustGet_lists_all (d : daemon.Daemon) (r : http.Request) :
  exists body,
    trustGet' d r = daemon.SyncResponse true (ISlice body)
    /\ length body = size (daemon.clientCerts d)
    /\ forall host cert,
         daemon.clientCerts d !! host = Some cert ->
         trust_entry GenerateFingerprint host cert ∈ body.
Proof.
  unfold daemon.trustGet. rewrite trustGet_body_fold. cbn [app].
  eexists. split; [reflexivity |]. split.
  - rewrite length_map, range_all. apply length_map_to_list.
  - intros host cert Hl. apply range_lookup in Hl.
    apply list_elem_of_fmap. exists (host, cert). auto.
Qed.

End TrustStoreProps.

Section PasswordFileProps.

Variable VarPath : string -> string.
Variable PW_SALT_BYTES PW_HASH_BYTES : nat.
Variable scrypt_Key : bytes -> bytes -> Z -> Z -> Z -> nat -> bytes * error.

(** X23.  The password file and the check.  With a password file that
    holds a salt of [PW_SALT_BYTES] bytes followed by a hash of
    [PW_HASH_BYTES] bytes, [verifyAdminPwd] accepts a password exactly when
    scrypt of the password under that salt, with N = 2^14, r = 8, p = 1 and
    the hash length, gives that hash without an error; the check sees
    nothing else of the daemon or of the world. *)
Theorem verifyAdminPwd_stored (d : daemon.Daemon) (password : string)
    (w : os.World) (salt hash : bytes) :
  VarPath "adminpwd" ∉ os.denied w ->
  os.files w !! VarPath "adminpwd" = Some (salt ++ hash) ->
  length salt = PW_SALT_BYTES ->
  length hash = PW_HASH_BYTES ->
  (0 < PW_SALT_BYTES + PW_HASH_BYTES)%nat ->
  daemon.verifyAdminPwd VarPath PW_SALT_BYTES PW_HASH_BYTES scrypt_Key
    d password w = true
  <-> scrypt_Key (list_byte_of_string password) salt 16384 8 1
        PW_HASH_BYTES = (hash, None).
Proof.
  intros Hden Hfile Hs Hh Hpos. unfold daemon.verifyAdminPwd, os.Open.
  rewrite decide_False by exact Hden.
  rewrite decide_True by (apply elem_of_dom; eauto).
  unfold os.Read. 
  assert (Hf : default [] (os.files w !! VarPath "adminpwd") = salt ++ hash)
    by exact (f_equal (default []) Hfile).
  rewrite Hf.
  assert (Hlen : length (salt ++ hash)
                 = (PW_SALT_BYTES + PW_HASH_BYTES)%nat)
    by (rewrite length_app; lia).
  destruct (salt ++ hash) as [|b content] eqn:Hcontent;
    [cbn in Hlen; lia |].
  cbn iota.
  rewrite (take_ge (b :: content) (PW_SALT_BYTES + PW_HASH_BYTES)) by lia.
  replace (PW_SALT_BYTES + PW_HASH_BYTES - length (b :: content))%nat
    with 0%nat by lia.
  cbn [replicate]. rewrite app_nil_r, <- Hcontent.
  rewrite take_app_length' by (symmetry; exact Hs).
  rewrite drop_app_length' by (symmetry; exact Hs).
  change (Z.shiftl 1 14) with 16384.
  destruct (scrypt_Key _ salt _ _ _ _) as [key [e|]].
  - split; [discriminate | intros [= _ H]; discriminate H].
  - unfold bytes_Equal. case_bool_decide as Heq; cbn [negb].
    + subst key. split; reflexivity.
    + split; [discriminate | intros [= ->]; contradiction].
Qed.

(** X24.  No password file, no password: a password that
    [verifyAdminPwd] accepts implies that [hasPwd] sees a password file, so
    on a daemon without one every password is rejected. *)
Theorem verifyAdminPwd_needs_file (d : daemon.Daemon) (password : string)
    (w : os.World) :
  daemon.verifyAdminPwd VarPath PW_SALT_BYTES PW_HASH_BYTES scrypt_Key
    d password w = true ->
  daemon.hasPwd VarPath d w = true.
Proof.
  unfold daemon.verifyAdminPwd, daemon.hasPwd.
  destruct (os.Open (VarPath "adminpwd") w); [discriminate | reflexivity].
Qed.

End PasswordFileProps.

Lemma verifyAdminPwd_stored_witness :
  daemon.verifyAdminPwd Fixture.VarPath 32 64 Fixture.kdf
    Fixture.empty_daemon "secret" Fixture.daemon_world = true
  <-> Fixture.kdf (list_byte_of_string "secret") Fixture.salt 16384 8 1 64
      = ((Fixture.kdf (Fixture.text "secret") Fixture.salt
            (Z.shiftl 1 14) 8 1 64).1, None).
Proof.
  apply (verifyAdminPwd_stored Fixture.VarPath 32%nat 64%nat Fixture.kdf
           Fixture.empty_daemon "secret" Fixture.daemon_world Fixture.salt
           (Fixture.kdf (Fixture.text "secret") Fixture.salt
              (Z.shiftl 1 14) 8 1 64).1).
  - vm_compute. discriminate.
  - vm_compute. reflexivity.
  - reflexivity.
  - vm_compute. reflexivity.
  - lia.
Defined.

Lemma verifyAdminPwd_needs_file_witness :
  daemon.hasPwd Fixture.VarPath Fixture.empty_daemon Fixture.daemon_world
  = true.
Proof.
  apply (verifyAdminPwd_needs_file Fixture.VarPath 32%nat 64%nat
           Fixture.kdf Fixture.empty_daemon "secret" Fixture.daemon_world).
  vm_compute. reflexivity.
Defined.

Lemma range_map_to_list (m : gmap string http.Certificate) :
  map_to_list m ≡ₚ map_to_list m.
Proof. reflexivity. Qed.

Lemma trustFingerprintGet_found_iff_witness :
  exists host cert,
    daemon.clientCerts Fixture.laptop_daemon !! host = Some cert
    /\ Fixture.fingerprint cert = Fixture.fingerprint Fixture.laptop_cert
    /\ daemon.trustFingerprintGet Fixture.fingerprint Fixture.mux_Vars
         map_to_list Fixture.laptop_daemon
         (Fixture.lookup_request
            (Fixture.fingerprint Fixture.laptop_cert))
       = daemon.SyncResponse true (fingerprint_answer cert).
Proof.
  destruct (trustFingerprintGet_found_iff Fixture.fingerprint
              Fixture.mux_Vars map_to_list range_map_to_list
              Fixture.laptop_daemon
              (Fixture.lookup_request
                 (Fixture.fingerprint Fixture.laptop_cert)))
    as [_ Hfound].
  apply Hfound. vm_compute. discriminate.
Defined.

Lemma trustPost_then_found_witness :
  exists tls cert,
    http.ReqTLS (Fixture.trust_request "secret") = Some tls
    /\ daemon.clientCerts Fixture.laptop_daemon !! http.ServerName tls
       = Some cert
    /\ daemon.trustFingerprintGet Fixture.fingerprint Fixture.mux_Vars
         map_to_list Fixture.laptop_daemon
         (Fixture.lookup_request (Fixture.fingerprint cert))
       <> daemon.Plain daemon.NotFound.
Proof.
  destruct (trustPost_then_found Fixture.VarPath Fixture.ReadToJson
              Fixture.base64_DecodeString Fixture.x509_ParseCertificate
              Fixture.fingerprint Fixture.mux_Vars map_to_list
              range_map_to_list Fixture.empty_daemon Fixture.laptop_daemon
              (Fixture.trust_request "secret") Fixture.daemon_world
              (daemon.trustPost Fixture.VarPath Fixture.ReadToJson
                 Fixture.base64_DecodeString Fixture.x509_ParseCertificate
                 Fixture.empty_daemon (Fixture.trust_request "secret")
                 Fixture.daemon_world).2)
    as (tls & cert & Ht & Hl & Hfound & _).
  - vm_compute. reflexivity.
  - exists tls, cert. split_and!; [exact Ht | exact Hl |].
    destruct (Hfound (Fixture.lookup_request (Fixture.fingerprint cert)))
      as (host & cert' & _ & _ & ->); [|discriminate].
    unfold Fixture.mux_Vars, Fixture.lookup_request. cbn [http.URL].
    rewrite lookup_singleton_eq. f_equal.
    generalize (Fixture.fingerprint cert). intros fp.
    change (String.length ("/1.0/trust/" +:+ fp) - 11)%nat
      with (String.length fp - 0)%nat.
    change (substring 11 (String.length fp - 0) ("/1.0/trust/" +:+ fp))
      with (substring 0 (String.length fp - 0) fp).
    rewrite Nat.sub_0_r. clear. induction fp as [|c fp IH]; [reflexivity |].
    cbn. now rewrite IH.
Defined.

Lemma trustPost_without_TLS_witness :
  daemon.trustPost Fixture.VarPath Fixture.ReadToJson
    Fixture.base64_DecodeString Fixture.x509_ParseCertificate
    Fixture.empty_daemon Fixture.local_trust_request Fixture.daemon_world
  = (Panics "runtime error: nil pointer dereference", Fixture.empty_daemon,
     Fixture.daemon_world).
Proof.
  apply (trustPost_without_TLS Fixture.VarPath Fixture.ReadToJson
           Fixture.base64_DecodeString Fixture.x509_ParseCertificate
           Fixture.empty_daemon Fixture.local_trust_request
           Fixture.daemon_world (daemon.mktrustPostBody "client" "" "")).
  - reflexivity.
  - vm_compute. reflexivity.
  - left. reflexivity.
Defined.

Lemma trustGet_lists_all_witness :
  exists body,
    daemon.trustGet Fixture.fingerprint map_to_list Fixture.laptop_daemon
      (Fixture.lookup_request "")
    = daemon.SyncResponse true (ISlice body)
    /\ length body = size (daemon.clientCerts Fixture.laptop_daemon)
    /\ forall host cert,
         daemon.clientCerts Fixture.laptop_daemon !! host = Some cert ->
         trust_entry Fixture.fingerprint host cert ∈ body.
Proof.
  apply (trustGet_lists_all Fixture.fingerprint map_to_list
           range_map_to_list Fixture.laptop_daemon
           (Fixture.lookup_request "")).
Defined.

(** ** The command line *)

Section RunProps.

Variable Stop Start Restart Freeze Unfreeze : string.
Variable run_command :
  lxc.command -> list string -> os.World -> error * os.World.

Local Abbreviation commands' :=
  (lxc.commands Stop Start Restart Freeze Unfreeze).
Local Abbreviation run' :=
  (lxc.run Stop Start Restart Freeze Unfreeze run_command).

Lemma commands_help : commands' !! "help" = Some lxc.helpCmd.
Proof. vm_compute. reflexivity. Qed.

Lemma Errorf_missing :
  fmt.Errorf "missing subcommand" = errorString "missing subcommand".
Proof. vm_compute. reflexivity. Qed.

(** [run] on arguments that are not a lone help flag. *)
Lemma run_subcommand (prog a : string) (rest : list string)
    (w : os.World) :
  rest <> [] \/ (a <> "-h" /\ a <> "--help") ->
  run' (prog :: a :: rest) w
  = if String.eqb a ""
       || match Go.index (list_ascii_of_string a) 0 with
          | Returns c => Ascii.eqb c "-"
          | Panics _ => false
          end
    then (Some (errorString "missing subcommand"), w)
    else match commands' !! a with
         | None => (Some (errorString ("unknown command: " +:+ a)), w)
         | Some cmd => run_command cmd (a :: rest) w
         end.
Proof.
  intros Hnot. unfold lxc.run.
  assert (Hargs : match prog :: a :: rest with
                  | [prog0; a1] =>
                      if String.eqb a1 "-h" || String.eqb a1 "--help"
                      then [prog0; "help"]
                      else prog :: a :: rest
                  | _ => prog :: a :: rest
                  end = prog :: a :: rest).
  { destruct rest as [|b rest]; [|reflexivity].
    destruct Hnot as [Hr | [H1 H2]]; [congruence |].
    apply String.eqb_neq in H1, H2. now rewrite H1, H2. }
  rewrite Hargs. cbn zeta. rewrite Errorf_missing.
  destruct (String.eqb a "" || _); reflexivity.
Qed.

(** X25.  The help flag.  As the only argument, [-h] and [--help] run the
    command [help], with [help] as its argument list; followed by anything
    they are an option before the subcommand, and [run] fails with
    [missing subcommand] without running a command. *)
Theorem run_help_flag (prog : string) (w : os.World) :
  run' [prog; "-h"] w = run_command lxc.helpCmd ["help"] w
  /\ run' [prog; "--help"] w = run_command lxc.helpCmd ["help"] w
  /\ run' [prog; "help"] w = run_command lxc.helpCmd ["help"] w
  /\ forall a rest,
       run' (prog :: "-h" :: a :: rest) w
       = (Some (errorString "missing subcommand"), w)
       /\ run' (prog :: "--help" :: a :: rest) w
          = (Some (errorString "missing subcommand"), w).
Proof.
  split_and!.
  - unfold lxc.run. cbn. now rewrite commands_help.
  - unfold lxc.run. cbn. now rewrite commands_help.
  - unfold lxc.run. cbn. now rewrite commands_help.
  - intros a rest.
    split; rewrite run_subcommand by (left; discriminate); reflexivity.
Qed.

(** X26.  Options go after the subcommand.  When the first argument
    starts with a dash, and is not [-h] or [--help] standing alone, [run]
    fails with [missing subcommand] and runs nothing, whatever follows. *)
Theorem run_leading_option (prog a : string) (rest : list string)
    (w : os.World) :
  Go.index (list_ascii_of_string a) 0 = Returns "-"%char ->
  rest <> [] \/ (a <> "-h" /\ a <> "--help") ->
  run' (prog :: a :: rest) w
  = (Some (errorString "missing subcommand"), w).
Proof.
  intros Hdash Hnot. rewrite (run_subcommand _ _ _ _ Hnot), Hdash.
  change (Ascii.eqb "-" "-") with true. now rewrite orb_true_r.
Qed.

(** X27.  [run] runs the command that is named, and known commands only.
    For a first argument that is not empty and does not start with a dash,
    [run] hands over to the command that the table [commands] holds under
    this very name, with the arguments from the name on as they were
    given; when the table has no such name it returns [unknown command]
    with the name and leaves the world as it is.  Without an argument, or
    with an empty one, it returns [missing subcommand]. *)
Theorem run_known_commands_only (w : os.World) :
  (forall prog name rest,
     name <> "" ->
     Go.index (list_ascii_of_string name) 0 <> Returns "-"%char ->
     run' (prog :: name :: rest) w
     = match commands' !! name with
       | Some cmd => run_command cmd (name :: rest) w
       | None => (Some (errorString ("unknown command: " +:+ name)), w)
       end)
  /\ run' [] w = (Some (errorString "missing subcommand"), w)
  /\ (forall prog, run' [prog] w
                   = (Some (errorString "missing subcommand"), w))
  /\ (forall prog rest,
        run' (prog :: "" :: rest) w
        = (Some (errorString "missing subcommand"), w)).
Proof.
  split_and!.
  - intros prog name rest Hne Hdash.
    assert (Hnot : rest <> [] \/ (name <> "-h" /\ name <> "--help")).
    { right. split; intros ->; now apply Hdash. }
    rewrite (run_subcommand _ _ _ _ Hnot).
    apply String.eqb_neq in Hne. rewrite Hne. cbn [orb].
    destruct (Go.index (list_ascii_of_string name) 0) as [c|msg] eqn:Hi;
      [|reflexivity].
    destruct (Ascii.eqb c "-") eqn:Ec; [|reflexivity].
    apply Ascii.eqb_eq in Ec. subst c. now contradiction Hdash.
  - unfold lxc.run. cbn. now rewrite Errorf_missing.
  - intros prog. unfold lxc.run. cbn. now rewrite Errorf_missing.
  - intros prog rest.
    now rewrite run_subcommand by (right; split; discriminate).
Qed.

End RunProps.

Lemma run_leading_option_witness :
  lxc.run "stop" "start" "restart" "freeze" "unfreeze"
    (fun _ _ w => (None, w)) ["lxc"; "--debug"; "list"]
    (Fixture.terminal "")
  = (Some (errorString "missing subcommand"), Fixture.terminal "").
Proof.
  apply (run_leading_option "stop" "start" "restart" "freeze" "unfreeze"
           (fun _ _ w => (None, w)) "lxc" "--debug" ["list"]
           (Fixture.terminal "")).
  - reflexivity.
  - left. discriminate.
Defined.

Lemma run_known_commands_only_witness :
  lxc.run "stop" "start" "restart" "freeze" "unfreeze"
    (fun cmd args w => (None, os.Print (String.concat " " args) w))
    ["lxc"; "list"; "--debug"] (Fixture.terminal "")
  = (None, os.Print "list --debug" (Fixture.terminal ""))
  /\ lxc.run "stop" "start" "restart" "freeze" "unfreeze"
       (fun cmd args w => (None, os.Print (String.concat " " args) w))
       ["lxc"; "lits"] (Fixture.terminal "")
     = (Some (errorString "unknown command: lits"), Fixture.terminal "").
Proof.
  destruct (run_known_commands_only "stop" "start" "restart" "freeze"
              "unfreeze"
              (fun cmd args w => (None, os.Print (String.concat " " args) w))
              (Fixture.terminal "")) as (Hrun & _).
  split.
  - rewrite Hrun; [vm_compute; reflexivity | discriminate | discriminate].
  - rewrite Hrun; [vm_compute; reflexivity | discriminate | discriminate].
Defined.
